(** * Data Virtuality server log to CloudWatch: the ingestion pipeline

    A shallow embedding of [libs.py] and of the [log_auto] branch of
    [cloudwatch.py], followed by the properties of record reconstruction,
    batch planning, batch submission and resume after rotation.

    Python values are modelled as follows.
    - [str] is a sequence of Unicode code points; [len] counts code points.
    - [int] is [Z]; list indices and slice bounds are [nat].
    - An exception ends the computation: fallible functions return
      [exn + A].  A generator returns the records it yielded, in order,
      together with the exception that ended it, if any.
    - The boto3 client is a state-passing interface. *)

From Stdlib Require Import String Ascii.
From Stdlib Require Import List ZArith NArith Lia Bool.
From Stdlib Require Import Permutation Sorted.
Import ListNotations.

Local Open Scope Z_scope.

(** ** Text *)

Definition char := N.
Definition str := list char.

Definition len {A} (l : list A) : Z := Z.of_nat (length l).

(** A literal of ASCII characters. *)
Definition lit (s : string) : str := map N_of_ascii (list_ascii_of_string s).

Definition nl : char := 10%N.
Definition colon : char := 58%N.
Definition comma : char := 44%N.

Definition in_range (lo hi c : N) : bool := (N.leb lo c) && (N.leb c hi).

(** [0-9] *)
Definition ascii_digit (c : char) : bool := in_range 48 57 c.

(** [str.isspace] and the class [\s] of a [str] pattern. *)
Definition isspace (c : char) : bool :=
  in_range 9 13 c || in_range 28 32 c
  || N.eqb c 133 || N.eqb c 160 || N.eqb c 5760
  || in_range 8192 8202 c
  || N.eqb c 8232 || N.eqb c 8233 || N.eqb c 8239 || N.eqb c 8287
  || N.eqb c 12288.

Fixpoint lstrip (s : str) : str :=
  match s with
  | c :: r => if isspace c then lstrip r else s
  | [] => []
  end.

(** [s.strip()] *)
Definition strip (s : str) : str := rev (lstrip (rev (lstrip s))).

(** ** Exceptions and values of the standard library *)

Inductive exn : Type :=
| ValueError_strptime          (* raised inside [datetime.strptime] *)
| ValueError_currentDict_None  (* "currentDict should not be None." *)
| ValueError_date_used         (* the checkpoint date does not parse *)
| AssertionError
| ZoneInfoNotFoundError        (* raised by [ZoneInfo(name)] *)
| OverflowError                (* raised by [astimezone]: date value out of range *)
| ClientError (code : N).      (* raised by a call of the boto3 client *)

(** [datetime.time] *)
Record time : Type := mk_time {
  hour : Z;
  minute : Z;
  second : Z;
  microsecond : Z
}.

(** What the embedding takes from the Python runtime as given: the table of
    Unicode decimal digits beyond ASCII (the class [\d] of a [str] pattern
    and the digits [int] accepts), calendar dates with their order and
    their conversions from and to text, time zones, and
    [local_to_utc_timestamp], whose body only combines [datetime.combine],
    [astimezone] and [int(utc.timestamp() * 1000)]; it is [None] where
    [astimezone] raises [OverflowError], which it does when the instant in
    UTC falls outside the years 1 to 9999. *)
Class Runtime : Type := {
  unicode_decimal : char -> option Z;
  date : Type;
  date_ltb : date -> date -> bool;          (* [d1 < d2] *)
  strptime_date : str -> option date;       (* [strptime(s, '%Y-%m-%d').date()] *)
  strftime_date : date -> str;              (* [d.strftime("%Y-%m-%d")] *)
  str_date : date -> str;                   (* [str(d)] *)
  tzinfo : Type;
  ZoneInfo : str -> option tzinfo;          (* [None]: the constructor raises *)
  str_tzinfo : tzinfo -> str;               (* [str(tz)] *)
  local_to_utc_timestamp : date -> time -> tzinfo -> option Z
}.

Section Text.
Context {rt : Runtime}.

(** Digit value of a decimal digit, [None] for any other character. *)
Definition decimal (c : char) : option Z :=
  if ascii_digit c then Some (Z.of_N c - 48)
  else if N.ltb c 128 then None
  else unicode_decimal c.

(** [\d] *)
Definition isdecimal (c : char) : bool :=
  match decimal c with Some _ => true | None => false end.

(** [int(s)] for a string of decimal digits. *)
Fixpoint int_digits (acc : Z) (s : str) : option Z :=
  match s with
  | [] => Some acc
  | c :: r =>
      match decimal c with
      | Some v => int_digits (acc * 10 + v) r
      | None => None
      end
  end.

Definition py_int (s : str) : option Z :=
  match s with
  | [] => None
  | _ => int_digits 0 s
  end.

(** [re.match(r'^\d{2}:\d{2}:\d{2},\d{3}\s', line)]: the matched text
    ([matched.group()]), or [None]. *)
Definition re_timestamp (line : str) : option str :=
  match line with
  | h1 :: h2 :: c1 :: m1 :: m2 :: c2 :: s1 :: s2 :: c3 :: f1 :: f2 :: f3 :: sp :: _ =>
      if isdecimal h1 && isdecimal h2 && N.eqb c1 colon
         && isdecimal m1 && isdecimal m2 && N.eqb c2 colon
         && isdecimal s1 && isdecimal s2 && N.eqb c3 comma
         && isdecimal f1 && isdecimal f2 && isdecimal f3
         && isspace sp
      then Some (firstn 13%nat line)
      else None
  | _ => None
  end.

(** *** [datetime.strptime(_, "%H:%M:%S,%f")]

    The format compiles to
    [(?P<H>2[0-3]|[0-1]\d|\d):(?P<M>[0-5]\d|\d):(?P<S>6[0-1]|[0-5]\d|\d),(?P<f>[0-9]{1,6})].
    Each alternative takes the rest of the pattern as a continuation, so
    that alternatives are tried in order, with backtracking. *)

Definition orelse {A} (x y : option A) : option A :=
  match x with Some _ => x | None => y end.

Definition two_chars {A} (p1 p2 : char -> bool) (s : str)
    (k : str -> str -> option A) : option A :=
  match s with
  | a :: b :: r => if p1 a && p2 b then k [a; b] r else None
  | _ => None
  end.

Definition one_char {A} (p : char -> bool) (s : str)
    (k : str -> str -> option A) : option A :=
  match s with
  | a :: r => if p a then k [a] r else None
  | _ => None
  end.

Definition literal {A} (c : char) (s : str) (k : str -> option A) : option A :=
  match s with
  | a :: r => if N.eqb a c then k r else None
  | [] => None
  end.

Definition re_H {A} (s : str) (k : str -> str -> option A) : option A :=
  orelse (two_chars (N.eqb 50) (in_range 48 51) s k)
    (orelse (two_chars (in_range 48 49) isdecimal s k)
       (one_char isdecimal s k)).

Definition re_M {A} (s : str) (k : str -> str -> option A) : option A :=
  orelse (two_chars (in_range 48 53) isdecimal s k)
    (one_char isdecimal s k).

Definition re_S {A} (s : str) (k : str -> str -> option A) : option A :=
  orelse (two_chars (N.eqb 54) (in_range 48 49) s k)
    (orelse (two_chars (in_range 48 53) isdecimal s k)
       (one_char isdecimal s k)).

(** [[0-9]{0,n}], greedy. *)
Fixpoint ascii_digits (n : nat) (s : str) : str * str :=
  match n, s with
  | S n', c :: r =>
      if ascii_digit c
      then let (d, rest) := ascii_digits n' r in (c :: d, rest)
      else ([], s)
  | _, _ => ([], s)
  end.

Definition re_f {A} (s : str) (k : str -> str -> option A) : option A :=
  match ascii_digits 6 s with
  | ([], _) => None
  | (d, rest) => k d rest
  end.

(** The groups H, M, S, f and the text left after the match. *)
Definition re_format (s : str) : option (str * str * str * str * str) :=
  re_H s (fun gH r => literal colon r (fun r =>
  re_M r (fun gM r => literal colon r (fun r =>
  re_S r (fun gS r => literal comma r (fun r =>
  re_f r (fun gf r => Some (gH, gM, gS, gf, r)))))))).

Definition strptime_HMSf (s : str) : option time :=
  match re_format s with
  | Some (gH, gM, gS, gf, []) =>   (* else "unconverted data remains" *)
      match py_int gH, py_int gM, py_int gS,
            py_int (gf ++ repeat 48%N (6 - length gf)%nat) with
      | Some h, Some m, Some sec, Some us =>
          (* the [datetime] constructor checks the ranges *)
          if (h <=? 23) && (m <=? 59) && (sec <=? 59) && (us <=? 999999)
          then Some (mk_time h m sec us)
          else None
      | _, _, _, _ => None
      end
  | _ => None                      (* "does not match format" *)
  end.

Definition matchDate (line : str) : exn + (bool * option time) :=
  match re_timestamp line with
  | Some group =>
      let matchThis := strip group in
      match strptime_HMSf matchThis with
      | Some parsed_time => inr (true, Some parsed_time)
      | None => inl ValueError_strptime
      end
  | None => inr (false, None)
  end.

End Text.

(** [assert arg is not None; return arg] *)
Definition rem_opt {T} (arg : option T) : exn + T :=
  match arg with
  | Some a => inr a
  | None => inl AssertionError
  end.

(** ** Record reconstruction *)

(** The dictionaries [{"timestamp": int, "message": str}]. *)
Record LogEvent : Type := mk_event {
  timestamp : Z;
  message : str
}.

(** [if currentDict: yield currentDict].  A dictionary with two keys is
    true, [None] is false. *)
Definition flush (currentDict : option LogEvent) : list LogEvent :=
  match currentDict with
  | Some d => [d]
  | None => []
  end.

Definition SKIP_CHARS : nat := 13%nat.

Section Reconstructor.
Context {rt : Runtime}.
Variable date_of_log_entries : date.
Variable skip_num_entries : Z.
Variable tz : tzinfo.

(** The loop of [generate_dicts] from a given state: the records yielded
    from here on and the exception that ends the generator, if any. *)
Fixpoint generate_dicts_from (log_fh : list str)
    (currentDict : option LogEvent) (line_num : Z)
    : list LogEvent * option exn :=
  match log_fh with
  | [] => (flush currentDict, None)
  | line :: rest =>
      match matchDate line with
      | inl e => ([], Some e)
      | inr (true, parsed_time) =>
          let line_num := line_num + 1 in
          if line_num <=? skip_num_entries
          then generate_dicts_from rest currentDict line_num
          else
            match rem_opt parsed_time with
            | inl e => (flush currentDict, Some e)
            | inr t =>
                match local_to_utc_timestamp date_of_log_entries t tz with
                | None => (flush currentDict, Some OverflowError)
                | Some ts =>
                    let (out, e) :=
                      generate_dicts_from rest
                        (Some {| timestamp := ts;
                                 message := skipn SKIP_CHARS line |})
                        line_num in
                    (flush currentDict ++ out, e)
                end
            end
      | inr (false, _) =>
          if line_num <=? skip_num_entries
          then generate_dicts_from rest currentDict line_num
          else
            match currentDict with
            | None => ([], Some ValueError_currentDict_None)
            | Some d =>
                generate_dicts_from rest
                  (Some {| timestamp := timestamp d;
                           message := message d ++ line |})
                  line_num
            end
      end
  end.

End Reconstructor.

Definition generate_dicts {rt : Runtime} (log_fh : list str)
    (date_of_log_entries : date) (skip_num_entries : Z) (tz : tzinfo)
    : list LogEvent * option exn :=
  generate_dicts_from date_of_log_entries skip_num_entries tz log_fh None 0.

(** [list(generate_dicts(...))] *)
Definition list_of_generator {A} (g : list A * option exn) : exn + list A :=
  match g with
  | (l, None) => inr l
  | (_, Some e) => inl e
  end.

(** ** Batch planning *)

Definition EVENT_OVERHEAD : Z := 26.     (* plus 26 bytes for each log event. *)
Definition MAX_BYTES : Z := 1048576.     (* 1 MB max cumulative size *)
Definition MAX_EVENTS : Z := 10000.      (* 10,000 max events per batch *)

Notation "x <- e ;; k" :=
  (match e with inl err => inl err | inr x => k end)
  (at level 61, e at next level, right associativity, only parsing).

Notation "'assert!' b ;; k" :=
  (if b then k else inl AssertionError)
  (at level 61, b at next level, right associativity, only parsing).

(** [l[a:b]] for indices within [0 .. len(l)]. *)
Definition slice {A} (l : list A) (a b : nat) : list A :=
  firstn (b - a) (skipn a l).

(** The local variables of [create_batches] that the loop updates. *)
Record planner : Type := mk_planner {
  batches : list (list LogEvent);
  start_pos : nat;
  num_events : Z;
  cumulative_size : Z
}.

(** One iteration of [for idx, val in enumerate(events)]. *)
Definition plan_event (events : list LogEvent) (idx : nat) (val : LogEvent)
    (st : planner) : planner :=
  let num_events := num_events st + 1 in
  let size := len (message val) + EVENT_OVERHEAD in
  if (idx + 1 =? length events)%nat then
    (* last event *)
    {| batches := batches st ++ [skipn (start_pos st) events];
       start_pos := start_pos st;
       num_events := num_events;
       cumulative_size := cumulative_size st |}
  else if (num_events >? MAX_EVENTS) || (cumulative_size st + size >? MAX_BYTES) then
    (* we need to go back one to include the last event *)
    {| batches := batches st ++ [slice events (start_pos st) idx];
       start_pos := idx;
       num_events := 1;
       cumulative_size := size |}
  else
    {| batches := batches st;
       start_pos := start_pos st;
       num_events := num_events;
       cumulative_size := cumulative_size st + size |}.

Fixpoint plan_loop (events rest : list LogEvent) (idx : nat) (st : planner)
    : planner :=
  match rest with
  | [] => st
  | val :: rest' => plan_loop events rest' (S idx) (plan_event events idx val st)
  end.

(** The list [batches] as the loop of [create_batches] leaves it, before
    [test_batches] looks at it. *)
Definition planned_batches (events : list LogEvent) : list (list LogEvent) :=
  batches (plan_loop events events 0
             {| batches := []; start_pos := 0; num_events := 0;
                cumulative_size := 0 |}).

(** The inner loop of [test_batches]: [(sum_bytes, sum_events)].  The two
    [isinstance] assertions hold of every [LogEvent]. *)
Fixpoint test_batch (batch : list LogEvent) (overhead sum_bytes sum_events : Z)
    : Z * Z :=
  match batch with
  | [] => (sum_bytes, sum_events)
  | event :: rest =>
      test_batch rest overhead
        (sum_bytes + (len (message event) + overhead)) (sum_events + 1)
  end.

(** The outer loop of [test_batches]: the final [total_events]. *)
Fixpoint test_batches_loop (bs : list (list LogEvent))
    (overhead max_bytes max_events total_events : Z) : exn + Z :=
  match bs with
  | [] => inr total_events
  | batch :: rest =>
      assert! (len batch <=? max_events) ;;
      let total_events := total_events + len batch in
      let (sum_bytes, sum_events) := test_batch batch overhead 0 0 in
      assert! (sum_bytes <=? max_bytes) ;;
      assert! (sum_events <=? max_events) ;;
      assert! (sum_events =? len batch) ;;
      test_batches_loop rest overhead max_bytes max_events total_events
  end.

Definition test_batches (bs : list (list LogEvent))
    (TOTAL_NUM_EVENTS overhead max_bytes max_events : Z) : exn + unit :=
  total_events <- test_batches_loop bs overhead max_bytes max_events 0 ;;
  assert! (total_events =? TOTAL_NUM_EVENTS) ;;
  inr tt.

Definition create_batches (events : list LogEvent)
    : exn + list (list LogEvent) :=
  let batches := planned_batches events in
  _ <- test_batches batches (len events) EVENT_OVERHEAD MAX_BYTES MAX_EVENTS ;;
  inr batches.

(** *** The size the destination measures

    "The maximum batch size is 1,048,576 bytes. This size is calculated as
    the sum of all event messages in UTF-8, plus 26 bytes for each log
    event." *)

Definition utf8_len (c : char) : Z :=
  if N.ltb c 128 then 1
  else if N.ltb c 2048 then 2
  else if N.ltb c 65536 then 3
  else 4.

Definition byteLength (s : str) : Z :=
  fold_right (fun c n => utf8_len c + n) 0 s.

Definition batch_bytes (batch : list LogEvent) : Z :=
  fold_right (fun e n => byteLength (message e) + EVENT_OVERHEAD + n) 0 batch.

(** The size [test_batches] computes: messages measured by [len]. *)
Definition batch_chars (batch : list LogEvent) : Z :=
  fold_right (fun e n => len (message e) + EVENT_OVERHEAD + n) 0 batch.

(** The two constraints of the destination on one batch. *)
Definition within_limits (batch : list LogEvent) : Prop :=
  len batch <= MAX_EVENTS /\ batch_bytes batch <= MAX_BYTES.

(** ** The sink *)

Definition str_eqb (a b : str) : bool :=
  if list_eq_dec N.eq_dec a b then true else false.

(** An entry of [response.get('logStreams')]. *)
Record LogStream : Type := mk_stream {
  logStreamName : str;
  uploadSequenceToken : option str
}.

(** [rejectedLogEventsInfo] *)
Record RejectedInfo : Type := mk_rejected {
  tooNewLogEventStartIndex : option Z;
  tooOldLogEventEndIndex : option Z;
  expiredLogEventEndIndex : option Z
}.

(** The response of [put_log_events], as far as it is read. *)
Record PutResponse : Type := mk_response {
  nextSequenceToken : option str;
  rejectedLogEventsInfo : option RejectedInfo
}.

(** The three calls made on the boto3 client.  [S] is the state of the
    service; a call may raise.  The last argument of [put_log_events] is the
    keyword [sequenceToken], [None] when the keyword is not passed. *)
Record Client (S : Type) : Type := mk_client {
  describe_log_streams : S -> str -> str -> S * (exn + list LogStream);
  create_log_stream : S -> str -> str -> S * (exn + unit);
  put_log_events :
    S -> str -> str -> list LogEvent -> option str -> S * (exn + PutResponse)
}.

Arguments describe_log_streams {S} _ _ _ _.
Arguments create_log_stream {S} _ _ _ _.
Arguments put_log_events {S} _ _ _ _ _ _.

(** [next(locate(l, pred), None)] *)
Fixpoint locate_first {A} (pred : A -> bool) (l : list A) (idx : nat)
    : option nat :=
  match l with
  | [] => None
  | x :: r => if pred x then Some idx else locate_first pred r (S idx)
  end.

Section Sink.
Variable S : Type.
Variable client : Client S.

Definition init_aws_stream (s : S) (log_group_name log_stream_name : str)
    : S * (exn + option str) :=
  let (s, response) :=
    describe_log_streams client s log_group_name log_stream_name in
  match response with
  | inl e => (s, inl e)
  | inr streams =>
      match locate_first
              (fun x => str_eqb (logStreamName x) log_stream_name)
              streams 0 with
      | Some idx =>
          match nth_error streams idx with
          | Some st => (s, inr (uploadSequenceToken st))
          | None => (s, inl AssertionError)   (* out of range: not reached *)
          end
      | None =>
          (* Create the log stream we're looking for *)
          let (s, r) :=
            create_log_stream client s log_group_name log_stream_name in
          match r with
          | inl e => (s, inl e)
          | inr _ => (s, inr None)
          end
      end
  end.

(** The loop of [post_log_events], from a given [next_token] and list of
    [rejected_events]. *)
Fixpoint post_log_events_from (s : S) (log_group_name log_stream_name : str)
    (next_token : option str) (log_event_batches : list (list LogEvent))
    (rejected_events : list RejectedInfo) : S * (exn + list RejectedInfo) :=
  match log_event_batches with
  | [] => (s, inr rejected_events)
  | log :: rest =>
      let (s, r) :=
        match next_token with
        | None =>
            put_log_events client s log_group_name log_stream_name log None
        | Some t =>
            put_log_events client s log_group_name log_stream_name log
              (Some t)
        end in
      match r with
      | inl e => (s, inl e)
      | inr response =>
          (* Update the next token *)
          let next_token := nextSequenceToken response in
          let rejected_events :=
            match rejectedLogEventsInfo response with
            | Some info => rejected_events ++ [info]
            | None => rejected_events
            end in
          post_log_events_from s log_group_name log_stream_name next_token
            rest rejected_events
      end
  end.

Definition post_log_events (s : S) (log_group_name log_stream_name : str)
    (next_token : option str) (log_event_batches : list (list LogEvent))
    : S * (exn + list RejectedInfo) :=
  post_log_events_from s log_group_name log_stream_name next_token
    log_event_batches [].

End Sink.

Arguments init_aws_stream {S} _ _ _ _.
Arguments post_log_events_from {S} _ _ _ _ _ _ _.
Arguments post_log_events {S} _ _ _ _ _ _.

(** *** Observing the calls

    A client that behaves as [client] does and also writes every call down,
    with its arguments and its outcome, oldest call first. *)

Inductive Call : Type :=
| Describe (group prefix : str) (result : exn + list LogStream)
| Create (group name : str) (result : exn + unit)
| Put (group name : str) (events : list LogEvent) (token : option str)
      (result : exn + PutResponse).

Definition recording {S} (client : Client S) : Client (S * list Call) :=
  {| describe_log_streams := fun st g p =>
       let (s, r) := describe_log_streams client (fst st) g p in
       ((s, snd st ++ [Describe g p r]), r);
     create_log_stream := fun st g n =>
       let (s, r) := create_log_stream client (fst st) g n in
       ((s, snd st ++ [Create g n r]), r);
     put_log_events := fun st g n evs tok =>
       let (s, r) := put_log_events client (fst st) g n evs tok in
       ((s, snd st ++ [Put g n evs tok r]), r) |}.

(** The token a submission hands to the next one. *)
Definition token_after (result : exn + PutResponse) : option str :=
  match result with
  | inr response => nextSequenceToken response
  | inl _ => None
  end.

Definition succeeded {A} (result : exn + A) : bool :=
  match result with inr _ => true | inl _ => false end.

(** A run of submissions to one stream: the batches [bs] in order, each
    carrying the token handed over by the one before it, the first one
    [tok]; nothing follows a submission that raised. *)
Fixpoint submissions (g n : str) (tok : option str)
    (bs : list (list LogEvent)) (calls : list Call) : Prop :=
  match calls with
  | [] => bs = []
  | Put g' n' evs tok' result :: calls' =>
      g' = g /\ n' = n /\ tok' = tok /\
      match bs with
      | [] => False
      | b :: bs' =>
          evs = b /\
          if succeeded result
          then submissions g n (token_after result) bs' calls'
          else calls' = []
      end
  | _ :: _ => False
  end.

(** ** Processing one file *)

(** [log_events.sort(key=operator.itemgetter('timestamp'))]: ascending and
    stable. *)
Fixpoint insert_event (e : LogEvent) (l : list LogEvent) : list LogEvent :=
  match l with
  | [] => [e]
  | x :: r =>
      if timestamp e <? timestamp x then e :: l else x :: insert_event e r
  end.

Definition sort_by_timestamp (l : list LogEvent) : list LogEvent :=
  fold_left (fun sorted e => insert_event e sorted) l [].

Record ResultOfLogProcessing : Type := mk_result {
  log_group_name : str;
  log_stream_name : str;
  server_log_base_file_path : str;
  processed_server_log_file_path : str;
  date_used : str;
  num_events_processed : Z;
  num_events_skipped : Z;
  tzinfo_name : str;                 (* the field [tzinfo] *)
  num_batches : Z;
  start_time : str;
  end_time : str;
  elapsed_time : str;
  rejected_events : list RejectedInfo
}.

(** The three readings of the wall clock in a result, as text:
    [str(start_time)], [str(end_time)], [str(end_time - start_time)]. *)
Record Clock : Type := mk_clock {
  clock_start : str;
  clock_end : str;
  clock_elapsed : str
}.

Section ProcessLogFile.
Context {rt : Runtime}.
Variable S : Type.
Variable client : Client S.

(** [process_log_file], given the lines of the opened file, the state of
    the service and the readings of the clock. *)
Definition process_log_file (s : S) (clock : Clock) (f : list str)
    (skip_num_entries : Z) (tz : tzinfo) (date_of_log_entries : date)
    (server_log_base_file_path process_server_log_file_path : str)
    (log_stream_base_name log_group_name : str)
    : S * (exn + ResultOfLogProcessing) :=
  match list_of_generator
          (generate_dicts f date_of_log_entries skip_num_entries tz) with
  | inl e => (s, inl e)
  | inr log_events =>
      (* sort chronologically *)
      let log_events := sort_by_timestamp log_events in
      match create_batches log_events with
      | inl e => (s, inl e)
      | inr log_event_batches =>
          let curr_log_stream :=
            log_stream_base_name ++ strftime_date date_of_log_entries in
          let (s, r) := init_aws_stream client s log_group_name curr_log_stream in
          match r with
          | inl e => (s, inl e)
          | inr next_token =>
              let (s, r) :=
                post_log_events client s log_group_name curr_log_stream
                  next_token log_event_batches in
              match r with
              | inl e => (s, inl e)
              | inr rejected_events =>
                  (s, inr {|
                    log_stream_name := curr_log_stream;
                    log_group_name := log_group_name;
                    server_log_base_file_path := server_log_base_file_path;
                    processed_server_log_file_path :=
                      process_server_log_file_path;
                    date_used := str_date date_of_log_entries;
                    num_events_processed := len log_events;
                    num_events_skipped := skip_num_entries;
                    rejected_events := rejected_events;
                    tzinfo_name := str_tzinfo tz;
                    num_batches := len log_event_batches;
                    start_time := clock_start clock;
                    end_time := clock_end clock;
                    elapsed_time := clock_elapsed clock
                  |})
              end
          end
      end
  end.

End ProcessLogFile.

Arguments process_log_file {rt S} _ _ _ _ _ _ _ _ _ _ _.

(** ** The [log_auto] command *)

Definition LOG_GROUP_NAME : str := lit "DataVirtualityETLLogGroup".
Definition LOG_STREAM_BASE_NAME : str := lit "dv-server.log-".

(** [previous_results.f = v] for the four fields the branch assigns. *)
Definition reset_after_rotation (r : ResultOfLogProcessing)
    : ResultOfLogProcessing :=
  {| log_group_name := log_group_name r;
     log_stream_name := log_stream_name r;
     server_log_base_file_path := server_log_base_file_path r;
     processed_server_log_file_path := server_log_base_file_path r;
     date_used := date_used r;
     num_events_processed := 0;
     num_events_skipped := 0;
     tzinfo_name := tzinfo_name r;
     num_batches := 0;
     start_time := start_time r;
     end_time := end_time r;
     elapsed_time := elapsed_time r;
     rejected_events := rejected_events r |}.

(** The keyword arguments of one call of [process_log_file]. *)
Record ProcessCall {rt : Runtime} : Type := mk_call {
  arg_skip_num_entries : Z;
  arg_tzinfo : tzinfo;
  arg_date_of_log_entries : date;
  arg_server_log_base_file_path : str;
  arg_process_server_log_file_path : str;
  arg_log_stream_base_name : str;
  arg_log_group_name : str
}.

Section LogAuto.
Context {rt : Runtime}.

(** The world outside the program: the files that exist
    ([os.path.isfile]) and what a call of [process_log_file] does there.
    Such a call may raise. *)
Variable W : Type.
Variable isfile : W -> str -> bool.
Variable process : W -> ProcessCall -> W * (exn + ResultOfLogProcessing).

(** A call of [process_log_file] whose time zone is [ZoneInfo(name)]. *)
Definition call_process (w : W) (skip : Z) (name : str) (d : date)
    (base path : str) : W * (exn + ResultOfLogProcessing) :=
  match ZoneInfo name with
  | None => (w, inl ZoneInfoNotFoundError)
  | Some tz =>
      process w
        {| arg_skip_num_entries := skip;
           arg_tzinfo := tz;
           arg_date_of_log_entries := d;
           arg_server_log_base_file_path := base;
           arg_process_server_log_file_path := path;
           arg_log_stream_base_name := LOG_STREAM_BASE_NAME;
           arg_log_group_name := LOG_GROUP_NAME |}
  end.

(** The block under [if previous_date < today]: the world, and either an
    exception or [previous_results] and [all_results] as the block leaves
    them. *)
Definition handle_rotation (w : W)
    (previous_results : ResultOfLogProcessing) (previous_date : date)
    : W * (exn + (ResultOfLogProcessing * list ResultOfLogProcessing)) :=
  let rotated_server_log_path :=
    server_log_base_file_path previous_results ++ lit "."
      ++ date_used previous_results in
  let (w, r) :=
    if isfile w rotated_server_log_path then
      let (w, r) :=
        call_process w
          (num_events_processed previous_results
           + num_events_skipped previous_results)
          (tzinfo_name previous_results)
          previous_date
          (server_log_base_file_path previous_results)
          rotated_server_log_path in
      (w, results <- r ;; inr [results])
    else (w, inr []) in
  (* The server log has been rotated. Process the new server log and
     don't skip any entries *)
  (w, all_results <- r ;;
      inr (reset_after_rotation previous_results, all_results)).

(** The branch [COMMAND_LOG_AUTO], from the checkpoint that
    [read_prev_results] returned and the date [today]: the world and
    [all_results]. *)
Definition log_auto (w : W) (previous_results : ResultOfLogProcessing)
    (today : date) : W * (exn + list ResultOfLogProcessing) :=
  match strptime_date (date_used previous_results) with
  | None => (w, inl ValueError_date_used)
  | Some previous_date =>
      (* Handle the case when the server.log has been rotated *)
      let (w, r) :=
        if date_ltb previous_date today
        then handle_rotation w previous_results previous_date
        else (w, inr (previous_results, [])) in
      match r with
      | inl e => (w, inl e)
      | inr (previous_results, all_results) =>
          (* Process the current server.log *)
          let (w, r) :=
            call_process w
              (num_events_processed previous_results
               + num_events_skipped previous_results)
              (tzinfo_name previous_results)
              today
              (server_log_base_file_path previous_results)
              (processed_server_log_file_path previous_results) in
          (w, results <- r ;; inr (all_results ++ [results]))
      end
  end.

End LogAuto.

Arguments call_process {rt W} _ _ _ _ _ _ _.
Arguments handle_rotation {rt W} _ _ _ _ _.
Arguments log_auto {rt W} _ _ _ _ _.

(** The same world, with every call of [process_log_file] written down,
    oldest call first. *)
Definition recording_process {rt : Runtime} {W}
    (process : W -> ProcessCall -> W * (exn + ResultOfLogProcessing))
    (st : W * list ProcessCall) (c : ProcessCall)
    : (W * list ProcessCall) * (exn + ResultOfLogProcessing) :=
  let (w, r) := process (fst st) c in ((w, snd st ++ [c]), r).

Definition recording_isfile {A W} (isfile : W -> str -> bool)
    (st : W * list A) (path : str) : bool :=
  isfile (fst st) path.

(** ** Values used in examples *)

(** Lexicographic order on text; it orders ISO dates by time. *)
Fixpoint str_ltb (a b : str) : bool :=
  match a, b with
  | _, [] => false
  | [], _ :: _ => true
  | x :: a', y :: b' =>
      if N.ltb x y then true
      else if N.ltb y x then false
      else str_ltb a' b'
  end.

(** A runtime for examples: ASCII digits only, a date is its ISO text, a
    zone is its name, and a timestamp counts the milliseconds since
    midnight. *)
Definition example_runtime : Runtime :=
  {| unicode_decimal := fun _ => None;
     date := str;
     date_ltb := str_ltb;
     strptime_date := fun s => Some s;
     strftime_date := fun d => d;
     str_date := fun d => d;
     tzinfo := str;
     ZoneInfo := fun name => Some name;
     str_tzinfo := fun tz => tz;
     local_to_utc_timestamp := fun _ t _ =>
       Some (((hour t * 60 + minute t) * 60 + second t) * 1000
             + microsecond t / 1000) |}.

(** An event whose message is the character [c], [n] times. *)
Definition wide_event (c : char) (n : Z) : LogEvent :=
  {| timestamp := 0; message := repeat c (Z.to_nat n) |}.

(** A service for examples.  Its state is the list of the batches it has
    taken; it knows one stream, [known], with sequence token "49"; every
    submission succeeds and returns the token "50". *)
Definition example_client (known : str) : Client (list (list LogEvent)) :=
  {| describe_log_streams := fun s _ _ =>
       (s, inr [{| logStreamName := known;
                   uploadSequenceToken := Some (lit "49") |}]);
     create_log_stream := fun s _ _ => (s, inr tt);
     put_log_events := fun s _ _ evs _ =>
       (s ++ [evs],
        inr {| nextSequenceToken := Some (lit "50");
               rejectedLogEventsInfo := None |}) |}.

(** A line of text ending in a newline. *)
Definition line_of (s : string) : str := lit s ++ [nl].

(** The three lines of the example: a record of two lines and a record of
    one line. *)
Definition example_lines : list str :=
  [line_of "10:00:00,000 Start"; line_of "continuation";
   line_of "10:00:01,500 Done"].

Definition example_date : @date example_runtime := lit "2021-12-21".
Definition example_today : @date example_runtime := lit "2021-12-22".
Definition example_tz : @tzinfo example_runtime := lit "UTC".

(** A checkpoint written on 2021-12-21 after 7 processed and 3 skipped
    entries. *)
Definition example_checkpoint : ResultOfLogProcessing :=
  {| log_group_name := LOG_GROUP_NAME;
     log_stream_name := LOG_STREAM_BASE_NAME ++ lit "2021-12-21";
     server_log_base_file_path := lit "server.log";
     processed_server_log_file_path := lit "server.log";
     date_used := lit "2021-12-21";
     num_events_processed := 7;
     num_events_skipped := 3;
     tzinfo_name := lit "UTC";
     num_batches := 1;
     start_time := lit "2021-12-21 23:00:00";
     end_time := lit "2021-12-21 23:00:01";
     elapsed_time := lit "0:00:01";
     rejected_events := [] |}.

(** A world for examples: the list of the files that exist.  Processing a
    file finds two entries after those skipped and sends them in one
    batch. *)
Definition example_isfile (w : list str) (path : str) : bool :=
  existsb (str_eqb path) w.

Definition example_process (w : list str) (c : @ProcessCall example_runtime)
    : list str * (exn + ResultOfLogProcessing) :=
  (w, inr {| log_group_name := arg_log_group_name c;
             log_stream_name :=
               arg_log_stream_base_name c ++ arg_date_of_log_entries c;
             server_log_base_file_path := arg_server_log_base_file_path c;
             processed_server_log_file_path :=
               arg_process_server_log_file_path c;
             date_used := arg_date_of_log_entries c;
             num_events_processed := 2;
             num_events_skipped := arg_skip_num_entries c;
             tzinfo_name := arg_tzinfo c;
             num_batches := 1;
             start_time := lit "2021-12-22 00:05:00";
             end_time := lit "2021-12-22 00:05:01";
             elapsed_time := lit "0:00:01";
             rejected_events := [] |}).

(** ** Vocabulary of the statements *)

(** A runtime for examples at the ends of the calendar.  A date is its
    ordinal (1 for 0001-01-01, 3652059 for 9999-12-31), a zone its fixed
    offset east of UTC in seconds (32400 for Etc/GMT-9).  The conversion
    raises when the instant in UTC is before 0001-01-01 or after
    9999-12-31; for a time of whole seconds its value is the one the code
    computes. *)
Definition calendar_runtime : Runtime :=
  {| unicode_decimal := fun _ => None;
     date := Z;
     date_ltb := Z.ltb;
     strptime_date := fun _ => None;
     strftime_date := fun _ => [];
     str_date := fun _ => [];
     tzinfo := Z;
     ZoneInfo := fun _ => None;
     str_tzinfo := fun _ => [];
     local_to_utc_timestamp := fun d t offset =>
       let s := (d - 1) * 86400
                + (hour t * 60 + minute t) * 60 + second t - offset in
       if (s <? 0) || (3652059 * 86400 <=? s) then None
       else Some ((s - 62135596800) * 1000 + microsecond t / 1000) |}.

(** A line that matches the timestamp pattern. *)
Definition is_timestamp_line {rt : Runtime} (line : str) : bool :=
  match re_timestamp line with Some _ => true | None => false end.

(** The number of lines that match the timestamp pattern. *)
Definition count_timestamp_lines {rt : Runtime} (lines : list str) : Z :=
  len (filter is_timestamp_line lines).

(** The run of [generate_dicts] that does not end in the [OverflowError]
    of the conversion. *)
Definition no_overflow (g : list LogEvent * option exn) : Prop :=
  snd g <> Some OverflowError.

(** A line whose time, if it has one, converts for the date and the
    zone. *)
Definition resolves {rt : Runtime} (d : date) (tz : tzinfo) (line : str)
    : Prop :=
  forall t, matchDate line = inr (true, Some t) ->
            local_to_utc_timestamp d t tz <> None.

(** A line on which [matchDate] returns. *)
Definition parses {rt : Runtime} (line : str) : Prop :=
  forall e, matchDate line <> inl e.

(** What [test_batches] accepts of one batch. *)
Definition accepted (batch : list LogEvent) : bool :=
  (len batch <=? MAX_EVENTS) && (batch_chars batch <=? MAX_BYTES).

(** The text a line adds to a message: a timestamp line without its
    [SKIP_CHARS] first characters, any other line whole. *)
Definition body {rt : Runtime} (line : str) : str :=
  if is_timestamp_line line then skipn SKIP_CHARS line else line.

(** The lines from the timestamp line after the first [k] timestamp lines
    on. *)
Fixpoint unskipped {rt : Runtime} (k : nat) (lines : list str) : list str :=
  match lines with
  | [] => []
  | line :: rest =>
      if is_timestamp_line line
      then match k with
           | O => lines
           | S k' => unskipped k' rest
           end
      else unskipped k rest
  end.

(** A stream that is empty or begins with a timestamp line. *)
Definition whole_records {rt : Runtime} (lines : list str) : Prop :=
  match lines with
  | [] => True
  | line :: _ => is_timestamp_line line = true
  end.

(** The ASCII digit of value [v], for [0 <= v <= 9]. *)
Definition digit (v : Z) : char := Z.to_N (48 + v).

(** The text [HH:MM:SS,mmm] with the given digits. *)
Definition timestamp_text (h1 h2 m1 m2 s1 s2 f1 f2 f3 : Z) : str :=
  [digit h1; digit h2; colon; digit m1; digit m2; colon;
   digit s1; digit s2; comma; digit f1; digit f2; digit f3].

(** The size [create_batches] and [test_batches] give an event. *)
Definition event_size (ev : LogEvent) : Z :=
  len (message ev) + EVENT_OVERHEAD.

(** What the loop of [create_batches] keeps true when no event is larger
    than [MAX_BYTES]: the open batch is within both limits, and so is every
    closed batch, none of which is empty. *)
Definition planner_inv (events : list LogEvent) (idx : nat) (st : planner)
    : Prop :=
  (start_pos st <= idx)%nat
  /\ (idx = 0%nat \/ start_pos st < idx)%nat
  /\ num_events st = Z.of_nat (idx - start_pos st)
  /\ cumulative_size st = batch_chars (slice events (start_pos st) idx)
  /\ num_events st <= MAX_EVENTS
  /\ cumulative_size st <= MAX_BYTES
  /\ Forall (fun b => accepted b = true /\ b <> []) (batches st).

(** The event [e] does not fit the batch [b]: with it the batch would go
    above a limit. *)
Definition does_not_fit (b : list LogEvent) (e : LogEvent) : Prop :=
  MAX_EVENTS < len b + 1 \/ MAX_BYTES < batch_chars b + event_size e.

(** Every batch but the first begins with an event that did not fit the
    batch before it. *)
Fixpoint greedy (bs : list (list LogEvent)) : Prop :=
  match bs with
  | b :: ((next :: _) as tl) =>
      match next with
      | e :: _ => does_not_fit b e
      | [] => False
      end /\ greedy tl
  | _ => True
  end.

(** The batches of the submissions among [calls], in order. *)
Fixpoint put_events (calls : list Call) : list (list LogEvent) :=
  match calls with
  | [] => []
  | Put _ _ evs _ _ :: rest => evs :: put_events rest
  | _ :: rest => put_events rest
  end.

(** The [rejectedLogEventsInfo] of the responses among [calls] that have
    one, in order. *)
Fixpoint rejected_of_calls (calls : list Call) : list RejectedInfo :=
  match calls with
  | [] => []
  | Put _ _ _ _ (inr response) :: rest =>
      match rejectedLogEventsInfo response with
      | Some info => info :: rejected_of_calls rest
      | None => rejected_of_calls rest
      end
  | _ :: rest => rejected_of_calls rest
  end.

(** Chronological order. *)
Definition not_after (a b : LogEvent) : Prop := timestamp a <= timestamp b.

(** The events with timestamp [t], in the order of the list. *)
Definition at_time (t : Z) (l : list LogEvent) : list LogEvent :=
  filter (fun e => timestamp e =? t) l.

(** ** Posting the reports *)

(** The exceptions of the code below that [exn] does not name. *)
Inductive py_exn : Type :=
| AttributeError
| ValueError_fromisoformat
| Raised (e : exn).

Section PostResults.
Variable fromisoformat_ms : str -> option Z.
  (* [int(dt.datetime.fromisoformat(s).timestamp() * 1000)]; [None]: raises *)
Variable json_dumps : ResultOfLogProcessing -> str.
  (* [json.dumps(dataclasses.asdict(results))] *)
Variable S : Type.
Variable client : Client S.

(** The list comprehension of [post_results]. *)
Fixpoint report_events (all_results : list ResultOfLogProcessing)
    : py_exn + list LogEvent :=
  match all_results with
  | [] => inr []
  | results :: rest =>
      match fromisoformat_ms (end_time results) with
      | None => inl ValueError_fromisoformat
      | Some ms =>
          match report_events rest with
          | inl e => inl e
          | inr evs =>
              inr ({| timestamp := ms; message := json_dumps results |} :: evs)
          end
      end
  end.

(** [post_results]; what it prints is left out. *)
Definition post_results (s : S) (all_results : list ResultOfLogProcessing)
    (log_stream_name log_group_name : str) : S * (py_exn + unit) :=
  let (s, r) := init_aws_stream client s log_group_name log_stream_name in
  match r with
  | inl e => (s, inl (Raised e))
  | inr next_token =>
      match report_events all_results with
      | inl e => (s, inl e)
      | inr evs =>
          let log_event_batches := [evs] in
          let (s, r) :=
            post_log_events client s log_group_name log_stream_name
              next_token log_event_batches in
          match r with
          | inl e => (s, inl (Raised e))
          | inr rejected_events => (s, inr tt)
          end
      end
  end.

End PostResults.

Arguments post_results _ _ {S} _ _ _ _ _.

(** ** The arguments *)

(** The values a [Namespace] holds, as far as [in] and [==] tell them
    apart: [None], strings, integers, pairs, and any other object by its
    identity. *)
Inductive pyval : Type :=
| PNone
| PStr (s : str)
| PInt (z : Z)
| PPair (a b : pyval)
| PObject (id : N).

(** [a == b] *)
Fixpoint py_eq (a b : pyval) : bool :=
  match a, b with
  | PNone, PNone => true
  | PStr s, PStr t => str_eqb s t
  | PInt x, PInt y => x =? y
  | PPair a1 a2, PPair b1 b2 => py_eq a1 b1 && py_eq a2 b2
  | PObject i, PObject j => N.eqb i j
  | _, _ => false
  end.

(** [x in l] for a list [l] *)
Definition py_in (x : pyval) (l : list pyval) : bool := existsb (py_eq x) l.

(** The [__dict__] of a [Namespace], in the order of insertion. *)
Definition Namespace : Type := list (str * pyval).

(** [ns.name] *)
Fixpoint getattr (ns : Namespace) (name : str) : option pyval :=
  match ns with
  | [] => None
  | (k, v) :: rest => if str_eqb k name then Some v else getattr rest name
  end.

(** [ns.__dict__[name] = v] *)
Fixpoint setitem (ns : Namespace) (name : str) (v : pyval) : Namespace :=
  match ns with
  | [] => [(name, v)]
  | (k, w) :: rest =>
      if str_eqb k name then (k, v) :: rest else (k, w) :: setitem rest name v
  end.

(** [ns._get_kwargs()]: [list(self.__dict__.items())], a list of pairs. *)
Definition _get_kwargs (ns : Namespace) : list pyval :=
  map (fun kv => PPair (PStr (fst kv)) (snd kv)) ns.

Definition COMMAND_LOG_MANUAL : str := lit "log_manual".
Definition COMMAND_LOG_AUTO : str := lit "log_auto".

(** What [arguments.py] does to [app_args] after [parse_args()], when it is
    imported. *)
Definition fill_process_server_log_file_path (app_args : Namespace)
    : py_exn + Namespace :=
  match getattr app_args (lit "command_name") with
  | None => inl AttributeError
  | Some command_name =>
      if py_in command_name [PStr COMMAND_LOG_MANUAL; PStr COMMAND_LOG_AUTO]
      then
        if negb (py_in (PStr (lit "process_server_log_file_path"))
                   (_get_kwargs app_args))
        then
          match getattr app_args (lit "server_log_base_file_path") with
          | None => inl AttributeError
          | Some base =>
              inr (setitem app_args (lit "process_server_log_file_path") base)
          end
        else inr app_args
      else inr app_args
  end.

(** The namespace of
    [log_manual server.log --process_server_log_file_path server.log.2021-12-21]. *)
Definition example_namespace : Namespace :=
  [(lit "command_name", PStr COMMAND_LOG_MANUAL);
   (lit "server_log_base_file_path", PStr (lit "server.log"));
   (lit "timezone", PObject 1);
   (lit "skip", PInt 0);
   (lit "date", PObject 2);
   (lit "process_server_log_file_path",
    PStr (lit "server.log.2021-12-21"))].

(** A clock for examples. *)
Definition example_clock : Clock :=
  {| clock_start := lit "2021-12-21 23:00:00";
     clock_end := lit "2021-12-21 23:00:01";
     clock_elapsed := lit "0:00:01" |}.

Definition example_stream : str := lit "dv-server.log-2021-12-21".

(** The run of [process_log_file] over the three lines of the example. *)
Definition example_run
    : (list (list LogEvent) * list Call) * (exn + ResultOfLogProcessing) :=
  process_log_file (rt := example_runtime)
    (recording (example_client example_stream)) ([], [])
    example_clock example_lines 0 example_tz example_date
    (lit "server.log") (lit "server.log") LOG_STREAM_BASE_NAME LOG_GROUP_NAME.

(** Readings for examples: the end time of a report is its length in
    characters, its JSON text the name of its stream. *)
Definition example_fromisoformat_ms (s : str) : option Z := Some (len s).
Definition example_json_dumps (r : ResultOfLogProcessing) : str :=
  log_stream_name r.

(** A runtime for examples that knows one time zone, "UTC", and takes a
    text of ten characters for a date. *)
Definition checking_runtime : Runtime :=
  {| unicode_decimal := fun _ => None;
     date := str;
     date_ltb := str_ltb;
     strptime_date := fun s => if (length s =? 10)%nat then Some s else None;
     strftime_date := fun d => d;
     str_date := fun d => d;
     tzinfo := str;
     ZoneInfo := fun name =>
       if str_eqb name (lit "UTC") then Some name else None;
     str_tzinfo := fun tz => tz;
     local_to_utc_timestamp := fun _ t _ =>
       Some (((hour t * 60 + minute t) * 60 + second t) * 1000
             + microsecond t / 1000) |}.

(** A checkpoint whose date is not a date. *)
Definition broken_checkpoint : ResultOfLogProcessing :=
  {| log_group_name := LOG_GROUP_NAME;
     log_stream_name := LOG_STREAM_BASE_NAME ++ lit "2021-12-21";
     server_log_base_file_path := lit "server.log";
     processed_server_log_file_path := lit "server.log";
     date_used := lit "yesterday";
     num_events_processed := 7;
     num_events_skipped := 3;
     tzinfo_name := lit "UTC";
     num_batches := 1;
     start_time := lit "2021-12-21 23:00:00";
     end_time := lit "2021-12-21 23:00:01";
     elapsed_time := lit "0:00:01";
     rejected_events := [] |}.

Definition checking_process (w : list str)
    (c : @ProcessCall checking_runtime)
    : list str * (exn + ResultOfLogProcessing) :=
  (w, inr broken_checkpoint).

(** * Properties *)

(** ** Record reconstruction *)

Section ReconstructorFacts.
Context {rt : Runtime}.
Variable d : date.
Variable tz : tzinfo.

(** A match always comes with its parsed time. *)
Lemma matchDate_matched (line : str) (pt : option time) :
  matchDate line = inr (true, pt) -> exists t, pt = Some t.
Proof.
  unfold matchDate.
  destruct (re_timestamp line) as [g|]; [|discriminate].
  destruct (strptime_HMSf (strip g)) as [t|]; [|discriminate].
  intros H; injection H as <-. now exists t.
Qed.

Lemma matchDate_unmatched (line : str) (pt : option time) :
  matchDate line = inr (false, pt) -> re_timestamp line = None.
Proof.
  unfold matchDate.
  destruct (re_timestamp line) as [g|]; [|reflexivity].
  destruct (strptime_HMSf (strip g)); discriminate.
Qed.

(** Once the counter has passed the threshold, neither of them matters. *)
Lemma active_phase (lines : list str) :
  forall (c : option LogEvent) (n k n' k' : Z),
    k < n -> k' < n' ->
    generate_dicts_from d k tz lines c n
    = generate_dicts_from d k' tz lines c n'.
Proof.
  induction lines as [|line rest IH]; intros c n k n' k' Hn Hn'; simpl.
  - reflexivity.
  - destruct (matchDate line) as [e|[[|] pt]]; [reflexivity| |].
    + destruct (Z.leb_spec (n + 1) k); [lia|].
      destruct (Z.leb_spec (n' + 1) k'); [lia|].
      destruct (rem_opt pt) as [e|t]; [reflexivity|].
      destruct (local_to_utc_timestamp d t tz) as [ts|]; [|reflexivity].
      rewrite (IH _ (n + 1) k (n' + 1) k') by lia. reflexivity.
    + destruct (Z.leb_spec n k); [lia|].
      destruct (Z.leb_spec n' k'); [lia|].
      destruct c as [ev|]; [|reflexivity].
      apply IH; lia.
Qed.

(** While the counter is at or below the threshold, the run with threshold
    [k] yields what the run with threshold [0] yields, less the records
    that are still to be skipped, and ends the same way, unless the run
    with threshold [0] fails to convert a time. *)
Lemma skip_phase (lines : list str) :
  forall (c0 : option LogEvent) (n k : Z),
    0 <= n <= k ->
    (0 < n -> c0 <> None) ->
    no_overflow (generate_dicts_from d 0 tz lines c0 n) ->
    fst (generate_dicts_from d k tz lines None n)
    = skipn (Z.to_nat (k - n) + length (flush c0))
        (fst (generate_dicts_from d 0 tz lines c0 n))
    /\ snd (generate_dicts_from d k tz lines None n)
       = snd (generate_dicts_from d 0 tz lines c0 n).
Proof.
  unfold no_overflow.
  induction lines as [|line rest IH]; intros c0 n k Hn Hc Hno;
    cbn [generate_dicts_from] in *.
  - split; [|reflexivity].
    destruct c0; simpl; rewrite ?Nat.add_1_r; simpl; now rewrite skipn_nil.
  - destruct (matchDate line) as [e|[[|] pt]] eqn:Em.
    + simpl. now rewrite skipn_nil.
    + destruct (matchDate_matched _ _ Em) as [t ->]. cbn [rem_opt] in *.
      destruct (Z.leb_spec (n + 1) 0); [lia|].
      destruct (local_to_utc_timestamp d t tz) as [ts|];
        [|now destruct Hno].
      destruct (Z.leb_spec (n + 1) k).
      * specialize (IH (Some {| timestamp := ts;
                                message := skipn SKIP_CHARS line |})
                      (n + 1) k ltac:(lia) ltac:(discriminate)).
        destruct (generate_dicts_from d 0 tz rest _ (n + 1)) as [out0 e0].
        cbn [fst snd] in *. destruct (IH Hno) as [IH1 IH2].
        rewrite IH1, IH2. split; [|reflexivity].
        replace (Z.to_nat (k - n)) with (S (Z.to_nat (k - (n + 1)))) by lia.
        destruct c0; simpl; [|now rewrite Nat.add_0_r, Nat.add_1_r].
        now rewrite Nat.add_1_r.
      * assert (n = k) as -> by lia.
        rewrite (active_phase rest _ (k + 1) k (k + 1) 0) by lia.
        destruct (generate_dicts_from d 0 tz rest _ (k + 1)) as [out0 e0].
        simpl. rewrite Z.sub_diag. split; [|reflexivity].
        destruct c0; reflexivity.
    + destruct (Z.leb_spec n k); [|lia].
      destruct (Z.leb_spec n 0).
      * apply IH; assumption.
      * destruct c0 as [ev|]; [|now destruct Hc].
        apply (IH (Some {| timestamp := timestamp ev;
                           message := message ev ++ line |}) n k);
          [assumption|discriminate|assumption].
Qed.

(** The guard for a continuation line with no open record can only fire
    when the counter has passed the threshold with no record open. *)
Lemma no_open_record_unreachable (k : Z) (lines : list str) :
  forall (c : option LogEvent) (n : Z),
    (k < n -> c <> None) ->
    snd (generate_dicts_from d k tz lines c n)
    <> Some ValueError_currentDict_None.
Proof.
  induction lines as [|line rest IH]; intros c n Hc; simpl.
  - discriminate.
  - destruct (matchDate line) as [e|[[|] pt]] eqn:Em.
    + simpl. unfold matchDate in Em.
      destruct (re_timestamp line); [|discriminate].
      destruct (strptime_HMSf _); [discriminate|].
      injection Em as <-. discriminate.
    + destruct (Z.leb_spec (n + 1) k).
      * apply IH. intros; lia.
      * destruct (matchDate_matched _ _ Em) as [t ->]. cbn [rem_opt].
        destruct (local_to_utc_timestamp d t tz) as [ts|]; [|discriminate].
        specialize (IH (Some {| timestamp := ts;
                                message := skipn SKIP_CHARS line |})
                      (n + 1) ltac:(discriminate)).
        destruct (generate_dicts_from d k tz rest _ (n + 1)). exact IH.
    + destruct (Z.leb_spec n k).
      * apply IH. intros; lia.
      * destruct c as [ev|]; [|now destruct Hc].
        apply IH. discriminate.
Qed.

Lemma matchDate_continuation (line : str) :
  re_timestamp line = None -> matchDate line = inr (false, None).
Proof. unfold matchDate. now intros ->. Qed.

Lemma matchDate_timestamp (line : str) :
  is_timestamp_line line = true -> parses line ->
  exists t, matchDate line = inr (true, Some t).
Proof.
  unfold is_timestamp_line, parses, matchDate.
  destruct (re_timestamp line) as [g|]; [|discriminate].
  intros _ H. destruct (strptime_HMSf (strip g)) as [t|].
  - now exists t.
  - now destruct (H ValueError_strptime).
Qed.

(** Only the distance between counter and threshold matters. *)
Lemma shift_counter (lines : list str) :
  forall (c : option LogEvent) (n k m : Z),
    generate_dicts_from d k tz lines c n
    = generate_dicts_from d (k - m) tz lines c (n - m).
Proof.
  induction lines as [|line rest IH]; intros c n k m; simpl.
  - reflexivity.
  - destruct (matchDate line) as [e|[[|] pt]]; [reflexivity| |].
    + replace (n - m + 1) with (n + 1 - m) by lia.
      destruct (Z.leb_spec (n + 1) k), (Z.leb_spec (n + 1 - m) (k - m));
        try lia.
      * apply IH.
      * destruct (rem_opt pt) as [e|t]; [reflexivity|].
        destruct (local_to_utc_timestamp d t tz); [|reflexivity].
        now rewrite (IH _ (n + 1) k m).
    + destruct (Z.leb_spec n k), (Z.leb_spec (n - m) (k - m)); try lia.
      * apply IH.
      * destruct c; [apply IH|reflexivity].
Qed.

(** Lines read while the counter stays at or below the threshold leave no
    trace but the count of the timestamp lines among them. *)
Lemma skipped_prefix (k : Z) (pre rest : list str) :
  forall n : Z,
    Forall parses pre ->
    n + count_timestamp_lines pre <= k ->
    generate_dicts_from d k tz (pre ++ rest) None n
    = generate_dicts_from d k tz rest None (n + count_timestamp_lines pre).
Proof.
  unfold count_timestamp_lines, len.
  induction pre as [|line pre IH]; intros n Hp Hn; simpl.
  - now rewrite Z.add_0_r.
  - inversion Hp as [|? ? Hl Hp']; subst.
    simpl in Hn. destruct (is_timestamp_line line) eqn:El.
    + destruct (matchDate_timestamp _ El Hl) as [t ->].
      simpl length in *.
      destruct (Z.leb_spec (n + 1) k); [|lia].
      rewrite IH by (assumption || lia). f_equal. lia.
    + unfold is_timestamp_line in El.
      rewrite matchDate_continuation by (now destruct (re_timestamp line)).
      destruct (Z.leb_spec n k); [|lia].
      now rewrite IH by (assumption || lia).
Qed.

(** Continuation lines extend the open record. *)
Lemma continuation_lines_append (k : Z) (cs : list str) :
  forall (ev : LogEvent) (n : Z),
    k < n ->
    Forall (fun c => re_timestamp c = None) cs ->
    generate_dicts_from d k tz cs (Some ev) n
    = ([{| timestamp := timestamp ev;
           message := message ev ++ concat cs |}], None).
Proof.
  induction cs as [|c cs IH]; intros ev n Hn Hcs; simpl.
  - rewrite app_nil_r. now destruct ev.
  - inversion Hcs as [|? ? Hc Hcs']; subst.
    rewrite (matchDate_continuation _ Hc).
    destruct (Z.leb_spec n k); [lia|].
    rewrite IH by assumption. simpl. now rewrite app_assoc.
Qed.

Lemma re_timestamp_prefix (line g : str) :
  re_timestamp line = Some g ->
  length g = 13%nat /\ line = g ++ skipn SKIP_CHARS line.
Proof.
  unfold re_timestamp, SKIP_CHARS.
  do 13 (destruct line as [|? line]; [discriminate|]).
  match goal with |- (if ?b then _ else _) = _ -> _ => destruct b end;
    [|discriminate].
  intros H; injection H as <-. split; reflexivity.
Qed.

Lemma skipn_nonempty {A} (n : nat) (l : list A) :
  (n < length l)%nat -> skipn n l <> [].
Proof.
  intros Hn Hnil. apply (f_equal (@length A)) in Hnil.
  rewrite length_skipn in Hnil. simpl in Hnil. lia.
Qed.

(** Messages stay non-empty when every timestamp line has text after its
    prefix. *)
Lemma messages_nonempty_from (k : Z) (lines : list str) :
  forall (c : option LogEvent) (n : Z),
    (forall line, In line lines -> is_timestamp_line line = true ->
                  (SKIP_CHARS < length line)%nat) ->
    (forall ev, c = Some ev -> message ev <> []) ->
    Forall (fun ev => message ev <> [])
      (fst (generate_dicts_from d k tz lines c n)).
Proof.
  induction lines as [|line rest IH]; intros c n Hl Hc;
    cbn [generate_dicts_from].
  - destruct c as [ev|]; simpl; [|constructor].
    constructor; [now apply Hc|constructor].
  - assert (Hrest : forall l, In l rest -> is_timestamp_line l = true ->
                              (SKIP_CHARS < length l)%nat)
      by (intros; apply Hl; [now right|assumption]).
    assert (Hflush : Forall (fun ev => message ev <> []) (flush c)).
    { destruct c as [ev|]; simpl; [|constructor].
      constructor; [now apply Hc|constructor]. }
    destruct (matchDate line) as [e|[[|] pt]] eqn:Em.
    + constructor.
    + destruct (Z.leb_spec (n + 1) k); [now apply IH|].
      destruct (rem_opt pt) as [e|t]; [exact Hflush|].
      destruct (local_to_utc_timestamp d t tz) as [ts|]; [|exact Hflush].
      match goal with
      | |- context [generate_dicts_from d k tz rest ?c' ?n'] =>
          specialize (IH c' n' Hrest);
          destruct (generate_dicts_from d k tz rest c' n') as [out e]
      end.
      cbn [fst] in *. apply Forall_app. split; [exact Hflush|].
      apply IH. intros ev Hev; injection Hev as <-. cbn [message].
      assert (Ht : is_timestamp_line line = true).
      { unfold is_timestamp_line. unfold matchDate in Em.
        destruct (re_timestamp line); [reflexivity|discriminate]. }
      specialize (Hl line (or_introl eq_refl) Ht).
      exact (skipn_nonempty SKIP_CHARS line Hl).
    + destruct (Z.leb_spec n k); [now apply IH|].
      destruct c as [ev|]; [|constructor].
      apply IH; [assumption|].
      intros ev' Hev; injection Hev as <-. simpl.
      intros Hnil. apply app_eq_nil in Hnil. now apply (Hc ev eq_refl).
Qed.

Lemma continuation_parses (line : str) :
  re_timestamp line = None -> parses line.
Proof.
  intros H e. rewrite (matchDate_continuation _ H). discriminate.
Qed.

Lemma count_timestamp_lines_app (pre cs : list str) :
  Forall (fun c => re_timestamp c = None) cs ->
  count_timestamp_lines (pre ++ cs) = count_timestamp_lines pre.
Proof.
  intros Hcs. unfold count_timestamp_lines. rewrite filter_app.
  replace (filter is_timestamp_line cs) with (@nil str).
  - now rewrite app_nil_r.
  - induction Hcs as [|c cs Hc _ IH]; [reflexivity|].
    simpl. unfold is_timestamp_line at 1. now rewrite Hc.
Qed.

(** C5, as the code has it.  For every skip count [k >= 0] and every line
    stream (those that begin with a timestamp line among them): if the run
    with [skip_num_entries = 0] does not end in the [OverflowError] of the
    timestamp conversion, the records yielded with [skip_num_entries = k]
    are the records yielded with [skip_num_entries = 0] without the first
    [k], and the generator ends the same way.  Skipping counts timestamp
    lines only: a prefix of the stream holding at most [k] timestamp lines
    is discarded whole, its continuation lines included, and uses up as
    many skips as it holds timestamp lines. *)
Theorem generate_dicts_skip (lines : list str) (k : Z) :
  0 <= k ->
  (no_overflow (generate_dicts lines d 0 tz) ->
   fst (generate_dicts lines d k tz)
   = skipn (Z.to_nat k) (fst (generate_dicts lines d 0 tz))
   /\ snd (generate_dicts lines d k tz) = snd (generate_dicts lines d 0 tz))
  /\ (forall pre rest : list str,
        lines = pre ++ rest ->
        Forall parses pre ->
        count_timestamp_lines pre <= k ->
        generate_dicts lines d k tz
        = generate_dicts rest d (k - count_timestamp_lines pre) tz).
Proof.
  intros Hk. split.
  - unfold generate_dicts. intros Hno.
    destruct (skip_phase lines None 0 k ltac:(lia) ltac:(lia) Hno)
      as [H1 H2].
    simpl in H1. now rewrite Nat.add_0_r, Z.sub_0_r in H1.
  - intros pre rest -> Hp Hc. unfold generate_dicts.
    rewrite skipped_prefix by (assumption || lia).
    rewrite (shift_counter rest None _ k (count_timestamp_lines pre)).
    f_equal. lia.
Qed.

(** C10.  With [skip_num_entries >= 0] the generator never ends in the
    [ValueError] of the guard for a continuation line with no open record:
    continuation lines read before the first timestamp line that is not
    skipped are dropped, and the stream without them gives the same
    result. *)
Theorem generate_dicts_guard_unreachable (lines : list str) (k : Z) :
  0 <= k ->
  snd (generate_dicts lines d k tz) <> Some ValueError_currentDict_None
  /\ (forall pre cs rest : list str,
        lines = pre ++ cs ++ rest ->
        Forall parses pre ->
        count_timestamp_lines pre <= k ->
        Forall (fun c => re_timestamp c = None) cs ->
        generate_dicts lines d k tz = generate_dicts (pre ++ rest) d k tz).
Proof.
  intros Hk. split.
  - apply no_open_record_unreachable. intros; lia.
  - intros pre cs rest -> Hp Hc Hcs. unfold generate_dicts.
    rewrite app_assoc.
    rewrite (skipped_prefix k (pre ++ cs) rest 0).
    + rewrite (skipped_prefix k pre rest 0) by (assumption || lia).
      now rewrite count_timestamp_lines_app.
    + apply Forall_app. split; [assumption|].
      eapply Forall_impl; [|exact Hcs]. apply continuation_parses.
    + rewrite count_timestamp_lines_app by assumption. lia.
Qed.

(** C8, as the code has it.  When every timestamp line of the stream has
    text after its 13-character prefix, every record yielded has a
    non-empty message, whatever the skip count. *)
Theorem generate_dicts_messages_nonempty (lines : list str) (k : Z) :
  (forall line, In line lines -> is_timestamp_line line = true ->
                (SKIP_CHARS < length line)%nat) ->
  Forall (fun ev => message ev <> []) (fst (generate_dicts lines d k tz)).
Proof.
  intros Hl. apply messages_nonempty_from; [exact Hl|discriminate].
Qed.

(** C3, at a stream that does not begin with a timestamp line.  The line
    "continuation\n" is read with no record open; the generator ends
    without an exception and yields nothing.  Followed by a timestamp line
    it is dropped all the same: the run is the run over the timestamp line
    alone. *)
Theorem generate_dicts_drops_leading_continuation :
  generate_dicts [line_of "continuation"] d 0 tz = ([], None)
  /\ generate_dicts [line_of "continuation"; line_of "10:00:00,000 Start"]
       d 0 tz
     = match local_to_utc_timestamp d (mk_time 10 0 0 0) tz with
       | Some ts =>
           ([{| timestamp := ts; message := line_of "Start" |}], None)
       | None => ([], Some OverflowError)
       end.
Proof.
  split; [reflexivity|]. unfold generate_dicts.
  cbn [generate_dicts_from].
  change (matchDate (line_of "continuation")) with
    (@inr exn (bool * option time) (false, None)).
  change (matchDate (line_of "10:00:00,000 Start")) with
    (@inr exn (bool * option time) (true, Some (mk_time 10 0 0 0))).
  cbn [Z.leb Z.compare Z.add Pos.compare Pos.compare_cont rem_opt].
  destruct (local_to_utc_timestamp d (mk_time 10 0 0 0) tz); reflexivity.
Qed.

End ReconstructorFacts.

(** ** Batch planning *)

Section PlannerFacts.

Lemma firstn_slice {A} (l : list A) :
  forall a b : nat, (a <= b)%nat -> firstn a l ++ slice l a b = firstn b l.
Proof.
  unfold slice. induction l as [|x l IH]; intros a b Hab.
  - now rewrite skipn_nil, !firstn_nil.
  - destruct a as [|a].
    + simpl. now rewrite Nat.sub_0_r.
    + destruct b as [|b]; [lia|]. simpl. f_equal. apply IH. lia.
Qed.

Lemma concat_snoc {A} (ls : list (list A)) (l : list A) :
  concat (ls ++ [l]) = concat ls ++ l.
Proof. rewrite concat_app. simpl. now rewrite app_nil_r. Qed.

(** The batches closed so far hold the events before [start_pos]; the last
    event closes what is left. *)
Lemma plan_loop_partition (events : list LogEvent) :
  forall (rest : list LogEvent) (idx : nat) (st : planner),
    (idx + length rest = length events)%nat ->
    (start_pos st <= idx)%nat ->
    concat (batches st) = firstn (start_pos st) events ->
    rest <> [] ->
    concat (batches (plan_loop events rest idx st)) = events.
Proof.
  induction rest as [|val rest IH]; intros idx st Hlen Hpos Hcat Hne;
    [contradiction|].
  cbn [plan_loop]. destruct rest as [|val' rest'].
  - cbn [plan_loop]. unfold plan_event. cbn [length] in Hlen.
    destruct (Nat.eqb_spec (idx + 1) (length events)); [|lia].
    cbn [batches]. rewrite concat_snoc, Hcat. apply firstn_skipn.
  - cbn [length] in Hlen.
    assert (Hpe : plan_event events idx val st
                  = (if (num_events st + 1 >? MAX_EVENTS)
                        || (cumulative_size st
                            + (len (message val) + EVENT_OVERHEAD)
                            >? MAX_BYTES)
                     then {| batches :=
                               batches st ++ [slice events (start_pos st) idx];
                             start_pos := idx;
                             num_events := 1;
                             cumulative_size :=
                               len (message val) + EVENT_OVERHEAD |}
                     else {| batches := batches st;
                             start_pos := start_pos st;
                             num_events := num_events st + 1;
                             cumulative_size :=
                               cumulative_size st
                               + (len (message val) + EVENT_OVERHEAD) |})).
    { unfold plan_event.
      destruct (Nat.eqb_spec (idx + 1) (length events)); [lia|reflexivity]. }
    rewrite Hpe.
    apply IH; [cbn [length]; lia| | |discriminate];
      match goal with |- context [if ?b then _ else _] => destruct b end;
      cbn [batches start_pos]; try lia.
    + rewrite concat_snoc, Hcat. now apply firstn_slice.
    + exact Hcat.
Qed.

Lemma planned_batches_partition (events : list LogEvent) :
  concat (planned_batches events) = events.
Proof.
  unfold planned_batches. destruct events as [|val rest]; [reflexivity|].
  apply plan_loop_partition.
  - reflexivity.
  - apply Nat.le_refl.
  - reflexivity.
  - discriminate.
Qed.

Lemma test_batch_spec (batch : list LogEvent) :
  forall sum_bytes sum_events : Z,
    test_batch batch EVENT_OVERHEAD sum_bytes sum_events
    = (sum_bytes + batch_chars batch, sum_events + len batch).
Proof.
  unfold len. induction batch as [|ev batch IH]; intros sb se.
  - simpl. f_equal; lia.
  - cbn [test_batch batch_chars fold_right length]. rewrite IH.
    unfold batch_chars, len. f_equal; lia.
Qed.

Lemma len_nonneg {A} (l : list A) : 0 <= len l.
Proof. unfold len. lia. Qed.

Lemma test_batches_loop_spec (bs : list (list LogEvent)) :
  forall total_events : Z,
    test_batches_loop bs EVENT_OVERHEAD MAX_BYTES MAX_EVENTS total_events
    = if forallb accepted bs
      then inr (total_events + len (concat bs))
      else inl AssertionError.
Proof.
  induction bs as [|batch bs IH]; intros total.
  - simpl. f_equal. unfold len. simpl. lia.
  - cbn [test_batches_loop forallb]. unfold accepted at 1.
    rewrite test_batch_spec. rewrite !Z.add_0_l.
    destruct (len batch <=? MAX_EVENTS); [|reflexivity].
    destruct (batch_chars batch <=? MAX_BYTES); [|reflexivity].
    rewrite Z.eqb_refl. cbn [andb]. rewrite IH.
    destruct (forallb accepted bs); [|reflexivity].
    f_equal. unfold len. cbn [concat]. rewrite length_app. lia.
Qed.

(** [create_batches] returns the planned batches when [test_batches]
    accepts each of them, and raises [AssertionError] otherwise. *)
Lemma create_batches_spec (events : list LogEvent) :
  create_batches events
  = if forallb accepted (planned_batches events)
    then inr (planned_batches events)
    else inl AssertionError.
Proof.
  unfold create_batches, test_batches.
  rewrite test_batches_loop_spec, planned_batches_partition.
  destruct (forallb accepted (planned_batches events)); [|reflexivity].
  now rewrite Z.add_0_l, Z.eqb_refl.
Qed.

(** C2.  The batches that [create_batches] builds, concatenated in order,
    are the input list; so are the batches it returns; and on the empty
    list it returns the empty list of batches. *)
Theorem create_batches_partition (events : list LogEvent) :
  concat (planned_batches events) = events
  /\ (forall bs, create_batches events = inr bs -> concat bs = events)
  /\ create_batches [] = inr [].
Proof.
  split; [apply planned_batches_partition|]. split; [|reflexivity].
  intros bs. rewrite create_batches_spec.
  destruct (forallb accepted (planned_batches events)); [|discriminate].
  intros H; injection H as <-. apply planned_batches_partition.
Qed.

(** Batches that [create_batches] returns hold at most [MAX_EVENTS]
    events and at most [MAX_BYTES] when each message is measured by
    [len]; a planned batch beyond either bound makes it raise. *)
Lemma create_batches_checked (events : list LogEvent) :
  (forall bs, create_batches events = inr bs ->
              bs = planned_batches events
              /\ Forall (fun b => len b <= MAX_EVENTS
                                  /\ batch_chars b <= MAX_BYTES) bs)
  /\ (Exists (fun b => MAX_EVENTS < len b \/ MAX_BYTES < batch_chars b)
             (planned_batches events) ->
      create_batches events = inl AssertionError).
Proof.
  rewrite create_batches_spec. split.
  - intros bs.
    destruct (forallb accepted (planned_batches events)) eqn:E;
      [|discriminate].
    intros H; injection H as <-. split; [reflexivity|].
    rewrite forallb_forall in E. apply Forall_forall. intros b Hb.
    specialize (E b Hb). unfold accepted in E.
    apply andb_true_iff in E. destruct E. lia.
  - intros Hex. apply Exists_exists in Hex. destruct Hex as [b [Hb Hv]].
    destruct (forallb accepted (planned_batches events)) eqn:E;
      [|reflexivity].
    rewrite forallb_forall in E. specialize (E b Hb). unfold accepted in E.
    apply andb_true_iff in E. destruct E. lia.
Qed.

Lemma batch_chars_nonneg (l : list LogEvent) : 0 <= batch_chars l.
Proof.
  unfold batch_chars. induction l as [|x l IH]; cbn [fold_right]; [lia|].
  pose proof (len_nonneg (message x)). unfold EVENT_OVERHEAD in *. lia.
Qed.

Lemma batch_chars_cons (ev : LogEvent) (l : list LogEvent) :
  batch_chars (ev :: l) = len (message ev) + EVENT_OVERHEAD + batch_chars l.
Proof. reflexivity. Qed.

Lemma batch_chars_firstn_le (events : list LogEvent) :
  forall i j : nat,
    (i <= j)%nat ->
    batch_chars (firstn i events) <= batch_chars (firstn j events).
Proof.
  induction events as [|ev events IH]; intros i j Hij.
  - rewrite !firstn_nil. lia.
  - destruct i as [|i].
    + cbn [firstn]. change (batch_chars []) with 0.
      apply batch_chars_nonneg.
    + destruct j as [|j]; [lia|]. cbn [firstn].
      rewrite !batch_chars_cons.
      specialize (IH i j ltac:(lia)). lia.
Qed.

Lemma batch_chars_snoc (l : list LogEvent) (ev : LogEvent) :
  batch_chars (l ++ [ev])
  = batch_chars l + (len (message ev) + EVENT_OVERHEAD).
Proof.
  unfold batch_chars. induction l as [|x l IH]; cbn [app fold_right]; lia.
Qed.

Lemma firstn_succ_snoc {A} (l : list A) :
  forall (i : nat) (x : A),
    nth_error l i = Some x -> firstn (S i) l = firstn i l ++ [x].
Proof.
  induction l as [|y l IH]; intros [|i] x H; try discriminate.
  - simpl in H. injection H as ->. reflexivity.
  - simpl in H. cbn [firstn app]. f_equal. now apply IH.
Qed.

(** While every event but the last fits one batch, the loop closes no
    batch; the last event then closes a batch of all events, unchecked. *)
Lemma plan_loop_single_batch (events : list LogEvent) :
  len events - 1 <= MAX_EVENTS ->
  batch_chars (removelast events) <= MAX_BYTES ->
  forall (rest : list LogEvent) (idx : nat) (st : planner),
    rest = skipn idx events ->
    rest <> [] ->
    batches st = [] ->
    start_pos st = 0%nat ->
    num_events st = Z.of_nat idx ->
    cumulative_size st = batch_chars (firstn idx events) ->
    batches (plan_loop events rest idx st) = [events].
Proof.
  intros Hcount Hbytes.
  induction rest as [|val rest IH];
    intros idx st Hrest Hne Hb Hs Hn Hc; [contradiction|].
  assert (Hlen : (idx + S (length rest) = length events)%nat).
  { apply (f_equal (@length LogEvent)) in Hrest.
    rewrite length_skipn in Hrest. cbn [length] in Hrest. lia. }
  assert (Hval : nth_error events idx = Some val).
  { rewrite <- (firstn_skipn idx events) at 1.
    rewrite nth_error_app2 by (rewrite length_firstn; lia).
    rewrite length_firstn, Nat.min_l, Nat.sub_diag, <- Hrest by lia.
    reflexivity. }
  cbn [plan_loop]. unfold plan_event.
  destruct (Nat.eqb_spec (idx + 1) (length events)) as [Hlast|Hmore].
  - assert (rest = []) as -> by (destruct rest; [reflexivity|simpl in *; lia]).
    cbn [plan_loop batches]. now rewrite Hb, Hs.
  - assert (Hfit : cumulative_size st + (len (message val) + EVENT_OVERHEAD)
                   <= MAX_BYTES).
    { rewrite Hc, <- batch_chars_snoc, <- (firstn_succ_snoc _ _ _ Hval).
      rewrite removelast_firstn_len in Hbytes.
      etransitivity; [|exact Hbytes].
      apply batch_chars_firstn_le. lia. }
    destruct (Z.gtb_spec (num_events st + 1) MAX_EVENTS) as [Hgt|_];
      [unfold len in Hcount; lia|].
    destruct (Z.gtb_spec (cumulative_size st
                           + (len (message val) + EVENT_OVERHEAD)) MAX_BYTES)
      as [Hgt|_]; [lia|].
    cbn [orb]. apply IH; cbn [batches start_pos num_events cumulative_size];
      try assumption.
    + apply (f_equal (skipn 1)) in Hrest. rewrite skipn_skipn in Hrest.
      exact Hrest.
    + destruct rest; [simpl in Hlen; lia|discriminate].
    + lia.
    + now rewrite Hc, (firstn_succ_snoc _ _ _ Hval), batch_chars_snoc.
Qed.

Lemma planned_batches_single_batch (events : list LogEvent) :
  events <> [] ->
  len events - 1 <= MAX_EVENTS ->
  batch_chars (removelast events) <= MAX_BYTES ->
  planned_batches events = [events].
Proof.
  intros Hne Hcount Hbytes. unfold planned_batches.
  now apply plan_loop_single_batch.
Qed.

Lemma len_repeat {A} (x : A) (n : Z) :
  0 <= n -> len (repeat x (Z.to_nat n)) = n.
Proof. intros Hn. unfold len. rewrite repeat_length. lia. Qed.

Lemma byteLength_repeat (c : char) (n : nat) :
  byteLength (repeat c n) = utf8_len c * Z.of_nat n.
Proof.
  unfold byteLength. induction n as [|n IH]; [simpl; lia|].
  cbn [repeat fold_right]. rewrite IH. lia.
Qed.

Lemma removelast_repeat {A} (x : A) (n : nat) :
  removelast (repeat x (S n)) = repeat x n.
Proof.
  induction n as [|n IH]; [reflexivity|].
  change (repeat x (S (S n))) with (x :: repeat x (S n)).
  cbn [removelast]. cbn [repeat] in *. now rewrite IH.
Qed.

Lemma batch_chars_repeat (ev : LogEvent) (n : nat) :
  batch_chars (repeat ev n)
  = Z.of_nat n * (len (message ev) + EVENT_OVERHEAD).
Proof.
  unfold batch_chars. induction n as [|n IH]; [simpl; lia|].
  cbn [repeat fold_right]. rewrite IH. lia.
Qed.

Lemma len_message_wide_event (c : char) (n : Z) :
  0 <= n -> len (message (wide_event c n)) = n.
Proof. intros Hn. unfold wide_event. cbn [message]. now apply len_repeat. Qed.

Lemma byteLength_message_wide_event (c : char) (n : Z) :
  0 <= n -> byteLength (message (wide_event c n)) = utf8_len c * n.
Proof.
  intros Hn. unfold wide_event. cbn [message].
  rewrite byteLength_repeat. now rewrite Z2Nat.id.
Qed.

(** C1, at two inputs whose last event does not fit the open batch.
    10,001 events with the message "x": the last event closes one batch of
    all 10,001, above [MAX_EVENTS].  Two events of 600,000 characters
    [x]: the last event closes one batch of both, 1,200,052 bytes, above
    [MAX_BYTES].  Both times [test_batches] then raises. *)
Theorem create_batches_last_event_unchecked :
  (let events := repeat (wide_event 120%N 1) (Z.to_nat 10001) in
   planned_batches events = [events]
   /\ len events = 10001
   /\ create_batches events = inl AssertionError)
  /\ (let events := [wide_event 120%N 600000; wide_event 120%N 600000] in
      planned_batches events = [events]
      /\ batch_chars events = 1200052
      /\ batch_bytes events = 1200052
      /\ create_batches events = inl AssertionError).
Proof.
  split.
  - pose proof (len_message_wide_event 120%N 1 ltac:(lia)) as Hm.
    generalize dependent (wide_event 120%N 1). intros ev Hm events.
    assert (Hl : len events = 10001)
      by (unfold events; apply len_repeat; lia).
    assert (Hp : planned_batches events = [events]).
    { apply planned_batches_single_batch.
      - intros H. rewrite H in Hl. discriminate.
      - rewrite Hl. unfold MAX_EVENTS. lia.
      - unfold events.
        replace (Z.to_nat 10001) with (S (Z.to_nat 10000)) by lia.
        rewrite removelast_repeat, batch_chars_repeat, Hm.
        unfold EVENT_OVERHEAD, MAX_BYTES. lia. }
    split; [exact Hp|]. split; [exact Hl|].
    rewrite create_batches_spec, Hp. cbn [forallb]. unfold accepted.
    rewrite Hl. reflexivity.
  - pose proof (len_message_wide_event 120%N 600000 ltac:(lia)) as Hm.
    pose proof (byteLength_message_wide_event 120%N 600000 ltac:(lia)) as Hb.
    generalize dependent (wide_event 120%N 600000). intros ev Hm Hb events.
    assert (Hp : planned_batches events = [events]).
    { apply planned_batches_single_batch.
      - discriminate.
      - unfold events, len, MAX_EVENTS. cbn [length]. lia.
      - unfold events. cbn [removelast]. rewrite batch_chars_cons, Hm.
        unfold batch_chars, EVENT_OVERHEAD, MAX_BYTES. cbn [fold_right]. lia. }
    assert (Hc : batch_chars events = 1200052).
    { unfold events. rewrite !batch_chars_cons, Hm.
      unfold batch_chars, EVENT_OVERHEAD. cbn [fold_right]. lia. }
    split; [exact Hp|]. split; [exact Hc|]. split.
    + unfold events, batch_bytes. cbn [fold_right]. rewrite Hb.
      unfold EVENT_OVERHEAD. reflexivity.
    + rewrite create_batches_spec, Hp. cbn [forallb]. unfold accepted.
      rewrite Hc. unfold events, len. cbn [length]. reflexivity.
Qed.

(** C7, at one event whose message is 600,000 times the character
    U+00E9, two bytes in UTF-8.  [test_batches] measures 600,026 and
    accepts; [create_batches] returns the batch, which holds 1,200,026
    bytes, above [MAX_BYTES]. *)
Theorem create_batches_accepts_oversized_bytes :
  let ev := wide_event 233%N 600000 in
  create_batches [ev] = inr [[ev]]
  /\ batch_chars [ev] = 600026
  /\ batch_bytes [ev] = 1200026
  /\ ~ within_limits [ev].
Proof.
  pose proof (len_message_wide_event 233%N 600000 ltac:(lia)) as Hm.
  pose proof (byteLength_message_wide_event 233%N 600000 ltac:(lia)) as Hb.
  generalize dependent (wide_event 233%N 600000). intros ev Hm Hb.
  change (utf8_len 233%N) with 2 in Hb. cbv zeta.
  assert (Hc : batch_chars [ev] = 600026).
  { rewrite batch_chars_cons, Hm. reflexivity. }
  assert (Hy : batch_bytes [ev] = 1200026).
  { unfold batch_bytes. cbn [fold_right]. rewrite Hb. reflexivity. }
  split; [|split; [exact Hc|split; [exact Hy|]]].
  - rewrite create_batches_spec.
    change (planned_batches [ev]) with [[ev]].
    cbn [forallb]. unfold accepted. rewrite Hc. reflexivity.
  - unfold within_limits. rewrite Hy. unfold MAX_BYTES. lia.
Qed.

End PlannerFacts.

(** ** The sink *)

Lemma locate_first_find {A} (pred : A -> bool) (l : list A) :
  forall i : nat,
    match locate_first pred l i with
    | Some idx => (i <= idx)%nat /\ nth_error l (idx - i) = find pred l
                  /\ find pred l <> None
    | None => find pred l = None
    end.
Proof.
  induction l as [|x l IH]; intros i; cbn [locate_first find].
  - reflexivity.
  - destruct (pred x).
    + rewrite Nat.sub_diag. repeat split; [lia|discriminate].
    + specialize (IH (S i)). destruct (locate_first pred l (S i)) as [idx|].
      * destruct IH as [Hi [Hn Hf]]. repeat split; [lia| |exact Hf].
        replace (idx - i)%nat with (S (idx - S i)) by lia. exact Hn.
      * exact IH.
Qed.

Section SinkFacts.
Variable S : Type.
Variable client : Client S.

(** What [init_aws_stream] does, call by call. *)
Lemma init_aws_stream_calls (s : S) (log : list Call) (g n : str) :
  init_aws_stream (recording client) (s, log) g n
  = match describe_log_streams client s g n with
    | (s1, inl e) => ((s1, log ++ [Describe g n (inl e)]), inl e)
    | (s1, inr streams) =>
        match find (fun x => str_eqb (logStreamName x) n) streams with
        | Some st =>
            ((s1, log ++ [Describe g n (inr streams)]),
             inr (uploadSequenceToken st))
        | None =>
            let (s2, r) := create_log_stream client s1 g n in
            ((s2, (log ++ [Describe g n (inr streams)]) ++ [Create g n r]),
             match r with inl e => inl e | inr _ => inr None end)
        end
    end.
Proof.
  unfold init_aws_stream. cbn [recording describe_log_streams fst snd].
  destruct (describe_log_streams client s g n) as [s1 [e|streams]];
    [reflexivity|].
  pose proof (locate_first_find
                (fun x => str_eqb (logStreamName x) n) streams 0) as Hloc.
  destruct (locate_first _ streams 0) as [idx|].
  - destruct Hloc as [_ [Hn Hf]]. rewrite Nat.sub_0_r in Hn. rewrite Hn.
    destruct (find _ streams) as [st|]; [reflexivity|contradiction].
  - rewrite Hloc. cbn [recording create_log_stream fst snd].
    destruct (create_log_stream client s1 g n) as [s2 [e|u]]; reflexivity.
Qed.

(** The calls of [post_log_events], and that writing them down changes
    neither the state of the service nor the result. *)
Lemma post_log_events_from_calls (g n : str)
    (bs : list (list LogEvent)) :
  forall (s : S) (log : list Call) (tok : option str)
         (rejected : list RejectedInfo),
  exists calls : list Call,
    post_log_events_from (recording client) (s, log) g n tok bs rejected
    = ((fst (post_log_events_from client s g n tok bs rejected),
        log ++ calls),
       snd (post_log_events_from client s g n tok bs rejected))
    /\ submissions g n tok bs calls
    /\ (succeeded (snd (post_log_events_from client s g n tok bs rejected))
        = true -> length calls = length bs).
Proof.
  induction bs as [|b bs IH]; intros s log tok rejected.
  - exists []. cbn. rewrite app_nil_r. repeat split.
  - cbn [post_log_events_from].
    assert (Hput : forall (X : Type) (c : Client X) (x : X),
               match tok with
               | None => put_log_events c x g n b None
               | Some t => put_log_events c x g n b (Some t)
               end = put_log_events c x g n b tok)
      by (intros; destruct tok; reflexivity).
    rewrite !Hput. cbn [recording put_log_events fst snd].
    destruct (put_log_events client s g n b tok) as [s1 [e|response]] eqn:E.
    + exists [Put g n b tok (inl e)]. cbn. repeat split. discriminate.
    + match goal with
      | |- context [post_log_events_from client s1 g n ?t bs ?r] =>
          destruct (IH s1 (log ++ [Put g n b tok (inr response)]) t r)
            as [calls [Hrun [Hsub Hlen]]]
      end.
      exists (Put g n b tok (inr response) :: calls).
      rewrite Hrun, <- app_assoc. cbn [app]. repeat split.
      * exact Hsub.
      * intros Hok. cbn [length]. f_equal. now apply Hlen.
Qed.

Lemma init_aws_stream_recording (s : S) (log : list Call) (g n : str) :
  exists calls : list Call,
    init_aws_stream (recording client) (s, log) g n
    = ((fst (init_aws_stream client s g n), log ++ calls),
       snd (init_aws_stream client s g n))
    /\ forall c, In c calls -> match c with Put _ _ _ _ _ => False
                                        | _ => True end.
Proof.
  rewrite init_aws_stream_calls. unfold init_aws_stream.
  destruct (describe_log_streams client s g n) as [s1 [e|streams]].
  - eexists. split; [reflexivity|]. intros c [<-|[]]. exact I.
  - pose proof (locate_first_find
                  (fun x => str_eqb (logStreamName x) n) streams 0) as Hloc.
    destruct (locate_first _ streams 0) as [idx|].
    + destruct Hloc as [_ [Hn Hf]]. rewrite Nat.sub_0_r in Hn. rewrite Hn.
      destruct (find _ streams) as [st|]; [|contradiction].
      eexists. split; [reflexivity|]. intros c [<-|[]]. exact I.
    + rewrite Hloc.
      destruct (create_log_stream client s1 g n) as [s2 [e|u]];
        (eexists; split; [rewrite <- app_assoc; reflexivity|]);
        intros c [<-|[<-|[]]]; exact I.
Qed.

Context {rt : Runtime}.

(** A failure before the client is used leaves the service untouched. *)
Lemma process_log_file_aborts_before_sink (s : S) (clock : Clock)
    (f : list str) (skip : Z) (tz : tzinfo) (d : date)
    (base path stream_base group : str) (e : exn) :
  (list_of_generator (generate_dicts f d skip tz) = inl e
   \/ exists evs, list_of_generator (generate_dicts f d skip tz) = inr evs
                  /\ create_batches (sort_by_timestamp evs) = inl e) ->
  process_log_file (recording client) (s, []) clock f skip tz d base path
    stream_base group
  = ((s, []), inl e).
Proof.
  unfold process_log_file. intros [-> | [evs [-> ->]]]; reflexivity.
Qed.

(** The calls of [process_log_file] once the batches are planned: first
    those of [init_aws_stream], none of them a submission, then the
    submissions of [post_log_events], starting from the token that
    [init_aws_stream] returned. *)
Lemma process_log_file_calls (s : S) (clock : Clock)
    (f : list str) (skip : Z) (tz : tzinfo) (d : date)
    (base path stream_base group : str)
    (evs : list LogEvent) (bs : list (list LogEvent)) :
  list_of_generator (generate_dicts f d skip tz) = inr evs ->
  create_batches (sort_by_timestamp evs) = inr bs ->
  let stream := stream_base ++ strftime_date d in
  exists init_calls put_calls : list Call,
    snd (fst (process_log_file (recording client) (s, []) clock f skip tz d
                base path stream_base group))
    = init_calls ++ put_calls
    /\ snd (fst (init_aws_stream (recording client) (s, []) group stream))
       = init_calls
    /\ match snd (init_aws_stream client s group stream) with
       | inr tok => submissions group stream tok bs put_calls
       | inl _ => put_calls = []
       end.
Proof.
  intros Hg Hb stream. unfold process_log_file. rewrite Hg, Hb.
  fold stream.
  destruct (init_aws_stream_recording s [] group stream)
    as [ic [Hinit _]].
  rewrite Hinit. cbn [fst snd app].
  destruct (init_aws_stream client s group stream) as [s1 [e|tok]];
    cbn [fst snd].
  - exists ic, []. now rewrite app_nil_r.
  - unfold post_log_events.
    destruct (post_log_events_from_calls group stream bs s1 ic tok [])
      as [pc [Hrun [Hsub _]]].
    rewrite Hrun. exists ic, pc.
    destruct (snd (post_log_events_from client s1 group stream tok bs []));
      now repeat split.
Qed.

(** C6.  [post_log_events] submits the batches one by one in the order of
    the list; the first submission carries the token it was given and
    every later one the token in the response to the one before it (no
    token when that response has none); when no submission raises, every
    batch is submitted.  The token [init_aws_stream] returns is the
    [uploadSequenceToken] of the first stream of the description that has
    the name asked for, and no token after it has created the stream.
    [process_log_file] hands that token to [post_log_events]. *)
Theorem post_log_events_token_chain (s : S) (g n : str) :
  (forall (tok : option str) (bs : list (list LogEvent)),
      exists calls : list Call,
        post_log_events (recording client) (s, []) g n tok bs
        = ((fst (post_log_events client s g n tok bs), calls),
           snd (post_log_events client s g n tok bs))
        /\ submissions g n tok bs calls
        /\ (succeeded (snd (post_log_events client s g n tok bs)) = true ->
            length calls = length bs))
  /\ init_aws_stream (recording client) (s, []) g n
     = match describe_log_streams client s g n with
       | (s1, inl e) => ((s1, [Describe g n (inl e)]), inl e)
       | (s1, inr streams) =>
           match find (fun x => str_eqb (logStreamName x) n) streams with
           | Some st =>
               ((s1, [Describe g n (inr streams)]),
                inr (uploadSequenceToken st))
           | None =>
               let (s2, r) := create_log_stream client s1 g n in
               ((s2, [Describe g n (inr streams); Create g n r]),
                match r with inl e => inl e | inr _ => inr None end)
           end
       end
  /\ (forall (clock : Clock) (f : list str) (skip : Z) (tz : tzinfo)
             (d : date) (base path stream_base : str)
             (evs : list LogEvent) (bs : list (list LogEvent)),
        list_of_generator (generate_dicts f d skip tz) = inr evs ->
        create_batches (sort_by_timestamp evs) = inr bs ->
        n = stream_base ++ strftime_date d ->
        exists init_calls put_calls : list Call,
          snd (fst (process_log_file (recording client) (s, []) clock f
                      skip tz d base path stream_base g))
          = init_calls ++ put_calls
          /\ snd (fst (init_aws_stream (recording client) (s, []) g n))
             = init_calls
          /\ match snd (init_aws_stream client s g n) with
             | inr tok => submissions g n tok bs put_calls
             | inl _ => put_calls = []
             end).
Proof.
  split; [|split].
  - intros tok bs. unfold post_log_events.
    destruct (post_log_events_from_calls g n bs s [] tok [])
      as [calls [Hrun [Hsub Hlen]]].
    exists calls. now rewrite Hrun.
  - rewrite init_aws_stream_calls.
    destruct (describe_log_streams client s g n) as [s1 [e|streams]];
      [reflexivity|].
    destruct (find _ streams); [reflexivity|].
    destruct (create_log_stream client s1 g n). reflexivity.
  - intros clock f skip tz d base path stream_base evs bs Hg Hb ->.
    exact (process_log_file_calls s clock f skip tz d base path stream_base
             g evs bs Hg Hb).
Qed.

End SinkFacts.

(** ** Resume after rotation *)

Section LogAutoFacts.
Context {rt : Runtime}.
Variable W : Type.
Variable isfile : W -> str -> bool.
Variable process : W -> ProcessCall -> W * (exn + ResultOfLogProcessing).

(** C4.  In the [log_auto] branch with a checkpoint dated before today,
    the calls of [process_log_file] and the list [all_results] are as
    follows.  If the file [server_log_base_file_path + "." + date_used]
    exists it is processed first, for the checkpoint date and with
    [num_events_processed + num_events_skipped] entries skipped, and its
    report comes first.  With or without that file the block leaves the
    three counters at zero and [processed_server_log_file_path] at
    [server_log_base_file_path], so that the next call processes the live
    file for today with no entry skipped; its report comes last.  A call
    that raises ends the run. *)
Theorem log_auto_after_rotation (w : W)
    (previous_results : ResultOfLogProcessing)
    (today previous_date : date) (tz : tzinfo) :
  strptime_date (date_used previous_results) = Some previous_date ->
  date_ltb previous_date today = true ->
  ZoneInfo (tzinfo_name previous_results) = Some tz ->
  let base := server_log_base_file_path previous_results in
  let rotated := base ++ lit "." ++ date_used previous_results in
  let call_rotated :=
    {| arg_skip_num_entries :=
         num_events_processed previous_results
         + num_events_skipped previous_results;
       arg_tzinfo := tz;
       arg_date_of_log_entries := previous_date;
       arg_server_log_base_file_path := base;
       arg_process_server_log_file_path := rotated;
       arg_log_stream_base_name := LOG_STREAM_BASE_NAME;
       arg_log_group_name := LOG_GROUP_NAME |} in
  let call_live :=
    {| arg_skip_num_entries := 0;
       arg_tzinfo := tz;
       arg_date_of_log_entries := today;
       arg_server_log_base_file_path := base;
       arg_process_server_log_file_path := base;
       arg_log_stream_base_name := LOG_STREAM_BASE_NAME;
       arg_log_group_name := LOG_GROUP_NAME |} in
  log_auto (recording_isfile isfile) (recording_process process)
    (w, []) previous_results today
  = (if isfile w rotated then
       match process w call_rotated with
       | (w1, inl e) => ((w1, [call_rotated]), inl e)
       | (w1, inr report1) =>
           match process w1 call_live with
           | (w2, inl e) => ((w2, [call_rotated; call_live]), inl e)
           | (w2, inr report2) =>
               ((w2, [call_rotated; call_live]), inr [report1; report2])
           end
       end
     else
       match process w call_live with
       | (w2, inl e) => ((w2, [call_live]), inl e)
       | (w2, inr report2) => ((w2, [call_live]), inr [report2])
       end)
  /\ (forall w' previous_results' all_results,
        handle_rotation (recording_isfile isfile)
          (recording_process process) (w, []) previous_results previous_date
        = (w', inr (previous_results', all_results)) ->
        num_batches previous_results' = 0
        /\ num_events_processed previous_results' = 0
        /\ num_events_skipped previous_results' = 0
        /\ processed_server_log_file_path previous_results' = base
        /\ server_log_base_file_path previous_results' = base).
Proof.
  intros Hdate Hlt Hzone base rotated call_rotated call_live. split.
  - unfold log_auto. rewrite Hdate, Hlt. unfold handle_rotation.
    fold base. fold rotated.
    unfold recording_isfile at 1. cbn [fst].
    destruct (isfile w rotated).
    + unfold call_process at 1. rewrite Hzone. fold call_rotated.
      unfold recording_process at 1. cbn [fst snd app].
      destruct (process w call_rotated) as [w1 [e|report1]];
        [reflexivity|].
      unfold call_process. cbn [reset_after_rotation tzinfo_name
        num_events_processed num_events_skipped server_log_base_file_path
        processed_server_log_file_path].
      rewrite Hzone. fold base. rewrite Z.add_0_l. fold call_live.
      unfold recording_process. cbn [fst snd app].
      destruct (process w1 call_live) as [w2 [e|report2]]; reflexivity.
    + unfold call_process. cbn [reset_after_rotation tzinfo_name
        num_events_processed num_events_skipped server_log_base_file_path
        processed_server_log_file_path].
      rewrite Hzone. fold base. rewrite Z.add_0_l. fold call_live.
      unfold recording_process. cbn [fst snd app].
      destruct (process w call_live) as [w2 [e|report2]]; reflexivity.
  - intros w' prev' all_results. unfold handle_rotation.
    destruct (recording_isfile isfile (w, []) _).
    + destruct (call_process _ _ _ _ _ _ _) as [w1 [e|report1]];
        [discriminate|].
      intros H; injection H as _ <- _. now repeat split.
    + intros H; injection H as _ <- _. now repeat split.
Qed.

End LogAutoFacts.

(** ** The statements at concrete inputs *)

Lemma create_batches_partition_witness :
  create_batches [wide_event 120%N 1; wide_event 120%N 2]
  = inr [[wide_event 120%N 1; wide_event 120%N 2]]
  /\ concat [[wide_event 120%N 1; wide_event 120%N 2]]
     = [wide_event 120%N 1; wide_event 120%N 2].
Proof.
  split; [reflexivity|].
  apply (proj1 (proj2 (create_batches_partition
                         [wide_event 120%N 1; wide_event 120%N 2]))).
  reflexivity.
Defined.

Lemma generate_dicts_skip_witness :
  0 <= 1
  /\ no_overflow (generate_dicts example_lines example_date 0 example_tz)
  /\ fst (generate_dicts example_lines example_date 1 example_tz)
     = skipn 1 (fst (generate_dicts example_lines example_date 0 example_tz)).
Proof.
  assert (Hno : no_overflow
                  (generate_dicts example_lines example_date 0 example_tz))
    by (intros H; discriminate H).
  split; [lia|]. split; [exact Hno|].
  apply (proj1 (@generate_dicts_skip example_runtime example_date example_tz
                  example_lines 1 ltac:(lia))).
  exact Hno.
Defined.

(** C5 as stated fails on the first day of the calendar.  On 0001-01-01
    in a zone nine hours east of UTC the local time 08:00 is before the
    first instant a date holds, and 10:00 is not.  With skip count 1 the
    first line is skipped before its time is converted and the run yields
    the record of the second; with skip count 0 the conversion of the first
    time raises and the run yields nothing. *)
Lemma generate_dicts_skip_overflow :
  generate_dicts (rt := calendar_runtime)
    [line_of "08:00:00,000 A"; line_of "10:00:00,000 B"] 1 1 32400
  = ([{| timestamp := -62135593200000; message := line_of "B" |}], None)
  /\ generate_dicts (rt := calendar_runtime)
       [line_of "08:00:00,000 A"; line_of "10:00:00,000 B"] 1 0 32400
     = ([], Some OverflowError)
  /\ fst (generate_dicts (rt := calendar_runtime)
            [line_of "08:00:00,000 A"; line_of "10:00:00,000 B"] 1 1 32400)
     <> skipn 1
          (fst (generate_dicts (rt := calendar_runtime)
                  [line_of "08:00:00,000 A"; line_of "10:00:00,000 B"]
                  1 0 32400)).
Proof.
  split; [reflexivity|]. split; [reflexivity|].
  vm_compute. discriminate.
Qed.

Lemma generate_dicts_guard_unreachable_witness :
  0 <= 0
  /\ snd (generate_dicts
            [line_of "continuation"; line_of "10:00:00,000 Start"]
            example_date 0 example_tz)
     <> Some ValueError_currentDict_None.
Proof.
  split; [lia|].
  apply (@generate_dicts_guard_unreachable example_runtime example_date
           example_tz [line_of "continuation"; line_of "10:00:00,000 Start"] 0).
  lia.
Defined.

Lemma generate_dicts_messages_nonempty_witness :
  (forall line, In line example_lines ->
                @is_timestamp_line example_runtime line = true ->
                (SKIP_CHARS < length line)%nat)
  /\ Forall (fun ev => message ev <> [])
       (fst (generate_dicts example_lines example_date 0 example_tz)).
Proof.
  assert (H : forall line, In line example_lines ->
                @is_timestamp_line example_runtime line = true ->
                (SKIP_CHARS < length line)%nat).
  { intros line [<-|[<-|[<-|[]]]] Ht; try discriminate Ht;
      vm_compute; lia. }
  split; [exact H|].
  exact (@generate_dicts_messages_nonempty example_runtime example_date
           example_tz example_lines 0 H).
Defined.

(** A timestamp line with nothing after the timestamp but the newline opens
    a record with an empty message. *)
Lemma generate_dicts_bare_timestamp {rt : Runtime} (d : date) (tz : tzinfo)
    (ts : Z) :
  local_to_utc_timestamp d (mk_time 10 0 0 0) tz = Some ts ->
  generate_dicts [line_of "10:00:00,000"] d 0 tz
  = ([{| timestamp := ts; message := [] |}], None).
Proof.
  intros H. unfold generate_dicts. cbn [generate_dicts_from].
  change (matchDate (line_of "10:00:00,000")) with
    (@inr exn (bool * option time) (true, Some (mk_time 10 0 0 0))).
  cbn [Z.leb Z.compare Z.add Pos.compare Pos.compare_cont rem_opt].
  now rewrite H.
Qed.

(** C8 as stated fails on the one-line stream "10:00:00,000\n": the record
    it yields has the empty message. *)
Lemma generate_dicts_empty_message :
  ~ Forall (fun ev => message ev <> [])
      (fst (generate_dicts [line_of "10:00:00,000"] example_date 0
              example_tz)).
Proof.
  rewrite (generate_dicts_bare_timestamp (rt := example_runtime)
             example_date example_tz 36000000 eq_refl).
  cbn [fst]. intros H. inversion H as [|ev evs Hm _]. now apply Hm.
Qed.

Lemma post_log_events_token_chain_witness :
  exists calls : list Call,
    post_log_events (recording (example_client (lit "dv-server.log-2021-12-21")))
      ([], []) LOG_GROUP_NAME (lit "dv-server.log-2021-12-21")
      (Some (lit "49"))
      [[wide_event 120%N 1]; [wide_event 120%N 2]]
    = (([[wide_event 120%N 1]; [wide_event 120%N 2]], calls), inr [])
    /\ length calls = 2%nat.
Proof.
  destruct (proj1 (@post_log_events_token_chain _
                     (example_client (lit "dv-server.log-2021-12-21"))
                     example_runtime
                     [] LOG_GROUP_NAME (lit "dv-server.log-2021-12-21"))
              (Some (lit "49"))
              [[wide_event 120%N 1]; [wide_event 120%N 2]])
    as [calls [Hrun [_ Hlen]]].
  exists calls. split; [exact Hrun|]. apply Hlen. reflexivity.
Defined.

Lemma log_auto_after_rotation_witness :
  @strptime_date example_runtime (date_used example_checkpoint)
  = Some example_date
  /\ @date_ltb example_runtime example_date example_today = true
  /\ @ZoneInfo example_runtime (tzinfo_name example_checkpoint)
     = Some example_tz
  /\ exists report1 report2,
       log_auto (recording_isfile example_isfile)
         (recording_process example_process)
         ([lit "server.log"; lit "server.log.2021-12-21"], [])
         example_checkpoint example_today
       = (([lit "server.log"; lit "server.log.2021-12-21"],
           [{| arg_skip_num_entries := 10;
               arg_tzinfo := example_tz;
               arg_date_of_log_entries := example_date;
               arg_server_log_base_file_path := lit "server.log";
               arg_process_server_log_file_path :=
                 lit "server.log.2021-12-21";
               arg_log_stream_base_name := LOG_STREAM_BASE_NAME;
               arg_log_group_name := LOG_GROUP_NAME |};
            {| arg_skip_num_entries := 0;
               arg_tzinfo := example_tz;
               arg_date_of_log_entries := example_today;
               arg_server_log_base_file_path := lit "server.log";
               arg_process_server_log_file_path := lit "server.log";
               arg_log_stream_base_name := LOG_STREAM_BASE_NAME;
               arg_log_group_name := LOG_GROUP_NAME |}]),
          inr [report1; report2]).
Proof.
  split; [reflexivity|]. split; [reflexivity|]. split; [reflexivity|].
  eexists. eexists.
  rewrite (proj1 (@log_auto_after_rotation example_runtime (list str)
                    example_isfile example_process
                    [lit "server.log"; lit "server.log.2021-12-21"]
                    example_checkpoint example_today example_date example_tz
                    eq_refl eq_refl eq_refl)).
  reflexivity.
Defined.

(** * Further properties *)

(** ** Record reconstruction *)

Section ReconstructorMore.
Context {rt : Runtime}.
Variable d : date.
Variable tz : tzinfo.

Lemma is_timestamp_line_matchDate (line : str) (pt : option time) :
  matchDate line = inr (true, pt) -> is_timestamp_line line = true.
Proof.
  unfold matchDate, is_timestamp_line.
  destruct (re_timestamp line); [reflexivity|discriminate].
Qed.

Lemma is_continuation_matchDate (line : str) (pt : option time) :
  matchDate line = inr (false, pt) -> is_timestamp_line line = false.
Proof.
  intros H. unfold is_timestamp_line.
  now rewrite (matchDate_unmatched _ _ H).
Qed.

Lemma count_timestamp_lines_cons (line : str) (lines : list str) :
  count_timestamp_lines (line :: lines)
  = (if is_timestamp_line line then 1 else 0) + count_timestamp_lines lines.
Proof.
  unfold count_timestamp_lines, len. cbn [filter].
  destruct (is_timestamp_line line); cbn [length]; lia.
Qed.

Lemma count_timestamp_lines_nonneg (lines : list str) :
  0 <= count_timestamp_lines lines.
Proof. apply len_nonneg. Qed.

(** A generator that ends normally has parsed every line. *)
Lemma normal_end_parses (k : Z) (lines : list str) :
  forall (c : option LogEvent) (n : Z),
    snd (generate_dicts_from d k tz lines c n) = None ->
    Forall parses lines.
Proof.
  induction lines as [|line rest IH]; intros c n; cbn [generate_dicts_from];
    [constructor|].
  destruct (matchDate line) as [e|[[|] pt]] eqn:Em; [discriminate| |].
  - assert (Hp : parses line) by (intros e; rewrite Em; discriminate).
    destruct (n + 1 <=? k).
    + intros H. constructor; [exact Hp|]. exact (IH _ _ H).
    + destruct (rem_opt pt) as [e|t]; [discriminate|].
      destruct (local_to_utc_timestamp d t tz) as [ts|]; [|discriminate].
      destruct (generate_dicts_from d k tz rest _ (n + 1)) as [out e] eqn:Eg.
      cbn [snd]. intros ->. constructor; [exact Hp|].
      eapply IH. rewrite Eg. reflexivity.
  - assert (Hp : parses line) by (intros e; rewrite Em; discriminate).
    destruct (n <=? k).
    + intros H. constructor; [exact Hp|]. exact (IH _ _ H).
    + destruct c as [ev|]; [|discriminate].
      intros H. constructor; [exact Hp|]. exact (IH _ _ H).
Qed.

(** With a record open and the counter past the threshold: the messages
    yielded, put end to end, are the open message and the bodies of the
    lines; one record per timestamp line, and the open one. *)
Lemma active_phase_text (k : Z) (lines : list str) :
  forall (ev : LogEvent) (n : Z),
    k < n ->
    snd (generate_dicts_from d k tz lines (Some ev) n) = None ->
    concat (map message (fst (generate_dicts_from d k tz lines (Some ev) n)))
    = message ev ++ concat (map body lines)
    /\ len (fst (generate_dicts_from d k tz lines (Some ev) n))
       = 1 + count_timestamp_lines lines.
Proof.
  induction lines as [|line rest IH]; intros ev n Hn;
    cbn [generate_dicts_from].
  - intros _. cbn. now rewrite !app_nil_r.
  - rewrite count_timestamp_lines_cons. unfold body at 1. cbn [map concat].
    destruct (matchDate line) as [e|[[|] pt]] eqn:Em; [discriminate| |].
    + rewrite (is_timestamp_line_matchDate _ _ Em).
      destruct (Z.leb_spec (n + 1) k); [lia|].
      destruct (rem_opt pt) as [e|t]; [discriminate|].
      destruct (local_to_utc_timestamp d t tz) as [ts|]; [|discriminate].
      match goal with
      | |- context [generate_dicts_from d k tz rest (Some ?ev') ?n'] =>
          specialize (IH ev' n' ltac:(lia));
          destruct (generate_dicts_from d k tz rest (Some ev') n')
            as [out e] eqn:Eg
      end.
      cbn [fst snd flush app map concat message] in *. intros ->.
      destruct (IH eq_refl) as [IH1 IH2]. rewrite IH1. split; [reflexivity|].
      unfold len in *. cbn [length]. lia.
    + rewrite (is_continuation_matchDate _ _ Em).
      destruct (Z.leb_spec n k); [lia|].
      intros Hend. destruct (IH _ n Hn Hend) as [IH1 IH2].
      cbn [message] in IH1. rewrite IH1, IH2, app_assoc. split; [reflexivity|lia].
Qed.

(** Before the first record is opened, with [j] timestamp lines still to be
    skipped. *)
Lemma skip_phase_text (k : Z) (lines : list str) :
  forall n : Z,
    n <= k ->
    snd (generate_dicts_from d k tz lines None n) = None ->
    concat (map message (fst (generate_dicts_from d k tz lines None n)))
    = concat (map body (unskipped (Z.to_nat (k - n)) lines))
    /\ len (fst (generate_dicts_from d k tz lines None n))
       = Z.max 0 (count_timestamp_lines lines - (k - n)).
Proof.
  induction lines as [|line rest IH]; intros n Hn;
    cbn [generate_dicts_from unskipped].
  - intros _. cbn. split; [reflexivity|lia].
  - rewrite count_timestamp_lines_cons.
    pose proof (count_timestamp_lines_nonneg rest) as Hc.
    destruct (matchDate line) as [e|[[|] pt]] eqn:Em; [discriminate| |].
    + rewrite (is_timestamp_line_matchDate _ _ Em).
      destruct (Z.leb_spec (n + 1) k).
      * intros Hend. destruct (IH (n + 1) ltac:(lia) Hend) as [IH1 IH2].
        rewrite IH1, IH2.
        replace (Z.to_nat (k - n)) with (S (Z.to_nat (k - (n + 1)))) by lia.
        split; [reflexivity|lia].
      * assert (n = k) as -> by lia. rewrite Z.sub_diag. cbn [Z.to_nat].
        destruct (rem_opt pt) as [e|t]; [discriminate|].
        destruct (local_to_utc_timestamp d t tz) as [ts|]; [|discriminate].
        match goal with
        | |- context [generate_dicts_from d k tz rest (Some ?ev') ?n'] =>
            pose proof (active_phase_text k rest ev' n' ltac:(lia)) as Ha;
            destruct (generate_dicts_from d k tz rest (Some ev') n')
              as [out e] eqn:Eg
        end.
        cbn [fst snd flush app message] in *. intros ->.
        destruct (Ha eq_refl) as [Ha1 Ha2]. rewrite Ha1, Ha2.
        cbn [map concat]. unfold body at 2.
        rewrite (is_timestamp_line_matchDate _ _ Em).
        split; [reflexivity|lia].
    + rewrite (is_continuation_matchDate _ _ Em).
      destruct (Z.leb_spec n k); [|lia].
      intros Hend. destruct (IH n Hn Hend) as [IH1 IH2]. rewrite IH1, IH2.
      split; [reflexivity|lia].
Qed.

(** X1.  When the generator ends normally, the messages of the records it
    yields, put end to end, are the text of the stream from the first
    timestamp line that is not skipped on, less the 13-character prefix of
    every timestamp line: no character of a record is lost or added. *)
Theorem generate_dicts_text (lines : list str) (k : Z) :
  0 <= k ->
  snd (generate_dicts lines d k tz) = None ->
  concat (map message (fst (generate_dicts lines d k tz)))
  = concat (map body (unskipped (Z.to_nat k) lines)).
Proof.
  intros Hk H. unfold generate_dicts in *.
  destruct (skip_phase_text k lines 0 Hk H) as [H1 _].
  now rewrite Z.sub_0_r in H1.
Qed.

(** X2.  When the generator ends normally it yields one record for each
    timestamp line after the first [k]: as many records as the stream has
    timestamp lines beyond [k], none when it has no more than [k]. *)
Theorem generate_dicts_count (lines : list str) (k : Z) :
  0 <= k ->
  snd (generate_dicts lines d k tz) = None ->
  len (fst (generate_dicts lines d k tz))
  = Z.max 0 (count_timestamp_lines lines - k).
Proof.
  intros Hk H. unfold generate_dicts in *.
  destruct (skip_phase_text k lines 0 Hk H) as [_ H2].
  now rewrite Z.sub_0_r in H2.
Qed.

(** X3.  A negative skip count skips nothing.  On a stream whose first line
    is a timestamp line the generator does what it does with skip count 0;
    on a stream whose first line is not, it raises the [ValueError] of the
    guard for a continuation line with no open record, having yielded
    nothing. *)
Theorem generate_dicts_negative_skip (line : str) (rest : list str) (k : Z) :
  k < 0 ->
  (is_timestamp_line line = true ->
   generate_dicts (line :: rest) d k tz = generate_dicts (line :: rest) d 0 tz)
  /\ (is_timestamp_line line = false ->
      generate_dicts (line :: rest) d k tz
      = ([], Some ValueError_currentDict_None)).
Proof.
  intros Hk. unfold generate_dicts, is_timestamp_line.
  cbn [generate_dicts_from]. unfold matchDate.
  destruct (re_timestamp line) as [g|]; split; try discriminate; intros _.
  - destruct (strptime_HMSf (strip g)) as [t|]; [|reflexivity].
    destruct (Z.leb_spec (0 + 1) k); [lia|].
    destruct (Z.leb_spec (0 + 1) 0); [lia|]. cbn [rem_opt].
    destruct (local_to_utc_timestamp d t tz) as [ts|]; [|reflexivity].
    now rewrite (active_phase d tz rest _ (0 + 1) k (0 + 1) 0) by lia.
  - destruct (Z.leb_spec 0 k); [lia|reflexivity].
Qed.

(** The first line on which [matchDate] raises ends the generator, with
    that exception unless the conversion of an earlier time has raised. *)
Lemma first_unparsed_line_raises (k : Z) (bad : str) (rest : list str)
    (e : exn) (pre : list str) :
  matchDate bad = inl e ->
  Forall parses pre ->
  forall (c : option LogEvent) (n : Z),
    (k < n -> c <> None) ->
    (snd (generate_dicts_from d k tz (pre ++ bad :: rest) c n) = Some e
     \/ snd (generate_dicts_from d k tz (pre ++ bad :: rest) c n)
        = Some OverflowError)
    /\ (Forall (resolves d tz) pre ->
        snd (generate_dicts_from d k tz (pre ++ bad :: rest) c n) = Some e).
Proof.
  intros Hbad Hpre. induction Hpre as [|line pre Hline _ IH]; intros c n Hc;
    cbn [app generate_dicts_from].
  - rewrite Hbad. split; [now left|reflexivity].
  - destruct (matchDate line) as [e'|[[|] pt]] eqn:Em.
    + now destruct (Hline e').
    + destruct (Z.leb_spec (n + 1) k).
      * destruct (IH c (n + 1) ltac:(intros; lia)) as [IH1 IH2].
        split; [exact IH1|]. intros Hr. apply IH2.
        now inversion Hr.
      * destruct (matchDate_matched _ _ Em) as [t ->]. cbn [rem_opt].
        destruct (local_to_utc_timestamp d t tz) as [ts|] eqn:Ets.
        -- match goal with
           | |- context [generate_dicts_from d k tz _ (Some ?ev') ?n'] =>
               destruct (IH (Some ev') n' ltac:(discriminate)) as [IH1 IH2];
               destruct (generate_dicts_from d k tz (pre ++ bad :: rest)
                           (Some ev') n')
           end.
           cbn [snd] in *. split; [exact IH1|]. intros Hr. apply IH2.
           now inversion Hr.
        -- cbn [snd]. split; [now right|]. intros Hr.
           inversion Hr as [|? ? Hl _]; subst.
           now destruct (Hl t Em).
    + destruct (Z.leb_spec n k).
      * destruct (IH c n ltac:(intros; lia)) as [IH1 IH2].
        split; [exact IH1|]. intros Hr. apply IH2. now inversion Hr.
      * destruct c as [ev|]; [|now destruct Hc].
        match goal with
        | |- context [generate_dicts_from d k tz _ (Some ?ev') n] =>
            destruct (IH (Some ev') n ltac:(discriminate)) as [IH1 IH2]
        end.
        split; [exact IH1|]. intros Hr. apply IH2. now inversion Hr.
Qed.

Lemma list_of_generator_raises {A} (g : list A * option exn) (e : exn) :
  snd g = Some e -> list_of_generator g = inl e.
Proof. destruct g as [out [e'|]]; cbn; congruence. Qed.

(** X5.  A timestamp line that [strptime] does not accept ends the run
    wherever it stands, among the skipped entries too.  With a skip count
    [k >= 0], [list(generate_dicts(...))] never returns a list when
    [matchDate] raises on a line: it raises that exception, unless the
    conversion of an earlier time has raised [OverflowError] before.  It
    raises that exception for certain when the times of the earlier lines
    convert, and when the earlier lines are all among the skipped
    entries. *)
Theorem generate_dicts_unparsed_line (pre : list str) (bad : str)
    (rest : list str) (e : exn) (k : Z) :
  0 <= k ->
  Forall parses pre ->
  matchDate bad = inl e ->
  (list_of_generator (generate_dicts (pre ++ bad :: rest) d k tz) = inl e
   \/ list_of_generator (generate_dicts (pre ++ bad :: rest) d k tz)
      = inl OverflowError)
  /\ (Forall (resolves d tz) pre ->
      list_of_generator (generate_dicts (pre ++ bad :: rest) d k tz) = inl e)
  /\ (count_timestamp_lines pre <= k ->
      list_of_generator (generate_dicts (pre ++ bad :: rest) d k tz) = inl e).
Proof.
  intros Hk Hpre Hbad. unfold generate_dicts.
  destruct (first_unparsed_line_raises k bad rest e pre Hbad Hpre None 0
              ltac:(intros; lia)) as [H1 H2].
  split; [|split].
  - destruct H1 as [H1|H1]; [left|right];
      now apply list_of_generator_raises.
  - intros Hr. apply list_of_generator_raises. now apply H2.
  - intros Hc. apply list_of_generator_raises.
    rewrite (skipped_prefix d tz k pre (bad :: rest) 0) by (assumption || lia).
    cbn [generate_dicts_from]. now rewrite Hbad.
Qed.

End ReconstructorMore.

Section ResumeFacts.
Context {rt : Runtime}.
Variable d : date.
Variable tz : tzinfo.

(** A run that ends normally has ended normally on every prefix. *)
Lemma normal_end_prefix (k : Z) (l1 l2 : list str) :
  forall (c : option LogEvent) (n : Z),
    snd (generate_dicts_from d k tz (l1 ++ l2) c n) = None ->
    snd (generate_dicts_from d k tz l1 c n) = None.
Proof.
  induction l1 as [|line rest IH]; intros c n;
    cbn [app generate_dicts_from]; [reflexivity|].
  destruct (matchDate line) as [e|[[|] pt]]; [discriminate| |].
  - destruct (n + 1 <=? k); [apply IH|].
    destruct (rem_opt pt) as [e|t]; [discriminate|].
    destruct (local_to_utc_timestamp d t tz) as [ts|]; [|discriminate].
    match goal with
    | |- context [generate_dicts_from d k tz rest (Some ?ev') ?n'] =>
        specialize (IH (Some ev') n');
        destruct (generate_dicts_from d k tz rest (Some ev') n');
        destruct (generate_dicts_from d k tz (rest ++ l2) (Some ev') n')
    end.
    exact IH.
  - destruct (n <=? k); [apply IH|].
    destruct c as [ev|]; [apply IH|discriminate].
Qed.

(** A run that ends normally continues, where a record begins, as a run
    from the start does. *)
Lemma resume_active (k : Z) (l1 l2 : list str) :
  whole_records l2 ->
  forall (ev : LogEvent) (n : Z),
    k < n ->
    snd (generate_dicts_from d k tz (l1 ++ l2) (Some ev) n) = None ->
    fst (generate_dicts_from d k tz (l1 ++ l2) (Some ev) n)
    = fst (generate_dicts_from d k tz l1 (Some ev) n)
      ++ fst (generate_dicts_from d 0 tz l2 None 0)
    /\ snd (generate_dicts_from d 0 tz l2 None 0) = None.
Proof.
  intros Hw. induction l1 as [|line rest IH]; intros ev n Hn.
  - cbn [app]. destruct l2 as [|t r].
    + intros _. cbn. split; reflexivity.
    + cbn [whole_records] in Hw. cbn [generate_dicts_from flush fst].
      destruct (matchDate t) as [e|[[|] pt]] eqn:Em; [discriminate| |].
      * destruct (Z.leb_spec (n + 1) k); [lia|].
        destruct (Z.leb_spec (0 + 1) 0); [lia|].
        destruct (rem_opt pt) as [e|tm]; [discriminate|].
        destruct (local_to_utc_timestamp d tm tz) as [ts|]; [|discriminate].
        rewrite (active_phase d tz r _ (n + 1) k (0 + 1) 0) by lia.
        destruct (generate_dicts_from d 0 tz r _ (0 + 1)) as [out e].
        cbn [fst snd app]. intros ->. split; reflexivity.
      * rewrite (is_continuation_matchDate _ _ Em) in Hw. discriminate.
  - cbn [app generate_dicts_from].
    destruct (matchDate line) as [e|[[|] pt]] eqn:Em; [discriminate| |].
    + destruct (Z.leb_spec (n + 1) k); [lia|].
      destruct (rem_opt pt) as [e|t]; [discriminate|].
      destruct (local_to_utc_timestamp d t tz) as [ts|]; [|discriminate].
      match goal with
      | |- context [generate_dicts_from d k tz rest (Some ?ev') ?n'] =>
          specialize (IH ev' n' ltac:(lia));
          destruct (generate_dicts_from d k tz rest (Some ev') n');
          destruct (generate_dicts_from d k tz (rest ++ l2) (Some ev') n')
      end.
      cbn [fst snd] in *. intros Hend. destruct (IH Hend) as [IH1 IH2].
      rewrite IH1. split; [now rewrite app_assoc|exact IH2].
    + destruct (Z.leb_spec n k); [lia|]. now apply IH.
Qed.

Lemma resume_skip (k : Z) (l1 l2 : list str) :
  whole_records l2 ->
  forall n : Z,
    n <= k ->
    k <= n + count_timestamp_lines l1 ->
    snd (generate_dicts_from d k tz (l1 ++ l2) None n) = None ->
    fst (generate_dicts_from d k tz (l1 ++ l2) None n)
    = fst (generate_dicts_from d k tz l1 None n)
      ++ fst (generate_dicts_from d 0 tz l2 None 0)
    /\ snd (generate_dicts_from d 0 tz l2 None 0) = None.
Proof.
  intros Hw. induction l1 as [|line rest IH]; intros n Hn Hc.
  - change (count_timestamp_lines []) with 0 in Hc.
    assert (n = k) as -> by lia. cbn [app generate_dicts_from flush fst].
    rewrite (shift_counter d tz l2 None k k k). rewrite Z.sub_diag.
    intros Hend. split; [reflexivity|exact Hend].
  - rewrite count_timestamp_lines_cons in Hc.
    cbn [app generate_dicts_from].
    destruct (matchDate line) as [e|[[|] pt]] eqn:Em; [discriminate| |].
    + rewrite (is_timestamp_line_matchDate _ _ Em) in Hc.
      destruct (Z.leb_spec (n + 1) k).
      * apply IH; lia.
      * destruct (rem_opt pt) as [e|t]; [discriminate|].
        destruct (local_to_utc_timestamp d t tz) as [ts|]; [|discriminate].
        match goal with
        | |- context [generate_dicts_from d k tz rest (Some ?ev') ?n'] =>
            pose proof (resume_active k rest l2 Hw ev' n' ltac:(lia)) as Ha;
            destruct (generate_dicts_from d k tz rest (Some ev') n');
            destruct (generate_dicts_from d k tz (rest ++ l2) (Some ev') n')
        end.
        cbn [fst snd flush app] in *. exact Ha.
    + rewrite (is_continuation_matchDate _ _ Em) in Hc.
      destruct (Z.leb_spec n k); [|lia]. apply IH; lia.
Qed.

(** X6.  Resuming from a checkpoint.  Let a first run read the lines [l1]
    with skip count [k >= 0] and yield [p1] records, and let a second run
    read the file after it has grown by the lines [l2], with skip count
    [p1 + k] as the checkpoint gives it.  If [l2] is empty or begins with a
    timestamp line and the run over the whole file ends normally, so does
    the first run, and the records of the two runs together are the records
    of one run over the whole file. *)
Theorem generate_dicts_resume (l1 l2 : list str) (k : Z) :
  0 <= k ->
  whole_records l2 ->
  snd (generate_dicts (l1 ++ l2) d k tz) = None ->
  snd (generate_dicts l1 d k tz) = None
  /\ fst (generate_dicts l1 d k tz)
     ++ fst (generate_dicts (l1 ++ l2) d
               (len (fst (generate_dicts l1 d k tz)) + k) tz)
     = fst (generate_dicts (l1 ++ l2) d k tz).
Proof.
  intros Hk Hw Hend. unfold generate_dicts in *.
  pose proof (normal_end_prefix k l1 l2 None 0 Hend) as H1.
  pose proof (normal_end_parses d tz k _ _ _ H1) as Hp1.
  split; [exact H1|].
  destruct (skip_phase_text d tz k l1 0 Hk H1) as [_ Hlen].
  rewrite Z.sub_0_r in Hlen. rewrite Hlen.
  pose proof (count_timestamp_lines_nonneg l1) as Hc.
  destruct (Z.le_gt_cases k (count_timestamp_lines l1)) as [Hle|Hgt].
  - replace (Z.max 0 (count_timestamp_lines l1 - k) + k)
      with (count_timestamp_lines l1) by lia.
    rewrite (skipped_prefix d tz (count_timestamp_lines l1) l1 l2 0)
      by (assumption || lia).
    rewrite (shift_counter d tz l2 None _ (count_timestamp_lines l1)
               (count_timestamp_lines l1)).
    rewrite Z.add_0_l, Z.sub_diag.
    symmetry. apply resume_skip; (assumption || lia).
  - replace (Z.max 0 (count_timestamp_lines l1 - k) + k) with k by lia.
    assert (Hnil : fst (generate_dicts_from d k tz l1 None 0) = []).
    { destruct (fst (generate_dicts_from d k tz l1 None 0)); [reflexivity|].
      unfold len in Hlen. cbn [length] in Hlen. lia. }
    now rewrite Hnil.
Qed.

(** C9, as the code has it.  A line matching the timestamp pattern matches
    on its first 13 characters, the timestamp and one separator.  In a run
    that ends normally, such a line, wherever it stands after the skipped
    entries, opens a record: its timestamp is the conversion of the time of
    the line, its message is the line without these 13 characters followed
    by its continuation lines as they are, newlines included.  The records
    before it are those of the lines before it, the records after it those
    of the lines after it.  The three lines of the example give the two
    records with the messages "Start\ncontinuation\n" and "Done\n" when the
    times 10:00:00.000 and 10:00:01.500 convert for the date and the zone;
    when one of them does not, the run ends there in the [OverflowError] of
    the conversion. *)
Theorem generate_dicts_record_body :
  (forall line g : str,
      re_timestamp line = Some g ->
      length g = 13%nat /\ line = g ++ skipn SKIP_CHARS line)
  /\ (forall (pre : list str) (line : str) (t : time) (cs rest : list str)
             (k : Z),
        0 <= k <= count_timestamp_lines pre ->
        matchDate line = inr (true, Some t) ->
        Forall (fun c => re_timestamp c = None) cs ->
        whole_records rest ->
        snd (generate_dicts (pre ++ line :: cs ++ rest) d k tz) = None ->
        exists ts : Z,
          local_to_utc_timestamp d t tz = Some ts
          /\ fst (generate_dicts (pre ++ line :: cs ++ rest) d k tz)
             = fst (generate_dicts pre d k tz)
               ++ {| timestamp := ts;
                     message := skipn SKIP_CHARS line ++ concat cs |}
                  :: fst (generate_dicts rest d 0 tz))
  /\ generate_dicts
       [line_of "10:00:00,000 Start"; line_of "continuation";
        line_of "10:00:01,500 Done"] d 0 tz
     = match local_to_utc_timestamp d (mk_time 10 0 0 0) tz with
       | None => ([], Some OverflowError)
       | Some ts1 =>
           match local_to_utc_timestamp d (mk_time 10 0 1 500000) tz with
           | None =>
               ([{| timestamp := ts1;
                    message := line_of "Start" ++ line_of "continuation" |}],
                Some OverflowError)
           | Some ts2 =>
               ([{| timestamp := ts1;
                    message := line_of "Start" ++ line_of "continuation" |};
                 {| timestamp := ts2; message := line_of "Done" |}], None)
           end
       end.
Proof.
  split; [exact re_timestamp_prefix|]. split.
  - intros pre line t cs rest k Hk Hm Hcs Hw Hend. unfold generate_dicts in *.
    assert (Hwl : whole_records (line :: cs ++ rest))
      by exact (is_timestamp_line_matchDate _ _ Hm).
    destruct (resume_skip k pre (line :: cs ++ rest) Hwl 0
                ltac:(lia) ltac:(lia) Hend) as [Hfst Hsnd].
    rewrite Hfst. clear Hfst Hend. revert Hsnd.
    cbn [generate_dicts_from]. rewrite Hm.
    destruct (Z.leb_spec (0 + 1) 0); [lia|]. cbn [rem_opt].
    destruct (local_to_utc_timestamp d t tz) as [ts|]; [|discriminate].
    match goal with
    | |- context [generate_dicts_from d 0 tz (cs ++ rest) (Some ?ev) ?n] =>
        pose proof (resume_active 0 cs rest Hw ev n ltac:(lia)) as Ha;
        rewrite (continuation_lines_append d tz 0 cs ev n
                   ltac:(lia) Hcs) in Ha;
        destruct (generate_dicts_from d 0 tz (cs ++ rest) (Some ev) n)
          as [out e]
    end.
    cbn [fst snd flush app timestamp message] in *. intros Hsnd.
    destruct (Ha Hsnd) as [Ha1 _]. exists ts. split; [reflexivity|].
    now rewrite Ha1.
  - unfold generate_dicts. cbn [generate_dicts_from].
    change (matchDate (line_of "10:00:00,000 Start")) with
      (@inr exn (bool * option time) (true, Some (mk_time 10 0 0 0))).
    change (matchDate (line_of "continuation")) with
      (@inr exn (bool * option time) (false, None)).
    change (matchDate (line_of "10:00:01,500 Done")) with
      (@inr exn (bool * option time) (true, Some (mk_time 10 0 1 500000))).
    cbn [Z.leb Z.compare Z.add Pos.compare Pos.compare_cont Pos.add
         Pos.succ rem_opt].
    destruct (local_to_utc_timestamp d (mk_time 10 0 0 0) tz);
      [|reflexivity].
    destruct (local_to_utc_timestamp d (mk_time 10 0 1 500000) tz);
      reflexivity.
Qed.

End ResumeFacts.

Lemma generate_dicts_record_body_witness :
  0 <= 0 <= @count_timestamp_lines example_runtime
              [line_of "09:00:00,000 First"]
  /\ @matchDate example_runtime (line_of "10:00:00,000 Start")
     = inr (true, Some (mk_time 10 0 0 0))
  /\ Forall (fun c => @re_timestamp example_runtime c = None) [line_of "continuation"]
  /\ @whole_records example_runtime [line_of "10:00:01,500 Done"]
  /\ snd (generate_dicts
            ([line_of "09:00:00,000 First"]
             ++ line_of "10:00:00,000 Start"
                :: [line_of "continuation"] ++ [line_of "10:00:01,500 Done"])
            example_date 0 example_tz) = None
  /\ exists ts : Z,
       local_to_utc_timestamp example_date (mk_time 10 0 0 0) example_tz
       = Some ts
       /\ fst (generate_dicts
                 ([line_of "09:00:00,000 First"]
                  ++ line_of "10:00:00,000 Start"
                     :: [line_of "continuation"]
                        ++ [line_of "10:00:01,500 Done"])
                 example_date 0 example_tz)
          = fst (generate_dicts [line_of "09:00:00,000 First"]
                   example_date 0 example_tz)
            ++ {| timestamp := ts;
                  message := skipn SKIP_CHARS (line_of "10:00:00,000 Start")
                             ++ concat [line_of "continuation"] |}
               :: fst (generate_dicts [line_of "10:00:01,500 Done"]
                         example_date 0 example_tz).
Proof.
  assert (Hk : 0 <= 0 <= @count_timestamp_lines example_runtime
                           [line_of "09:00:00,000 First"])
    by (split; vm_compute; discriminate).
  assert (Hcs : Forall (fun c => @re_timestamp example_runtime c = None)
                  [line_of "continuation"])
    by (constructor; [reflexivity|constructor]).
  split; [exact Hk|]. split; [reflexivity|]. split; [exact Hcs|].
  split; [reflexivity|]. split; [reflexivity|].
  exact (proj1 (proj2 (@generate_dicts_record_body example_runtime
                         example_date example_tz))
           [line_of "09:00:00,000 First"] (line_of "10:00:00,000 Start")
           (mk_time 10 0 0 0) [line_of "continuation"]
           [line_of "10:00:01,500 Done"] 0 Hk eq_refl Hcs eq_refl eq_refl).
Defined.

(** C9 as stated fails on the first day of the calendar.  On 0001-01-01
    in a zone twelve hours east of UTC the local time 10:00 is before the
    first instant a date holds: the conversion of the first line of the
    example raises, and the run yields no record. *)
Lemma generate_dicts_record_body_overflow :
  generate_dicts (rt := calendar_runtime)
    [line_of "10:00:00,000 Start"; line_of "continuation";
     line_of "10:00:01,500 Done"] 1 0 43200
  = ([], Some OverflowError).
Proof. reflexivity. Qed.

(** ** The timestamp of a line *)

Section MatchDateFacts.
Context {rt : Runtime}.

Ltac digit_cases v :=
  let H := fresh "Hv" in
  assert (H : v = 0 \/ v = 1 \/ v = 2 \/ v = 3 \/ v = 4 \/ v = 5 \/ v = 6
              \/ v = 7 \/ v = 8 \/ v = 9) by lia;
  destruct H as [->|[->|[->|[->|[->|[->|[->|[->|[->| ->]]]]]]]]].

Lemma decimal_digit (v : Z) : 0 <= v <= 9 -> decimal (digit v) = Some v.
Proof. intros H. digit_cases v; reflexivity. Qed.

Lemma isdecimal_digit (v : Z) : 0 <= v <= 9 -> isdecimal (digit v) = true.
Proof. intros H. unfold isdecimal. now rewrite decimal_digit. Qed.

Lemma ascii_digit_digit (v : Z) : 0 <= v <= 9 -> ascii_digit (digit v) = true.
Proof. intros H. digit_cases v; reflexivity. Qed.

Lemma isspace_digit (v : Z) : 0 <= v <= 9 -> isspace (digit v) = false.
Proof. intros H. digit_cases v; reflexivity. Qed.

Lemma re_H_digits {A} (a b : Z) (r : str) (K : str -> str -> option A) :
  0 <= a <= 9 -> 0 <= b <= 9 ->
  re_H (digit a :: digit b :: colon :: r)
    (fun g r' => literal colon r' (K g))
  = if 10 * a + b <=? 23 then K [digit a; digit b] r else None.
Proof.
  intros Ha Hb. digit_cases a; digit_cases b; vm_compute;
    try reflexivity;
    match goal with |- context [K ?g r] => destruct (K g r) end; reflexivity.
Qed.

Lemma re_M_digits {A} (a b : Z) (r : str) (K : str -> str -> option A) :
  0 <= a <= 9 -> 0 <= b <= 9 ->
  re_M (digit a :: digit b :: colon :: r)
    (fun g r' => literal colon r' (K g))
  = if 10 * a + b <=? 59 then K [digit a; digit b] r else None.
Proof.
  intros Ha Hb. digit_cases a; digit_cases b; vm_compute;
    try reflexivity;
    match goal with |- context [K ?g r] => destruct (K g r) end; reflexivity.
Qed.

Lemma re_S_digits {A} (a b : Z) (r : str) (K : str -> str -> option A) :
  0 <= a <= 9 -> 0 <= b <= 9 ->
  re_S (digit a :: digit b :: comma :: r)
    (fun g r' => literal comma r' (K g))
  = if 10 * a + b <=? 61 then K [digit a; digit b] r else None.
Proof.
  intros Ha Hb. digit_cases a; digit_cases b; vm_compute;
    try reflexivity;
    match goal with |- context [K ?g r] => destruct (K g r) end; reflexivity.
Qed.

Lemma py_int_two_digits (a b : Z) :
  0 <= a <= 9 -> 0 <= b <= 9 ->
  py_int [digit a; digit b] = Some (10 * a + b).
Proof.
  intros Ha Hb. unfold py_int. cbn [int_digits].
  rewrite !decimal_digit by assumption. f_equal. lia.
Qed.

Lemma strptime_HMSf_digits (h1 h2 m1 m2 s1 s2 f1 f2 f3 : Z) :
  Forall (fun v => 0 <= v <= 9) [h1; h2; m1; m2; s1; s2; f1; f2; f3] ->
  strptime_HMSf (timestamp_text h1 h2 m1 m2 s1 s2 f1 f2 f3)
  = if (10 * h1 + h2 <=? 23) && (10 * m1 + m2 <=? 59)
       && (10 * s1 + s2 <=? 59)
    then Some {| hour := 10 * h1 + h2;
                 minute := 10 * m1 + m2;
                 second := 10 * s1 + s2;
                 microsecond := (100 * f1 + 10 * f2 + f3) * 1000 |}
    else None.
Proof.
  intros H.
  repeat match goal with
         | H : Forall _ (_ :: _) |- _ =>
             let Hx := fresh "Hd" in
             let Hr := fresh "Hr" in
             inversion H as [|? ? Hx Hr]; subst; clear H
         end.
  unfold strptime_HMSf, re_format, timestamp_text.
  rewrite re_H_digits by assumption.
  destruct (Z.leb_spec (10 * h1 + h2) 23); [|reflexivity].
  rewrite re_M_digits by assumption.
  destruct (Z.leb_spec (10 * m1 + m2) 59); [|reflexivity].
  rewrite re_S_digits by assumption.
  destruct (Z.leb_spec (10 * s1 + s2) 61);
    [|destruct (Z.leb_spec (10 * s1 + s2) 59); [lia|reflexivity]].
  unfold re_f. cbn [ascii_digits]. rewrite !ascii_digit_digit by assumption.
  rewrite !py_int_two_digits by assumption.
  unfold py_int. cbn [length Nat.sub repeat app int_digits].
  rewrite !decimal_digit by assumption.
  change (decimal 48%N) with (Some 0).
  destruct (Z.leb_spec (10 * h1 + h2) 23); [|lia].
  destruct (Z.leb_spec (10 * m1 + m2) 59); [|lia].
  destruct (Z.leb_spec (10 * s1 + s2) 59); [|reflexivity].
  match goal with |- context [?x <=? 999999] =>
    destruct (Z.leb_spec x 999999); [|lia] end.
  cbn [andb]. do 2 f_equal. lia.
Qed.

(** X4.  What [matchDate] returns on a line that begins with nine ASCII
    digits in the shape [HH:MM:SS,mmm] and one whitespace character.  With
    an hour up to 23, a minute up to 59 and a second up to 59 it returns
    the time, the three digits of the fraction counting milliseconds;
    otherwise the line still matches the pattern and [strptime] raises
    [ValueError]. *)
Theorem matchDate_ascii (h1 h2 m1 m2 s1 s2 f1 f2 f3 : Z) (sp : char)
    (text : str) :
  Forall (fun v => 0 <= v <= 9) [h1; h2; m1; m2; s1; s2; f1; f2; f3] ->
  isspace sp = true ->
  matchDate (timestamp_text h1 h2 m1 m2 s1 s2 f1 f2 f3 ++ sp :: text)
  = if (10 * h1 + h2 <=? 23) && (10 * m1 + m2 <=? 59)
       && (10 * s1 + s2 <=? 59)
    then inr (true, Some {| hour := 10 * h1 + h2;
                            minute := 10 * m1 + m2;
                            second := 10 * s1 + s2;
                            microsecond :=
                              (100 * f1 + 10 * f2 + f3) * 1000 |})
    else inl ValueError_strptime.
Proof.
  intros H Hsp.
  pose proof (strptime_HMSf_digits h1 h2 m1 m2 s1 s2 f1 f2 f3 H) as Hparse.
  repeat match goal with
         | H : Forall _ (_ :: _) |- _ =>
             let Hx := fresh "Hd" in
             let Hr := fresh "Hr" in
             inversion H as [|? ? Hx Hr]; subst; clear H
         end.
  unfold matchDate.
  assert (Hre : re_timestamp
                  (timestamp_text h1 h2 m1 m2 s1 s2 f1 f2 f3 ++ sp :: text)
                = Some (timestamp_text h1 h2 m1 m2 s1 s2 f1 f2 f3 ++ [sp])).
  { unfold re_timestamp, timestamp_text. cbn [app].
    rewrite !isdecimal_digit by assumption. rewrite Hsp. reflexivity. }
  rewrite Hre.
  assert (Hstrip : strip (timestamp_text h1 h2 m1 m2 s1 s2 f1 f2 f3 ++ [sp])
                   = timestamp_text h1 h2 m1 m2 s1 s2 f1 f2 f3).
  { unfold strip, timestamp_text. cbn [app lstrip].
    rewrite (isspace_digit h1) by assumption. cbn [rev app lstrip].
    rewrite Hsp. rewrite (isspace_digit f3) by assumption. reflexivity. }
  rewrite Hstrip, Hparse.
  destruct ((10 * h1 + h2 <=? 23) && (10 * m1 + m2 <=? 59)
            && (10 * s1 + s2 <=? 59)); reflexivity.
Qed.

End MatchDateFacts.

(** ** Batch planning *)

Section PlannerMore.

Lemma skipn_cons_nth_error {A} (l : list A) (idx : nat) (x : A)
    (rest : list A) :
  x :: rest = skipn idx l ->
  nth_error l idx = Some x /\ rest = skipn (S idx) l
  /\ (idx + S (length rest) = length l)%nat.
Proof.
  intros H. repeat split.
  - rewrite <- (firstn_skipn idx l) at 1.
    assert (Hlen : (idx < length l)%nat).
    { apply (f_equal (@length A)) in H. rewrite length_skipn in H.
      cbn [length] in H. lia. }
    rewrite nth_error_app2 by (rewrite length_firstn; lia).
    rewrite length_firstn, Nat.min_l, Nat.sub_diag, <- H by lia.
    reflexivity.
  - apply (f_equal (skipn 1)) in H. rewrite skipn_skipn in H. exact H.
  - apply (f_equal (@length A)) in H. rewrite length_skipn in H.
    cbn [length] in H. lia.
Qed.

Lemma slice_succ {A} (l : list A) (a i : nat) (x : A) :
  (a <= i)%nat -> nth_error l i = Some x ->
  slice l a (S i) = slice l a i ++ [x].
Proof.
  intros Ha Hx. unfold slice.
  replace (S i - a)%nat with (S (i - a)) by lia.
  apply firstn_succ_snoc. rewrite nth_error_skipn.
  now replace (a + (i - a))%nat with i by lia.
Qed.

Lemma length_slice {A} (l : list A) (a b : nat) :
  (b <= length l)%nat -> length (slice l a b) = (b - a)%nat.
Proof.
  intros Hb. unfold slice. rewrite length_firstn, length_skipn. lia.
Qed.

Lemma batch_chars_in (ev : LogEvent) (b : list LogEvent) :
  In ev b -> event_size ev <= batch_chars b.
Proof.
  induction b as [|x b IH]; intros Hin; [contradiction|].
  rewrite batch_chars_cons. pose proof (batch_chars_nonneg b).
  pose proof (len_nonneg (message x)).
  destruct Hin as [->|Hin]; unfold event_size, EVENT_OVERHEAD in *;
    [lia|specialize (IH Hin); lia].
Qed.

Lemma plan_loop_closed_batches (events : list LogEvent) :
  Forall (fun ev => event_size ev <= MAX_BYTES) events ->
  forall (rest : list LogEvent) (idx : nat) (st : planner),
    rest = skipn idx events ->
    rest <> [] ->
    planner_inv events idx st ->
    exists closed last,
      batches (plan_loop events rest idx st) = closed ++ [last]
      /\ Forall (fun b => accepted b = true /\ b <> []) closed
      /\ last <> [].
Proof.
  intros Hsmall.
  induction rest as [|val rest IH]; intros idx st Hrest Hne Hinv;
    [contradiction|].
  destruct (skipn_cons_nth_error _ _ _ _ Hrest) as [Hval [Hrest' Hlen]].
  destruct Hinv as [Hpos [Hstart [Hnum [Hcum [Hn [Hc Hclosed]]]]]].
  assert (Hsize : event_size val <= MAX_BYTES).
  { rewrite Forall_forall in Hsmall. apply Hsmall.
    eapply nth_error_In. exact Hval. }
  cbn [plan_loop]. unfold plan_event. fold (event_size val).
  destruct (Nat.eqb_spec (idx + 1) (length events)) as [Hlast|Hmore].
  - assert (rest = []) as ->
        by (destruct rest; [reflexivity|cbn [length] in Hlen; lia]).
    cbn [plan_loop batches].
    exists (batches st), (skipn (start_pos st) events).
    repeat split; [exact Hclosed|].
    intros Hnil. apply (f_equal (@length LogEvent)) in Hnil.
    rewrite length_skipn in Hnil. cbn [length] in Hnil. lia.
  - assert (Hne' : rest <> [])
      by (destruct rest; [cbn [length] in Hlen; lia|discriminate]).
    apply (IH (S idx)); [exact Hrest'|exact Hne'|].
    destruct ((num_events st + 1 >? MAX_EVENTS)
              || (cumulative_size st + event_size val >? MAX_BYTES))
      eqn:Eclose; unfold planner_inv;
      cbn [batches start_pos num_events cumulative_size].
    + assert (Hlt : (start_pos st < idx)%nat).
      { destruct Hstart as [Hi0|Hlt]; [exfalso|exact Hlt]. subst idx.
        assert (Hsp : start_pos st = 0%nat) by lia.
        rewrite Hsp in Hnum, Hcum. cbn in Hnum, Hcum.
        apply orb_true_iff in Eclose.
        destruct Eclose as [E|E]; apply Z.gtb_lt in E;
          unfold MAX_EVENTS in *; lia. }
      repeat split.
      * lia.
      * right. lia.
      * lia.
      * rewrite (slice_succ events _ _ _ (Nat.le_refl idx) Hval).
        unfold slice at 1. rewrite Nat.sub_diag. cbn [firstn app].
        rewrite batch_chars_cons. unfold event_size, batch_chars.
        cbn [fold_right]. lia.
      * unfold MAX_EVENTS. lia.
      * exact Hsize.
      * apply Forall_app. split; [exact Hclosed|].
        constructor; [|constructor]. split.
        -- unfold accepted, len. rewrite length_slice by lia.
           rewrite <- Hcum, <- Hnum.
           destruct (Z.leb_spec (num_events st) MAX_EVENTS); [|lia].
           destruct (Z.leb_spec (cumulative_size st) MAX_BYTES); [|lia].
           reflexivity.
        -- intros Hnil. apply (f_equal (@length LogEvent)) in Hnil.
           rewrite length_slice in Hnil by lia. cbn [length] in Hnil. lia.
    + apply orb_false_iff in Eclose. destruct Eclose as [E1 E2].
      destruct (Z.gtb_spec (num_events st + 1) MAX_EVENTS) as [|E1'];
        [discriminate|].
      destruct (Z.gtb_spec (cumulative_size st + event_size val) MAX_BYTES)
        as [|E2']; [discriminate|].
      repeat split.
      * lia.
      * right. lia.
      * lia.
      * rewrite (slice_succ events _ _ _ Hpos Hval).
        rewrite batch_chars_snoc. fold (event_size val). lia.
      * lia.
      * lia.
      * exact Hclosed.
Qed.

(** X10.  When no event alone is larger than [MAX_BYTES], every batch the
    loop of [create_batches] closes before the last one holds at least one
    event, at most [MAX_EVENTS] events and at most [MAX_BYTES] (messages
    measured by [len]); only the last batch can fail [test_batches]. *)
Theorem planned_batches_closed_within_limits (events : list LogEvent) :
  Forall (fun ev => event_size ev <= MAX_BYTES) events ->
  Forall (fun b => b <> [] /\ len b <= MAX_EVENTS
                   /\ batch_chars b <= MAX_BYTES)
    (removelast (planned_batches events))
  /\ (create_batches events = inr (planned_batches events)
      <-> accepted (last (planned_batches events) []) = true).
Proof.
  intros Hsmall. unfold planned_batches.
  destruct events as [|ev events'] eqn:E.
  - cbn. split; [constructor|]. split; reflexivity.
  - rewrite <- E in *.
    destruct (plan_loop_closed_batches events Hsmall events 0%nat
                {| batches := []; start_pos := 0; num_events := 0;
                   cumulative_size := 0 |})
      as [closed [lst [Hb [Hclosed Hlast]]]].
    + reflexivity.
    + rewrite E. discriminate.
    + unfold planner_inv. cbn [batches start_pos num_events cumulative_size].
      split; [lia|]. split; [now left|]. split; [reflexivity|].
      split; [reflexivity|]. split; [unfold MAX_EVENTS; lia|].
      split; [unfold MAX_BYTES; lia|constructor].
    + assert (Hgood : Forall (fun b => accepted b = true) closed)
        by (eapply Forall_impl; [|exact Hclosed]; now intros b [H _]).
      split.
      * rewrite Hb, removelast_last.
        eapply Forall_impl; [|exact Hclosed]. intros b [Ha Hn].
        unfold accepted in Ha. apply andb_true_iff in Ha.
        destruct Ha. repeat split; [exact Hn|lia|lia].
      * rewrite create_batches_spec. unfold planned_batches.
        rewrite Hb, last_last, forallb_app. cbn [forallb].
        rewrite andb_true_r.
        assert (Hf : forallb accepted closed = true)
          by (apply forallb_forall; rewrite Forall_forall in Hgood;
              exact Hgood).
        rewrite Hf. cbn [andb].
        destruct (accepted lst); split; try reflexivity; discriminate.
Qed.

(** X9.  An event whose size alone is above [MAX_BYTES] makes
    [create_batches] raise [AssertionError], wherever it stands in the
    list: it is never put in a batch of its own and sent. *)
Theorem create_batches_oversized_event (events : list LogEvent)
    (ev : LogEvent) :
  In ev events ->
  MAX_BYTES < event_size ev ->
  create_batches events = inl AssertionError.
Proof.
  intros Hin Hbig. rewrite create_batches_spec.
  destruct (forallb accepted (planned_batches events)) eqn:E;
    [|reflexivity].
  rewrite <- (planned_batches_partition events) in Hin.
  apply in_concat in Hin. destruct Hin as [b [Hb Hev]].
  rewrite forallb_forall in E. specialize (E b Hb).
  unfold accepted in E. apply andb_true_iff in E. destruct E as [_ E].
  pose proof (batch_chars_in _ _ Hev). lia.
Qed.

(** X8.  The last event is not weighed.  When the events before the last
    fit one batch, [create_batches] plans the single batch of all events;
    if that batch is above a limit because of its last event the call
    raises [AssertionError], and otherwise it returns that batch. *)
Theorem create_batches_last_event (events : list LogEvent) :
  events <> [] ->
  len events - 1 <= MAX_EVENTS ->
  batch_chars (removelast events) <= MAX_BYTES ->
  planned_batches events = [events]
  /\ create_batches events
     = if (len events <=? MAX_EVENTS) && (batch_chars events <=? MAX_BYTES)
       then inr [events]
       else inl AssertionError.
Proof.
  intros Hne Hcount Hbytes.
  pose proof (planned_batches_single_batch events Hne Hcount Hbytes) as Hp.
  split; [exact Hp|].
  rewrite create_batches_spec, Hp. cbn [forallb]. unfold accepted.
  now rewrite andb_true_r.
Qed.

(** X7.  [create_batches] either returns the batches it planned or raises
    [AssertionError]; it returns them exactly when each holds at most
    [MAX_EVENTS] events and at most [MAX_BYTES], every message measured by
    [len] plus [EVENT_OVERHEAD]. *)
Theorem create_batches_returns_iff (events : list LogEvent) :
  (create_batches events = inr (planned_batches events)
   \/ create_batches events = inl AssertionError)
  /\ (create_batches events = inr (planned_batches events)
      <-> Forall (fun b => len b <= MAX_EVENTS /\ batch_chars b <= MAX_BYTES)
            (planned_batches events)).
Proof.
  rewrite create_batches_spec.
  destruct (forallb accepted (planned_batches events)) eqn:E.
  - split; [now left|]. split; [intros _|reflexivity].
    rewrite forallb_forall in E. apply Forall_forall. intros b Hb.
    specialize (E b Hb). unfold accepted in E.
    apply andb_true_iff in E. destruct E. lia.
  - split; [now right|]. split; [discriminate|]. intros H. exfalso.
    assert (Ht : forallb accepted (planned_batches events) = true).
    { apply forallb_forall. rewrite Forall_forall in H. intros b Hb.
      destruct (H b Hb). unfold accepted. apply andb_true_iff. split; lia. }
    congruence.
Qed.

End PlannerMore.

Section PlannerGreedy.

Lemma greedy_snoc2 (bs : list (list LogEvent)) (y z : list LogEvent) :
  greedy (bs ++ [y]) ->
  match z with e :: _ => does_not_fit y e | [] => False end ->
  greedy (bs ++ [y; z]).
Proof.
  induction bs as [|b bs IH]; intros Hg Hz.
  - cbn. split; [exact Hz|exact I].
  - destruct bs as [|b' bs].
    + cbn in *. destruct Hg as [Hy _]. repeat split; assumption.
    + change ((b :: b' :: bs) ++ [y; z])
        with (b :: (b' :: bs) ++ [y; z]).
      change ((b :: b' :: bs) ++ [y]) with (b :: (b' :: bs) ++ [y]) in Hg.
      cbn [greedy app] in *. destruct Hg as [Hb Hg].
      split; [exact Hb|]. apply IH; assumption.
Qed.

Lemma greedy_same_head (bs : list (list LogEvent)) (x y : list LogEvent) :
  greedy (bs ++ [x]) ->
  hd_error x = hd_error y \/ bs = [] ->
  greedy (bs ++ [y]).
Proof.
  induction bs as [|b bs IH]; intros Hg Hh.
  - exact I.
  - destruct Hh as [Hh|Hh]; [|discriminate].
    destruct bs as [|b' bs].
    + cbn in *. destruct Hg as [Hx _]. split; [|exact I].
      destruct x as [|ex x]; [contradiction|].
      destruct y as [|ey y]; [discriminate|].
      cbn in Hh. injection Hh as <-. exact Hx.
    + change ((b :: b' :: bs) ++ [y]) with (b :: (b' :: bs) ++ [y]).
      change ((b :: b' :: bs) ++ [x]) with (b :: (b' :: bs) ++ [x]) in Hg.
      cbn [greedy app] in *. destruct Hg as [Hb Hg].
      split; [exact Hb|]. apply IH; [exact Hg|now left].
Qed.

Lemma plan_loop_greedy (events : list LogEvent) :
  forall (rest : list LogEvent) (idx : nat) (st : planner),
    rest = skipn idx events ->
    rest <> [] ->
    (start_pos st <= idx)%nat ->
    (start_pos st < idx \/ batches st = [])%nat ->
    num_events st = Z.of_nat (idx - start_pos st) ->
    cumulative_size st = batch_chars (slice events (start_pos st) idx) ->
    greedy (batches st ++ [skipn (start_pos st) events]) ->
    greedy (batches (plan_loop events rest idx st)).
Proof.
  induction rest as [|val rest IH];
    intros idx st Hrest Hne Hpos Hstart Hnum Hcum Hg; [contradiction|].
  destruct (skipn_cons_nth_error _ _ _ _ Hrest) as [Hval [Hrest' Hlen]].
  cbn [plan_loop]. unfold plan_event. fold (event_size val).
  destruct (Nat.eqb_spec (idx + 1) (length events)) as [Hlast|Hmore].
  - assert (rest = []) as ->
        by (destruct rest; [reflexivity|cbn [length] in Hlen; lia]).
    cbn [plan_loop batches]. exact Hg.
  - assert (Hne' : rest <> [])
      by (destruct rest; [cbn [length] in Hlen; lia|discriminate]).
    apply (IH (S idx)); [exact Hrest'|exact Hne'| | | | |];
      destruct ((num_events st + 1 >? MAX_EVENTS)
                || (cumulative_size st + event_size val >? MAX_BYTES))
        eqn:Eclose;
      cbn [batches start_pos num_events cumulative_size]; try lia.
    + rewrite (slice_succ events _ _ _ (Nat.le_refl idx) Hval).
      unfold slice at 1. rewrite Nat.sub_diag. cbn [firstn app].
      rewrite batch_chars_cons. unfold event_size, batch_chars.
      cbn [fold_right]. lia.
    + rewrite (slice_succ events _ _ _ Hpos Hval).
      rewrite batch_chars_snoc. fold (event_size val). lia.
    + rewrite <- app_assoc. cbn [app]. apply greedy_snoc2.
      * apply (greedy_same_head _ (skipn (start_pos st) events)); [exact Hg|].
        destruct Hstart as [Hlt|Hnil]; [left|now right].
        unfold slice.
        assert (Hl : (start_pos st < length events)%nat) by lia.
        destruct (skipn (start_pos st) events) as [|x l] eqn:Es.
        { apply (f_equal (@length LogEvent)) in Es.
          rewrite length_skipn in Es. cbn [length] in Es. lia. }
        replace (idx - start_pos st)%nat with (S (idx - start_pos st - 1))
          by lia.
        reflexivity.
      * rewrite <- Hrest. unfold does_not_fit. unfold len.
        rewrite length_slice by lia. rewrite <- Hcum, <- Hnum.
        apply orb_true_iff in Eclose.
        destruct Eclose as [E|E]; apply Z.gtb_lt in E; [left|right]; lia.
    + exact Hg.
Qed.

(** X11.  The plan is greedy.  Whenever the loop of [create_batches] closes
    a batch and opens the next one, the first event of the next batch did
    not fit the closed one: with it the closed batch would hold more than
    [MAX_EVENTS] events or more than [MAX_BYTES]; and no batch after the
    first is empty. *)
Theorem planned_batches_greedy (events : list LogEvent)
    (before after : list (list LogEvent)) (b next : list LogEvent) :
  planned_batches events = before ++ b :: next :: after ->
  exists (e : LogEvent) (next' : list LogEvent),
    next = e :: next'
    /\ (MAX_EVENTS < len b + 1 \/ MAX_BYTES < batch_chars b + event_size e).
Proof.
  assert (Hg : greedy (planned_batches events)).
  { unfold planned_batches. destruct events as [|ev events'] eqn:E.
    - exact I.
    - rewrite <- E. apply plan_loop_greedy.
      + reflexivity.
      + rewrite E. discriminate.
      + apply Nat.le_refl.
      + now right.
      + reflexivity.
      + reflexivity.
      + exact I. }
  intros Hp. rewrite Hp in Hg. clear Hp.
  induction before as [|x before IH].
  - cbn in Hg. destruct Hg as [Hn _].
    destruct next as [|e next']; [contradiction|].
    exists e, next'. split; [reflexivity|exact Hn].
  - apply IH. destruct before; cbn [app greedy] in Hg; apply Hg.
Qed.

End PlannerGreedy.

(** ** Sorting and submission *)

Section SortFacts.

Lemma insert_event_perm (e : LogEvent) (l : list LogEvent) :
  Permutation (e :: l) (insert_event e l).
Proof.
  induction l as [|x l IH]; cbn [insert_event]; [reflexivity|].
  destruct (timestamp e <? timestamp x); [reflexivity|].
  rewrite perm_swap. now apply perm_skip.
Qed.

Lemma insert_event_sorted (e : LogEvent) (l : list LogEvent) :
  StronglySorted not_after l -> StronglySorted not_after (insert_event e l).
Proof.
  induction 1 as [|x l Hl IH Hx]; cbn [insert_event].
  - repeat constructor.
  - destruct (Z.ltb_spec (timestamp e) (timestamp x)) as [Hlt|Hge].
    + constructor; [now constructor|].
      constructor; [unfold not_after; lia|].
      eapply Forall_impl; [|exact Hx]. unfold not_after. intros; lia.
    + constructor; [exact IH|].
      eapply Permutation_Forall; [apply insert_event_perm|].
      constructor; [exact Hge|exact Hx].
Qed.

Lemma filter_none {A} (f : A -> bool) (l : list A) :
  (forall y, In y l -> f y = false) -> filter f l = [].
Proof.
  induction l as [|x l IH]; intros H; [reflexivity|]. cbn [filter].
  rewrite (H x (or_introl eq_refl)). apply IH. intros y Hy. apply H.
  now right.
Qed.

Lemma insert_event_at_time (t : Z) (e : LogEvent) (l : list LogEvent) :
  StronglySorted not_after l ->
  at_time t (insert_event e l) = at_time t l ++ at_time t [e].
Proof.
  unfold at_time.
  induction 1 as [|x l Hl IH Hx]; cbn [insert_event]; [reflexivity|].
  destruct (Z.ltb_spec (timestamp e) (timestamp x)) as [Hlt|Hge].
  - cbn [filter]. destruct (Z.eqb_spec (timestamp e) t) as [Ht|Ht];
      [|now rewrite app_nil_r].
    assert (Hnone : filter (fun e0 => timestamp e0 =? t) (x :: l) = []).
    { apply filter_none. intros y [<-|Hy].
      - apply Z.eqb_neq. lia.
      - rewrite Forall_forall in Hx. specialize (Hx y Hy).
        unfold not_after in Hx. apply Z.eqb_neq. lia. }
    cbn [filter] in Hnone. rewrite Hnone. reflexivity.
  - cbn [filter app] in *. rewrite IH.
    destruct (timestamp x =? t); reflexivity.
Qed.

Lemma sort_by_timestamp_from (l acc : list LogEvent) :
  StronglySorted not_after acc ->
  let sorted := fold_left (fun sorted e => insert_event e sorted) l acc in
  Permutation (acc ++ l) sorted
  /\ StronglySorted not_after sorted
  /\ forall t, at_time t sorted = at_time t acc ++ at_time t l.
Proof.
  revert acc. induction l as [|e l IH]; intros acc Hacc; cbn [fold_left].
  - cbn zeta. rewrite app_nil_r. split; [reflexivity|]. split; [exact Hacc|].
    intros t. unfold at_time. cbn [filter]. now rewrite app_nil_r.
  - destruct (IH (insert_event e acc) (insert_event_sorted e acc Hacc))
      as [Hp [Hs Ht]].
    cbn zeta in *. split; [|split; [exact Hs|]].
    + rewrite <- Hp. rewrite <- insert_event_perm.
      rewrite <- Permutation_middle. reflexivity.
    + intros t. rewrite Ht, (insert_event_at_time t e acc Hacc).
      rewrite <- app_assoc. f_equal. unfold at_time. cbn [filter].
      destruct (timestamp e =? t); reflexivity.
Qed.

End SortFacts.

Section SubmissionFacts.
Variable S : Type.
Variable client : Client S.

Lemma put_events_app (a b : list Call) :
  put_events (a ++ b) = put_events a ++ put_events b.
Proof.
  induction a as [|c a IH]; [reflexivity|].
  destruct c; cbn [app put_events]; now rewrite IH.
Qed.

Lemma rejected_of_calls_app (a b : list Call) :
  rejected_of_calls (a ++ b) = rejected_of_calls a ++ rejected_of_calls b.
Proof.
  induction a as [|c a IH]; [reflexivity|].
  destruct c as [| |? ? ? ? [e|response]]; cbn [app rejected_of_calls];
    try exact IH.
  destruct (rejectedLogEventsInfo response); cbn [app]; now rewrite IH.
Qed.

Lemma no_put_events (calls : list Call) :
  (forall c, In c calls ->
             match c with Put _ _ _ _ _ => False | _ => True end) ->
  put_events calls = [] /\ rejected_of_calls calls = [].
Proof.
  induction calls as [|c calls IH]; intros H; [now split|].
  pose proof (H c (or_introl eq_refl)) as Hc.
  destruct c; [| |contradiction]; cbn [put_events rejected_of_calls];
    apply IH; intros c' Hc'; apply H; now right.
Qed.

(** The calls of the loop of [post_log_events] and, when it returns, what
    it returns. *)
Lemma post_log_events_from_trace (g n : str) (bs : list (list LogEvent)) :
  forall (s : S) (log : list Call) (tok : option str)
         (rejected : list RejectedInfo),
  exists calls : list Call,
    post_log_events_from (recording client) (s, log) g n tok bs rejected
    = ((fst (post_log_events_from client s g n tok bs rejected),
        log ++ calls),
       snd (post_log_events_from client s g n tok bs rejected))
    /\ (forall c, In c calls ->
                  match c with Put _ _ _ _ _ => True | _ => False end)
    /\ (forall rejected',
           snd (post_log_events_from client s g n tok bs rejected)
           = inr rejected' ->
           put_events calls = bs
           /\ rejected' = rejected ++ rejected_of_calls calls).
Proof.
  induction bs as [|b bs IH]; intros s log tok rejected.
  - exists []. cbn. rewrite !app_nil_r. repeat split; [contradiction|].
    congruence.
  - cbn [post_log_events_from].
    assert (Hput : forall (X : Type) (c : Client X) (x : X),
               match tok with
               | None => put_log_events c x g n b None
               | Some t => put_log_events c x g n b (Some t)
               end = put_log_events c x g n b tok)
      by (intros; destruct tok; reflexivity).
    rewrite !Hput. cbn [recording put_log_events fst snd].
    destruct (put_log_events client s g n b tok) as [s1 [e|response]] eqn:E.
    + exists [Put g n b tok (inl e)]. cbn [fst snd]. repeat split.
      * intros c [<-|[]]. exact I.
      * discriminate.
      * discriminate.
    + match goal with
      | |- context [post_log_events_from client s1 g n ?t bs ?r] =>
          destruct (IH s1 (log ++ [Put g n b tok (inr response)]) t r)
            as [calls [Hrun [Hputs Hret]]]
      end.
      exists (Put g n b tok (inr response) :: calls).
      rewrite Hrun, <- app_assoc. cbn [app]. repeat split.
      * intros c [<-|Hc]; [exact I|now apply Hputs].
      * destruct (Hret _ H) as [Hev _]. cbn [put_events]. now rewrite Hev.
      * destruct (Hret _ H) as [_ Hrej]. rewrite Hrej.
        cbn [rejected_of_calls].
        destruct (rejectedLogEventsInfo response);
          [now rewrite <- app_assoc|reflexivity].
Qed.

(** X12.  When [post_log_events] returns, every batch was submitted, in
    the order of the list and in as many calls as there are batches, and
    the list it returns holds the [rejectedLogEventsInfo] of the responses
    that have one, in the order of the submissions: a rejection is noted
    and nothing is sent again. *)
Theorem post_log_events_rejected (s : S) (g n : str) (tok : option str)
    (bs : list (list LogEvent)) (s' : S) (calls : list Call)
    (rejected : list RejectedInfo) :
  post_log_events (recording client) (s, []) g n tok bs
  = ((s', calls), inr rejected) ->
  put_events calls = bs
  /\ length calls = length bs
  /\ rejected = rejected_of_calls calls.
Proof.
  unfold post_log_events. intros Hrun.
  destruct (post_log_events_from_trace g n bs s [] tok [])
    as [calls' [Hrun' [Hputs Hret]]].
  rewrite Hrun in Hrun'. injection Hrun' as _ -> Hr. cbn [app] in *.
  destruct (Hret rejected (eq_sym Hr)) as [Hev Hrej].
  repeat split; [exact Hev| |exact Hrej].
  rewrite <- Hev. clear - Hputs.
  induction calls' as [|c calls' IH]; [reflexivity|].
  pose proof (Hputs c (or_introl eq_refl)) as Hc.
  destruct c; try contradiction. cbn [put_events length]. f_equal.
  apply IH. intros c' Hc'. apply Hputs. now right.
Qed.

End SubmissionFacts.

(** ** Processing one file *)

Section ProcessLogFileFacts.
Context {rt : Runtime}.
Variable S : Type.
Variable client : Client S.

(** What a call of [process_log_file] that returns has done. *)
Lemma process_log_file_returns (s : S) (clock : Clock) (f : list str)
    (skip : Z) (tz : tzinfo) (d : date)
    (base path stream_base group : str)
    (s' : S) (calls : list Call) (report : ResultOfLogProcessing) :
  process_log_file (recording client) (s, []) clock f skip tz d base path
    stream_base group
  = ((s', calls), inr report) ->
  exists (evs : list LogEvent) (bs : list (list LogEvent)),
    list_of_generator (generate_dicts f d skip tz) = inr evs
    /\ create_batches (sort_by_timestamp evs) = inr bs
    /\ put_events calls = bs
    /\ report
       = {| log_stream_name := stream_base ++ strftime_date d;
            log_group_name := group;
            server_log_base_file_path := base;
            processed_server_log_file_path := path;
            date_used := str_date d;
            num_events_processed := len (sort_by_timestamp evs);
            num_events_skipped := skip;
            rejected_events := rejected_of_calls calls;
            tzinfo_name := str_tzinfo tz;
            num_batches := len bs;
            start_time := clock_start clock;
            end_time := clock_end clock;
            elapsed_time := clock_elapsed clock |}.
Proof.
  unfold process_log_file.
  destruct (list_of_generator (generate_dicts f d skip tz)) as [e|evs]
    eqn:Eg; [discriminate|].
  destruct (create_batches (sort_by_timestamp evs)) as [e|bs] eqn:Eb;
    [discriminate|].
  set (stream := stream_base ++ strftime_date d).
  destruct (init_aws_stream_recording S client s [] group stream)
    as [ic [Hinit Hic]].
  rewrite Hinit. cbn [app].
  destruct (snd (init_aws_stream client s group stream)) as [e|tok];
    [discriminate|].
  unfold post_log_events.
  destruct (post_log_events_from_trace S client group stream bs
              (fst (init_aws_stream client s group stream)) ic tok [])
    as [pc [Hrun [Hpc Hret]]].
  rewrite Hrun.
  destruct (snd (post_log_events_from client _ group stream tok bs []))
    as [e|rejected]; [discriminate|].
  destruct (Hret rejected eq_refl) as [Hev Hrej].
  destruct (no_put_events ic Hic) as [Hic1 Hic2].
  intros H. injection H as _ <- <-.
  exists evs, bs. split; [reflexivity|]. split; [exact Eb|]. split.
  - now rewrite put_events_app, Hic1, Hev.
  - rewrite rejected_of_calls_app, Hic2, Hrej. reflexivity.
Qed.

Lemma sort_by_timestamp_spec (l : list LogEvent) :
  Permutation l (sort_by_timestamp l)
  /\ StronglySorted not_after (sort_by_timestamp l)
  /\ forall t, at_time t (sort_by_timestamp l) = at_time t l.
Proof.
  exact (sort_by_timestamp_from l [] (SSorted_nil not_after)).
Qed.

(** X13.  When [process_log_file] returns, the events of its submissions,
    taken in order, are the records that [generate_dicts] yielded, each
    once, in chronological order, records with the same timestamp in the
    order of the file. *)
Theorem process_log_file_ships_sorted (s : S) (clock : Clock)
    (f : list str) (skip : Z) (tz : tzinfo) (d : date)
    (base path stream_base group : str)
    (s' : S) (calls : list Call) (report : ResultOfLogProcessing) :
  process_log_file (recording client) (s, []) clock f skip tz d base path
    stream_base group
  = ((s', calls), inr report) ->
  snd (generate_dicts f d skip tz) = None
  /\ Permutation (fst (generate_dicts f d skip tz))
       (concat (put_events calls))
  /\ StronglySorted not_after (concat (put_events calls))
  /\ (forall t, at_time t (concat (put_events calls))
                = at_time t (fst (generate_dicts f d skip tz))).
Proof.
  intros Hrun.
  destruct (process_log_file_returns _ _ _ _ _ _ _ _ _ _ _ _ _ Hrun)
    as [evs [bs [Hg [Hb [Hev _]]]]].
  unfold list_of_generator in Hg.
  destruct (generate_dicts f d skip tz) as [out [e|]]; [discriminate|].
  injection Hg as ->. cbn [fst snd].
  assert (Hcat : concat (put_events calls) = sort_by_timestamp evs).
  { rewrite Hev. rewrite create_batches_spec in Hb.
    destruct (forallb accepted _); [|discriminate].
    injection Hb as <-. apply planned_batches_partition. }
  rewrite Hcat. split; [reflexivity|]. apply sort_by_timestamp_spec.
Qed.

(** X14.  The report of a call of [process_log_file] that returns: it
    counts the records yielded and the submissions made, keeps the skip
    count and lists the rejections in order.  With a skip count [k >= 0]
    the two counters add up to the number of timestamp lines of the file,
    or to [k] when the file has fewer: the skip count of the next run. *)
Theorem process_log_file_report (s : S) (clock : Clock)
    (f : list str) (skip : Z) (tz : tzinfo) (d : date)
    (base path stream_base group : str)
    (s' : S) (calls : list Call) (report : ResultOfLogProcessing) :
  process_log_file (recording client) (s, []) clock f skip tz d base path
    stream_base group
  = ((s', calls), inr report) ->
  num_events_processed report = len (fst (generate_dicts f d skip tz))
  /\ num_events_skipped report = skip
  /\ num_batches report = len (put_events calls)
  /\ rejected_events report = rejected_of_calls calls
  /\ log_stream_name report = stream_base ++ strftime_date d
  /\ (0 <= skip ->
      num_events_processed report + num_events_skipped report
      = Z.max skip (count_timestamp_lines f)).
Proof.
  intros Hrun.
  destruct (process_log_file_returns _ _ _ _ _ _ _ _ _ _ _ _ _ Hrun)
    as [evs [bs [Hg [Hb [Hev ->]]]]].
  cbn [num_events_processed num_events_skipped num_batches rejected_events
       log_stream_name].
  unfold list_of_generator in Hg.
  destruct (generate_dicts f d skip tz) as [out [e|]] eqn:Eg;
    [discriminate|].
  injection Hg as ->. cbn [fst].
  assert (Hlen : len (sort_by_timestamp evs) = len evs).
  { unfold len. f_equal. symmetry. apply Permutation_length.
    apply sort_by_timestamp_spec. }
  rewrite Hlen, Hev. repeat split.
  intros Hk. unfold generate_dicts in Eg.
  destruct (skip_phase_text d tz skip f 0 Hk) as [_ Hcount].
  - now rewrite Eg.
  - rewrite Eg in Hcount. cbn [fst] in Hcount. rewrite Hcount.
    pose proof (count_timestamp_lines_nonneg f). lia.
Qed.

(** X15.  [process_log_file] uses the client only after the file was read
    to its end and [test_batches] accepted the batches.  If the generator
    or [create_batches] raises, it raises the same exception and the
    service has seen no call; otherwise its first call describes the
    stream of the date. *)
Theorem process_log_file_sink_guard (s : S) (clock : Clock)
    (f : list str) (skip : Z) (tz : tzinfo) (d : date)
    (base path stream_base group : str) :
  let run :=
    process_log_file (recording client) (s, []) clock f skip tz d base path
      stream_base group in
  match list_of_generator (generate_dicts f d skip tz) with
  | inl e => run = ((s, []), inl e)
  | inr evs =>
      match create_batches (sort_by_timestamp evs) with
      | inl e => run = ((s, []), inl e)
      | inr _ =>
          exists result rest,
            snd (fst run)
            = Describe group (stream_base ++ strftime_date d) result :: rest
      end
  end.
Proof.
  cbv zeta. unfold process_log_file.
  destruct (list_of_generator (generate_dicts f d skip tz)) as [e|evs];
    [reflexivity|].
  destruct (create_batches (sort_by_timestamp evs)) as [e|bs];
    [reflexivity|].
  set (stream := stream_base ++ strftime_date d).
  rewrite init_aws_stream_calls. cbn [app].
  assert (Hpost : forall s1 log tok,
             exists rest,
               snd (fst (post_log_events (recording client) (s1, log) group
                           stream tok bs))
               = log ++ rest).
  { intros s1 log tok. unfold post_log_events.
    destruct (post_log_events_from_trace S client group stream bs s1 log tok [])
      as [pc [Hrun _]].
    rewrite Hrun. now exists pc. }
  destruct (describe_log_streams client s group stream)
    as [s1 [e|streams]].
  - now exists (inl e), [].
  - destruct (find _ streams) as [st|].
    + destruct (Hpost s1 [Describe group stream (inr streams)]
                  (uploadSequenceToken st)) as [rest Hrest].
      destruct (post_log_events _ _ _ _ _ _) as [[s2 log2] [e|rej]];
        cbn [fst snd] in *; subst log2; now exists (inr streams), rest.
    + destruct (create_log_stream client s1 group stream) as [s2 [e|u]].
      * now exists (inr streams), [Create group stream (inl e)].
      * destruct (Hpost s2 [Describe group stream (inr streams);
                            Create group stream (inr u)] None)
          as [rest Hrest].
        destruct (post_log_events _ _ _ _ _ _) as [[s3 log3] [e|rej]];
          cbn [fst snd] in *; subst log3;
          now exists (inr streams), (Create group stream (inr u) :: rest).
Qed.

End ProcessLogFileFacts.

(** ** The [log_auto] command on the day of the checkpoint *)

Section LogAutoMore.
Context {rt : Runtime}.
Variable W : Type.
Variable isfile : W -> str -> bool.
Variable process : W -> ProcessCall -> W * (exn + ResultOfLogProcessing).

(** X16.  With a checkpoint that is not dated before today, [log_auto]
    looks for no rotated file and calls [process_log_file] once: on the
    file the checkpoint names as processed, for today, with the time zone
    of the checkpoint and with [num_events_processed + num_events_skipped]
    entries skipped.  Its report is the only one. *)
Theorem log_auto_same_day (w : W) (previous_results : ResultOfLogProcessing)
    (today previous_date : date) (tz : tzinfo) :
  strptime_date (date_used previous_results) = Some previous_date ->
  date_ltb previous_date today = false ->
  ZoneInfo (tzinfo_name previous_results) = Some tz ->
  let call :=
    {| arg_skip_num_entries :=
         num_events_processed previous_results
         + num_events_skipped previous_results;
       arg_tzinfo := tz;
       arg_date_of_log_entries := today;
       arg_server_log_base_file_path :=
         server_log_base_file_path previous_results;
       arg_process_server_log_file_path :=
         processed_server_log_file_path previous_results;
       arg_log_stream_base_name := LOG_STREAM_BASE_NAME;
       arg_log_group_name := LOG_GROUP_NAME |} in
  log_auto (recording_isfile isfile) (recording_process process)
    (w, []) previous_results today
  = match process w call with
    | (w1, inl e) => ((w1, [call]), inl e)
    | (w1, inr report) => ((w1, [call]), inr [report])
    end.
Proof.
  intros Hdate Hlt Hzone call. unfold log_auto. rewrite Hdate, Hlt.
  unfold call_process. rewrite Hzone. fold call.
  unfold recording_process. cbn [fst snd app].
  destruct (process w call) as [w1 [e|report]]; reflexivity.
Qed.

(** X17.  [log_auto] processes nothing when the checkpoint cannot be used:
    if its date does not parse the run ends in [ValueError]; if its date
    parses and its time zone is unknown the run ends in the exception of
    [ZoneInfo], whether or not a rotated file exists.  Either way
    [process_log_file] is not called. *)
Theorem log_auto_unusable_checkpoint (w : W)
    (previous_results : ResultOfLogProcessing) (today : date) :
  (strptime_date (date_used previous_results) = None ->
   log_auto (recording_isfile isfile) (recording_process process)
     (w, []) previous_results today
   = ((w, []), inl ValueError_date_used))
  /\ (strptime_date (date_used previous_results) <> None ->
      ZoneInfo (tzinfo_name previous_results) = None ->
      log_auto (recording_isfile isfile) (recording_process process)
        (w, []) previous_results today
      = ((w, []), inl ZoneInfoNotFoundError)).
Proof.
  unfold log_auto. split.
  - now intros ->.
  - intros Hdate Hzone.
    destruct (strptime_date (date_used previous_results)) as [pd|];
      [|contradiction].
    destruct (date_ltb pd today).
    + unfold handle_rotation, call_process.
      destruct (recording_isfile isfile (w, []) _).
      * rewrite Hzone. reflexivity.
      * cbn [reset_after_rotation tzinfo_name]. rewrite Hzone. reflexivity.
    + unfold call_process. rewrite Hzone. reflexivity.
Qed.

End LogAutoMore.

(** ** Posting the reports *)

Section PostResultsFacts.
Variable fromisoformat_ms : str -> option Z.
Variable json_dumps : ResultOfLogProcessing -> str.
Variable S : Type.
Variable client : Client S.

Lemma report_events_spec (all_results : list ResultOfLogProcessing)
    (evs : list LogEvent) :
  report_events fromisoformat_ms json_dumps all_results = inr evs ->
  map message evs = map json_dumps all_results
  /\ map (fun ev => Some (timestamp ev)) evs
     = map (fun r => fromisoformat_ms (end_time r)) all_results.
Proof.
  revert evs. induction all_results as [|r rest IH]; intros evs;
    cbn [report_events].
  - intros H; injection H as <-. now split.
  - destruct (fromisoformat_ms (end_time r)) as [ms|] eqn:E; [|discriminate].
    destruct (report_events fromisoformat_ms json_dumps rest) as [e|evs'];
      [discriminate|].
    intros H; injection H as <-. destruct (IH evs' eq_refl) as [H1 H2].
    cbn [map message timestamp]. now rewrite H1, H2, E.
Qed.


End PostResultsFacts.

(** ** The arguments *)

Section ArgumentsFacts.

Lemma str_eqb_refl (a : str) : str_eqb a a = true.
Proof. unfold str_eqb. destruct (list_eq_dec N.eq_dec a a); congruence. Qed.

Lemma str_eqb_eq (a b : str) : str_eqb a b = true -> a = b.
Proof.
  unfold str_eqb. destruct (list_eq_dec N.eq_dec a b); [easy|discriminate].
Qed.

(** A string is never among the items of a namespace: each item is a
    pair. *)
Lemma str_not_in_kwargs (name : str) (ns : Namespace) :
  py_in (PStr name) (_get_kwargs ns) = false.
Proof.
  unfold py_in, _get_kwargs. induction ns as [|[k v] ns IH]; [reflexivity|].
  cbn [map existsb py_eq orb]. exact IH.
Qed.

Lemma getattr_setitem_same (ns : Namespace) (name : str) (v : pyval) :
  getattr (setitem ns name v) name = Some v.
Proof.
  induction ns as [|[k w] ns IH]; cbn [setitem getattr].
  - now rewrite str_eqb_refl.
  - destruct (str_eqb k name) eqn:E; cbn [getattr]; rewrite E;
      [reflexivity|exact IH].
Qed.

Lemma getattr_setitem_other (ns : Namespace) (name other : str) (v : pyval) :
  other <> name ->
  getattr (setitem ns name v) other = getattr ns other.
Proof.
  intros Hne. induction ns as [|[k w] ns IH]; cbn [setitem getattr].
  - destruct (str_eqb name other) eqn:E; [|reflexivity].
    apply str_eqb_eq in E. congruence.
  - destruct (str_eqb k name) eqn:E; cbn [getattr].
    + apply str_eqb_eq in E. subst k.
      destruct (str_eqb name other) eqn:E'; [|reflexivity].
      apply str_eqb_eq in E'. congruence.
    + now rewrite IH.
Qed.

(** X19.  For the commands [log_manual] and [log_auto] the module
    [arguments] always overwrites [process_server_log_file_path] with
    [server_log_base_file_path], whatever the namespace held for it: the
    test [name not in app_args._get_kwargs()] compares a string with pairs
    and is always true.  The other attributes stay as they were. *)
Theorem process_server_log_file_path_overwritten (app_args : Namespace)
    (command : str) (base : pyval) :
  getattr app_args (lit "command_name") = Some (PStr command) ->
  command = COMMAND_LOG_MANUAL \/ command = COMMAND_LOG_AUTO ->
  getattr app_args (lit "server_log_base_file_path") = Some base ->
  exists app_args' : Namespace,
    fill_process_server_log_file_path app_args = inr app_args'
    /\ getattr app_args' (lit "process_server_log_file_path") = Some base
    /\ forall other : str,
         other <> lit "process_server_log_file_path" ->
         getattr app_args' other = getattr app_args other.
Proof.
  intros Hcmd Hc Hbase. unfold fill_process_server_log_file_path.
  rewrite Hcmd, str_not_in_kwargs, Hbase.
  assert (Hin : py_in (PStr command)
                  [PStr COMMAND_LOG_MANUAL; PStr COMMAND_LOG_AUTO] = true).
  { unfold py_in. cbn [existsb py_eq].
    destruct Hc as [-> | ->]; rewrite str_eqb_refl;
      [reflexivity|apply orb_true_r]. }
  rewrite Hin. cbn [negb].
  eexists. split; [reflexivity|]. split.
  - apply getattr_setitem_same.
  - intros other Hne. now apply getattr_setitem_other.
Qed.

End ArgumentsFacts.

(** ** The further properties at concrete inputs *)

Lemma generate_dicts_text_witness :
  0 <= 1
  /\ snd (generate_dicts example_lines example_date 1 example_tz) = None
  /\ concat (map message
               (fst (generate_dicts example_lines example_date 1 example_tz)))
     = line_of "Done".
Proof.
  split; [lia|]. split; [reflexivity|].
  rewrite (@generate_dicts_text example_runtime example_date example_tz
             example_lines 1 ltac:(lia) eq_refl).
  reflexivity.
Defined.

Lemma generate_dicts_count_witness :
  0 <= 1
  /\ snd (generate_dicts example_lines example_date 1 example_tz) = None
  /\ len (fst (generate_dicts example_lines example_date 1 example_tz)) = 1.
Proof.
  split; [lia|]. split; [reflexivity|].
  rewrite (@generate_dicts_count example_runtime example_date example_tz
             example_lines 1 ltac:(lia) eq_refl).
  reflexivity.
Defined.

Lemma generate_dicts_negative_skip_witness :
  -1 < 0
  /\ @is_timestamp_line example_runtime (line_of "continuation") = false
  /\ generate_dicts [line_of "continuation"; line_of "10:00:00,000 Start"]
       example_date (-1) example_tz
     = ([], Some ValueError_currentDict_None).
Proof.
  split; [lia|]. split; [reflexivity|].
  apply (@generate_dicts_negative_skip example_runtime example_date
           example_tz (line_of "continuation")
           [line_of "10:00:00,000 Start"] (-1) ltac:(lia)).
  reflexivity.
Defined.

Lemma matchDate_ascii_witness :
  Forall (fun v => 0 <= v <= 9) [2; 4; 0; 0; 0; 0; 0; 0; 0]
  /\ isspace 32%N = true
  /\ @matchDate example_runtime (lit "24:00:00,000 Midnight")
     = inl ValueError_strptime.
Proof.
  assert (H : Forall (fun v => 0 <= v <= 9) [2; 4; 0; 0; 0; 0; 0; 0; 0])
    by (repeat constructor; lia).
  split; [exact H|]. split; [reflexivity|].
  exact (@matchDate_ascii example_runtime 2 4 0 0 0 0 0 0 0 32%N
           (lit "Midnight") H eq_refl).
Defined.

Lemma generate_dicts_unparsed_line_witness :
  0 <= 5
  /\ Forall (@parses example_runtime) [line_of "10:00:00,000 Start"]
  /\ @matchDate example_runtime (line_of "24:00:00,000 Midnight")
     = inl ValueError_strptime
  /\ @count_timestamp_lines example_runtime [line_of "10:00:00,000 Start"]
     <= 5
  /\ list_of_generator
       (generate_dicts
          ([line_of "10:00:00,000 Start"]
           ++ line_of "24:00:00,000 Midnight" :: [line_of "10:00:01,500 Done"])
          example_date 5 example_tz)
     = inl ValueError_strptime.
Proof.
  assert (Hp : Forall (@parses example_runtime) [line_of "10:00:00,000 Start"])
    by (constructor; [intros e; discriminate|constructor]).
  assert (Hc : @count_timestamp_lines example_runtime
                 [line_of "10:00:00,000 Start"] <= 5)
    by (vm_compute; discriminate).
  split; [lia|]. split; [exact Hp|]. split; [reflexivity|].
  split; [exact Hc|].
  exact (proj2 (proj2
           (@generate_dicts_unparsed_line example_runtime example_date
              example_tz [line_of "10:00:00,000 Start"]
              (line_of "24:00:00,000 Midnight") [line_of "10:00:01,500 Done"]
              ValueError_strptime 5 ltac:(lia) Hp eq_refl)) Hc).
Defined.

Lemma generate_dicts_resume_witness :
  0 <= 0
  /\ @whole_records example_runtime [line_of "10:00:01,500 Done"]
  /\ snd (generate_dicts
            ([line_of "10:00:00,000 Start"; line_of "continuation"]
             ++ [line_of "10:00:01,500 Done"]) example_date 0 example_tz)
     = None
  /\ len (fst (generate_dicts
                 [line_of "10:00:00,000 Start"; line_of "continuation"]
                 example_date 0 example_tz)) = 1
  /\ fst (generate_dicts
            [line_of "10:00:00,000 Start"; line_of "continuation"]
            example_date 0 example_tz)
     ++ fst (generate_dicts example_lines example_date (1 + 0) example_tz)
     = fst (generate_dicts example_lines example_date 0 example_tz).
Proof.
  split; [lia|]. split; [reflexivity|]. split; [reflexivity|].
  split; [reflexivity|].
  exact (proj2 (@generate_dicts_resume example_runtime example_date
                  example_tz
                  [line_of "10:00:00,000 Start"; line_of "continuation"]
                  [line_of "10:00:01,500 Done"] 0 ltac:(lia) eq_refl
                  eq_refl)).
Defined.

Lemma create_batches_returns_iff_witness :
  Forall (fun b => len b <= MAX_EVENTS /\ batch_chars b <= MAX_BYTES)
    (planned_batches [wide_event 120%N 1; wide_event 120%N 2])
  /\ create_batches [wide_event 120%N 1; wide_event 120%N 2]
     = inr (planned_batches [wide_event 120%N 1; wide_event 120%N 2]).
Proof.
  assert (H : Forall (fun b => len b <= MAX_EVENTS
                               /\ batch_chars b <= MAX_BYTES)
                (planned_batches [wide_event 120%N 1; wide_event 120%N 2])).
  { constructor; [|constructor]. split; vm_compute; discriminate. }
  split; [exact H|].
  exact (proj2 (proj2 (create_batches_returns_iff
                         [wide_event 120%N 1; wide_event 120%N 2])) H).
Defined.

Lemma create_batches_last_event_witness :
  [wide_event 120%N 1; wide_event 120%N 2] <> []
  /\ len [wide_event 120%N 1; wide_event 120%N 2] - 1 <= MAX_EVENTS
  /\ batch_chars (removelast [wide_event 120%N 1; wide_event 120%N 2])
     <= MAX_BYTES
  /\ planned_batches [wide_event 120%N 1; wide_event 120%N 2]
     = [[wide_event 120%N 1; wide_event 120%N 2]].
Proof.
  assert (H1 : [wide_event 120%N 1; wide_event 120%N 2] <> [])
    by discriminate.
  assert (H2 : len [wide_event 120%N 1; wide_event 120%N 2] - 1
               <= MAX_EVENTS) by (vm_compute; discriminate).
  assert (H3 : batch_chars (removelast [wide_event 120%N 1;
                                        wide_event 120%N 2]) <= MAX_BYTES)
    by (vm_compute; discriminate).
  split; [exact H1|]. split; [exact H2|]. split; [exact H3|].
  exact (proj1 (create_batches_last_event _ H1 H2 H3)).
Defined.

Lemma create_batches_oversized_event_witness :
  In (wide_event 120%N 1048551) [wide_event 120%N 1; wide_event 120%N 1048551]
  /\ MAX_BYTES < event_size (wide_event 120%N 1048551)
  /\ create_batches [wide_event 120%N 1; wide_event 120%N 1048551]
     = inl AssertionError.
Proof.
  assert (H1 : In (wide_event 120%N 1048551)
                 [wide_event 120%N 1; wide_event 120%N 1048551])
    by (right; left; reflexivity).
  assert (H2 : MAX_BYTES < event_size (wide_event 120%N 1048551)).
  { unfold event_size. rewrite len_message_wide_event by lia.
    unfold MAX_BYTES, EVENT_OVERHEAD. lia. }
  split; [exact H1|]. split; [exact H2|].
  exact (create_batches_oversized_event _ _ H1 H2).
Defined.

Lemma planned_batches_closed_within_limits_witness :
  Forall (fun ev => event_size ev <= MAX_BYTES)
    [wide_event 120%N 1; wide_event 120%N 2]
  /\ Forall (fun b => b <> [] /\ len b <= MAX_EVENTS
                      /\ batch_chars b <= MAX_BYTES)
       (removelast (planned_batches [wide_event 120%N 1; wide_event 120%N 2])).
Proof.
  assert (H : Forall (fun ev => event_size ev <= MAX_BYTES)
                [wide_event 120%N 1; wide_event 120%N 2])
    by (repeat constructor; vm_compute; discriminate).
  split; [exact H|].
  exact (proj1 (planned_batches_closed_within_limits _ H)).
Defined.

Lemma post_log_events_rejected_witness :
  exists calls : list Call,
    post_log_events (recording (example_client example_stream)) ([], [])
      LOG_GROUP_NAME example_stream (Some (lit "49"))
      [[wide_event 120%N 1]; [wide_event 120%N 2]]
    = (([[wide_event 120%N 1]; [wide_event 120%N 2]], calls), inr [])
    /\ put_events calls = [[wide_event 120%N 1]; [wide_event 120%N 2]].
Proof.
  assert (E : exists calls : list Call,
             post_log_events (recording (example_client example_stream))
               ([], []) LOG_GROUP_NAME example_stream (Some (lit "49"))
               [[wide_event 120%N 1]; [wide_event 120%N 2]]
             = (([[wide_event 120%N 1]; [wide_event 120%N 2]], calls),
                inr []))
    by (eexists; reflexivity).
  destruct E as [calls E]. exists calls. split; [exact E|].
  exact (proj1 (post_log_events_rejected _ _ _ _ _ _ _ _ _ _ E)).
Defined.

Lemma process_log_file_ships_sorted_witness :
  exists s' calls report,
    example_run = ((s', calls), inr report)
    /\ StronglySorted not_after (concat (put_events calls)).
Proof.
  assert (E : exists s' calls report, example_run = ((s', calls), inr report))
    by (vm_compute; eauto).
  destruct E as (s' & calls & report & E).
  exists s', calls, report. split; [exact E|].
  exact (proj1 (proj2 (proj2
           (@process_log_file_ships_sorted example_runtime _ _ _ _ _ _ _ _ _
              _ _ _ _ _ _ E)))).
Defined.

Lemma process_log_file_report_witness :
  exists s' calls report,
    example_run = ((s', calls), inr report)
    /\ 0 <= 0
    /\ num_events_processed report + num_events_skipped report
       = Z.max 0 (@count_timestamp_lines example_runtime example_lines).
Proof.
  assert (E : exists s' calls report, example_run = ((s', calls), inr report))
    by (vm_compute; eauto).
  destruct E as (s' & calls & report & E).
  exists s', calls, report. split; [exact E|]. split; [lia|].
  apply (@process_log_file_report example_runtime _ _ _ _ _ _ _ _ _ _ _ _ _
           _ _ E).
  lia.
Defined.

Lemma log_auto_same_day_witness :
  @strptime_date example_runtime (date_used example_checkpoint)
  = Some example_date
  /\ @date_ltb example_runtime example_date example_date = false
  /\ @ZoneInfo example_runtime (tzinfo_name example_checkpoint)
     = Some example_tz
  /\ snd (fst (log_auto (recording_isfile example_isfile)
                 (recording_process example_process)
                 ([lit "server.log"], []) example_checkpoint example_date))
     = [{| arg_skip_num_entries := 10;
           arg_tzinfo := example_tz;
           arg_date_of_log_entries := example_date;
           arg_server_log_base_file_path := lit "server.log";
           arg_process_server_log_file_path := lit "server.log";
           arg_log_stream_base_name := LOG_STREAM_BASE_NAME;
           arg_log_group_name := LOG_GROUP_NAME |}].
Proof.
  split; [reflexivity|]. split; [reflexivity|]. split; [reflexivity|].
  rewrite (@log_auto_same_day example_runtime (list str) example_isfile
             example_process [lit "server.log"] example_checkpoint
             example_date example_date example_tz eq_refl eq_refl eq_refl).
  reflexivity.
Defined.


Lemma process_server_log_file_path_overwritten_witness :
  getattr example_namespace (lit "command_name")
  = Some (PStr COMMAND_LOG_MANUAL)
  /\ getattr example_namespace (lit "process_server_log_file_path")
     = Some (PStr (lit "server.log.2021-12-21"))
  /\ exists app_args',
       fill_process_server_log_file_path example_namespace = inr app_args'
       /\ getattr app_args' (lit "process_server_log_file_path")
          = Some (PStr (lit "server.log")).
Proof.
  split; [reflexivity|]. split; [reflexivity|].
  destruct (process_server_log_file_path_overwritten example_namespace
              COMMAND_LOG_MANUAL (PStr (lit "server.log")) eq_refl
              (or_introl eq_refl) eq_refl)
    as [app_args' [H1 [H2 _]]].
  exists app_args'. split; [exact H1|exact H2].
Defined.

Lemma planned_batches_greedy_witness :
  planned_batches
    [wide_event 120%N 600000; wide_event 120%N 600000; wide_event 120%N 1]
  = [] ++ [wide_event 120%N 600000]
       :: [wide_event 120%N 600000; wide_event 120%N 1] :: []
  /\ exists e next',
       [wide_event 120%N 600000; wide_event 120%N 1] = e :: next'
       /\ (MAX_EVENTS < len [wide_event 120%N 600000] + 1
           \/ MAX_BYTES
              < batch_chars [wide_event 120%N 600000] + event_size e).
Proof.
  assert (G : forall e e3 : LogEvent,
             len (message e) = 600000 ->
             planned_batches [e; e; e3] = [] ++ [e] :: [e; e3] :: []).
  { intros e e3 Hm. unfold planned_batches. cbn [plan_loop].
    assert (H0 : plan_event [e; e; e3] 0 e
                   {| batches := []; start_pos := 0; num_events := 0;
                      cumulative_size := 0 |}
                 = {| batches := []; start_pos := 0; num_events := 1;
                      cumulative_size := 600026 |})
      by (unfold plan_event; rewrite Hm; reflexivity).
    rewrite H0.
    assert (H1 : plan_event [e; e; e3] 1 e
                   {| batches := []; start_pos := 0; num_events := 1;
                      cumulative_size := 600026 |}
                 = {| batches := [[e]]; start_pos := 1; num_events := 1;
                      cumulative_size := 600026 |})
      by (unfold plan_event; rewrite Hm; reflexivity).
    rewrite H1. reflexivity. }
  pose proof (G (wide_event 120%N 600000) (wide_event 120%N 1)
                (len_message_wide_event 120%N 600000 ltac:(lia))) as Hp.
  split; [exact Hp|].
  exact (planned_batches_greedy _ _ _ _ _ Hp).
Defined.

Lemma log_auto_unusable_checkpoint_witness :
  @strptime_date checking_runtime (date_used broken_checkpoint) = None
  /\ log_auto (rt := checking_runtime) (recording_isfile example_isfile)
       (recording_process checking_process)
       ([lit "server.log"], []) broken_checkpoint (lit "2021-12-22")
     = (([lit "server.log"], []), inl ValueError_date_used).
Proof.
  split; [reflexivity|].
  apply (proj1 (@log_auto_unusable_checkpoint checking_runtime (list str)
                  example_isfile checking_process [lit "server.log"]
                  broken_checkpoint (lit "2021-12-22"))).
  reflexivity.
Defined.
